(** * deta.base: a shallow embedding of the Deta Base client

    The module [deta/base.py] turns method calls on a [_Base] object
    (get, delete, insert, put, put_many, fetch, update) into requests
    handed to a transport collaborator ([_Service._request]).  Python
    dictionaries are objects with identity: [put_many] and [insert_ttl]
    write into the very mapping they were given.  The embedding therefore
    keeps every dictionary in a store, addressed by a location, and runs
    the methods in a state-and-exception monad over that store, the list
    of requests issued so far and the clock. *)

From Stdlib Require Import ZArith QArith Qround Qabs String Ascii List Lia.
From stdpp Require Import gmap strings list.

Local Open Scope string_scope.
Local Open Scope Z_scope.
Set Warnings "-register-all".

(** ** Values *)

Abbreviation loc := positive.

(** What the tzinfo of a datetime reports as its UTC offset for that
    datetime: a timedelta, held as a number of microseconds (datetime
    accepts none of a day or more), or None. *)
Inductive tzinfo :=
| FixedOffset (microseconds : Z)
| NoOffset.

(** A [datetime.datetime] value.  [dt_wall] counts the calendar fields
    year..second as seconds from 1970-01-01 00:00:00 on the value's own
    wall clock, [dt_microsecond] is the microsecond field, [dt_tz] is
    what the tzinfo of the value reports for it ([None] for a value
    without tzinfo, which [timestamp()] reads in the local zone) and
    [dt_fold] is the fold attribute. *)
Record datetime := mk_datetime {
  dt_wall : Z;
  dt_microsecond : Z;
  dt_tz : option tzinfo;
  dt_fold : bool
}.

(** A Python float is represented by the number it denotes: a rational
    for a finite double, or one of the two infinities, or nan. *)
Inductive pyfloat :=
| FFinite (q : Q)
| FInf (negative : bool)
| FNaN.

(** The objects the module handles.  Lists are kept by value (the module
    never writes to a list that somebody else holds); dictionaries are
    references into the store.  A str is held as its UTF-8 bytes, a lone
    surrogate (which strict UTF-8 has no bytes for) as the three bytes
    the surrogatepass handler gives it.  The last four constructors are
    instances of the marker classes of [Util]. *)
Inductive value :=
| VNone
| VBool (b : bool)
| VInt (n : Z)
| VFloat (f : pyfloat)
| VStr (s : string)
| VList (l : list value)
| VDict (r : loc)
| VDatetime (d : datetime)
| VTrim
| VIncrement (v : value)
| VAppend (v : value)
| VPrepend (v : value).

(** The contents of a dictionary with string keys, in insertion order. *)
Abbreviation dict := (list (string * value)).

Fixpoint dict_get (k : string) (d : dict) : option value :=
  match d with
  | [] => None
  | (k', v) :: d' => if String.eqb k k' then Some v else dict_get k d'
  end.

(** [d[k] = v]: an existing key keeps its place, a new one goes last. *)
Fixpoint dict_set (k : string) (v : value) (d : dict) : dict :=
  match d with
  | [] => [(k, v)]
  | (k', v') :: d' =>
      if String.eqb k k' then (k', v) :: d' else (k', v') :: dict_set k v d'
  end.

Definition dict_keys (d : dict) : list string := map fst d.

(** ** Exceptions and results *)

Inductive exn :=
| ValueError (msg : string)
| TypeError (msg : string)
| KeyError (key : string)
| IndexError
| AttributeError (attribute : string)
| OverflowError
| UnicodeEncodeError
| HTTPError (status : Z).

Inductive result (A : Type) :=
| Ok (a : A)
| Raise (e : exn).
Arguments Ok {A} a.
Arguments Raise {A} e.

(** ** The world: store, requests issued, clock *)

Record request := mk_request {
  rq_path : string;
  rq_method : string;
  rq_body : option value;
  rq_content_type : option string
}.

Record world := mk_world {
  w_heap : gmap loc dict;
  w_sent : list request;
  w_ticks : nat
}.

(** What the transport collaborator answers: a status code with the
    decoded body, or an exception; the dictionaries of the decoded body
    are new objects. *)
Record reply := mk_reply {
  rp_result : result (Z * value);
  rp_objects : gmap loc dict
}.

(** What the module takes from outside: [_Service._request] and the
    constant [JSON_MIME] of [deta/service.py], the wall clock behind
    [datetime.datetime.now()], and the local zone: the UTC offset, in
    seconds, that the C library's [localtime] has in force at a POSIX
    second. *)
Record env := mk_env {
  transport : list request -> request -> gmap loc dict -> reply;
  clock : nat -> datetime;
  local_utcoffset : Z -> Z;
  JSON_MIME : string
}.

(** ** The monad *)

Definition M (A : Type) : Type := world -> result A * world.

Definition ret {A} (a : A) : M A := fun w => (Ok a, w).

Definition raise {A} (e : exn) : M A := fun w => (Raise e, w).

Definition bind {A B} (m : M A) (k : A -> M B) : M B :=
  fun w =>
    match m w with
    | (Ok a, w') => k a w'
    | (Raise e, w') => (Raise e, w')
    end.

Notation "x <- m ;; k" := (bind m (fun x => k))
  (at level 100, m at next level, right associativity).
Notation "m ;;; k" := (bind m (fun _ => k))
  (at level 100, right associativity).

Definition lift {A} (r : result A) : M A := fun w => (r, w).

(** ** Store operations *)

Definition heap_dict (h : gmap loc dict) (r : loc) : dict := default [] (h !! r).

(** A dictionary display [{...}] and [dict.copy()] make a new object. *)
Definition new_dict (d : dict) : M loc :=
  fun w =>
    let r := fresh (dom (w_heap w)) in
    (Ok r, mk_world (<[r := d]> (w_heap w)) (w_sent w) (w_ticks w)).

Definition load (r : loc) : M dict :=
  fun w => (Ok (heap_dict (w_heap w) r), w).

(** [item[k] = v] on the dictionary object at [r]. *)
Definition setitem (r : loc) (k : string) (v : value) : M unit :=
  fun w =>
    (Ok tt,
     mk_world (<[r := dict_set k v (heap_dict (w_heap w) r)]> (w_heap w))
              (w_sent w) (w_ticks w)).

Definition copy (r : loc) : M loc := d <- load r ;; new_dict d.

(** ** Python built-ins the module relies on *)

(** Truth value testing ([if x:], [x and y], [not x]). *)
Definition float_truthy (f : pyfloat) : bool :=
  match f with
  | FFinite q => negb (Qnum q =? 0)
  | FInf _ => true
  | FNaN => true
  end.

Definition truthy (h : gmap loc dict) (v : value) : bool :=
  match v with
  | VNone => false
  | VBool b => b
  | VInt n => negb (n =? 0)
  | VFloat f => float_truthy f
  | VStr s => negb (String.eqb s "")
  | VList l => match l with [] => false | _ => true end
  | VDict r => match heap_dict h r with [] => false | _ => true end
  | VDatetime _ => true
  | VTrim | VIncrement _ | VAppend _ | VPrepend _ => true
  end.

Definition truth (v : value) : M bool :=
  fun w => (Ok (truthy (w_heap w) v), w).

(** [isinstance(v, dict)], [isinstance(v, list)], [isinstance(v, bool)],
    [isinstance(v, (int, float))] ([bool] is a subclass of [int]),
    [isinstance(v, datetime.datetime)] and [isinstance(v, Sequence)]
    (of the objects modelled here, lists and strings are sequences). *)
Definition is_dict (v : value) : bool :=
  match v with VDict _ => true | _ => false end.
Definition is_list (v : value) : bool :=
  match v with VList _ => true | _ => false end.
Definition is_bool (v : value) : bool :=
  match v with VBool _ => true | _ => false end.
Definition is_number (v : value) : bool :=
  match v with VBool _ | VInt _ | VFloat _ => true | _ => false end.
Definition is_datetime (v : value) : bool :=
  match v with VDatetime _ => true | _ => false end.
Definition is_sequence (v : value) : bool :=
  match v with VList _ | VStr _ => true | _ => false end.

(** [int(x)] for a number: a float is truncated towards zero. *)
Definition float_int (f : pyfloat) : result Z :=
  match f with
  | FFinite q => Ok (Z.quot (Qnum q) (Zpos (Qden q)))
  | FInf _ => Raise OverflowError
  | FNaN => Raise (ValueError "cannot convert float NaN to integer")
  end.

Definition py_int (v : value) : result Z :=
  match v with
  | VBool b => Ok (if b then 1 else 0)
  | VInt n => Ok n
  | VFloat f => float_int f
  | _ => Raise (TypeError "int() argument must be a string, a bytes-like object or a real number")
  end.

(** *** Floating point *)

(** Rounding to the nearest integer, ties to even. *)
Definition round_half_even (q : Q) : Z :=
  let n := Qnum q in
  let d := Zpos (Qden q) in
  let f := n / d in
  match (2 * (n mod d)) ?= d with
  | Lt => f
  | Gt => f + 1
  | Eq => if Z.even f then f else f + 1
  end.

(** [2 ** e]. *)
Definition pow2 (e : Z) : Q :=
  Qmake (2 ^ Z.max e 0) (Z.to_pos (2 ^ Z.max (- e) 0)).

(** The binade of a rational that is not zero: the [e] with
    [2**e <= |q| < 2**(e+1)]. *)
Definition binade (q : Q) : Z :=
  let n := Z.abs (Qnum q) in
  let d := Zpos (Qden q) in
  if d <=? n then Z.log2 (n / d)
  else - Z.log2_up ((d + n - 1) / n).

(** Rounding to the nearest binary64 number, ties to even: 53 bits of
    significand, and no bit below [2**-1074]. *)
Definition round_double (q : Q) : Q :=
  if Qnum q =? 0 then 0%Q
  else
    let s := Z.max (binade q - 52) (-1074) in
    Qmult (inject_Z (round_half_even (Qdiv q (pow2 s)))) (pow2 s).

(** The float nearest to a rational: past the largest finite float, an
    infinity. *)
Definition to_double (q : Q) : pyfloat :=
  let r := round_double q in
  if Qle_bool (pow2 1024) (Qabs r) then FInf (Qnum q <? 0) else FFinite r.

Arguments pow2 : simpl never.
Arguments round_double : simpl never.
Arguments to_double : simpl never.

(** *** datetime *)

Definition US_PER_SECOND : Z := 1000000.

(** The wall-clock seconds of [datetime.min] and [datetime.max]
    (0001-01-01 00:00:00 and 9999-12-31 23:59:59). *)
Definition MIN_WALL : Z := -62135596800.
Definition MAX_WALL : Z := 253402300799.

(** [d.replace(microsecond=us)]. *)
Definition replace_microsecond (d : datetime) (us : Z) : datetime :=
  mk_datetime (dt_wall d) us (dt_tz d) (dt_fold d).

(** [local(u)] of CPython's datetime: the wall-clock second the local
    zone shows at the POSIX second [u].  It fails when that second lies
    outside the years 1 to 9999: the offsets of a zone being less than a
    day, in the year 0 or in the year 10000. *)
Definition local (E : env) (u : Z) : result Z :=
  let l := u + local_utcoffset E u in
  if l <? MIN_WALL then Raise (ValueError "year 0 is out of range")
  else if MAX_WALL <? l then Raise (ValueError "year 10000 is out of range")
  else Ok l.

Definition max_fold_seconds : Z := 24 * 3600.

(** [local_to_seconds] of CPython's datetime: the POSIX second [u] at
    which the local zone shows the wall-clock second [t], looked for with
    the offsets in force around [t]; of two such seconds [fold] says
    which, and in a gap of the wall clock the second is counted on from
    either side. *)
Definition local_to_seconds (E : env) (t : Z) (fold : bool) : result Z :=
  match local E t with
  | Raise e => Raise e
  | Ok lt =>
      let a := lt - t in
      let u1 := t - a in
      match local E u1 with
      | Raise e => Raise e
      | Ok t1 =>
          let other (b : Z) : result Z :=
            let u2 := t - b in
            match local E u2 with
            | Raise e => Raise e
            | Ok t2 =>
                if t2 =? t then Ok u2
                else if t1 =? t then Ok u1
                else Ok (if fold then Z.min u1 u2 else Z.max u1 u2)
            end in
          if t1 =? t then
            let u2 := if fold then u1 + max_fold_seconds else u1 - max_fold_seconds in
            match local E u2 with
            | Raise e => Raise e
            | Ok lt2 =>
                let b := lt2 - u2 in
                if a =? b then Ok u1 else other b
            end
          else other (t1 - u1)
      end
  end.

(** [d.timestamp()].  With a tzinfo it is [(d - epoch).total_seconds()],
    the quotient of two integers as a float; without one, the local
    second as a float plus the float of the microseconds. *)
Definition timestamp (E : env) (d : datetime) : result pyfloat :=
  match dt_tz d with
  | Some (FixedOffset off) =>
      Ok (to_double (Qmake (dt_wall d * US_PER_SECOND + dt_microsecond d - off) 1000000))
  | Some NoOffset =>
      Raise (TypeError "can't subtract offset-naive and offset-aware datetimes")
  | None =>
      match local_to_seconds E (dt_wall d) (dt_fold d) with
      | Ok u =>
          Ok (to_double (Qplus (round_double (inject_Z u))
                               (round_double (Qmake (dt_microsecond d) 1000000))))
      | Raise e => Raise e
      end
  end.

Arguments local_to_seconds : simpl never.
Arguments timestamp : simpl never.

(** [type(x).__name__], as an error message spells it. *)
Definition type_name (v : value) : string :=
  match v with
  | VNone => "NoneType"
  | VBool _ => "bool"
  | VInt _ => "int"
  | VFloat _ => "float"
  | VStr _ => "str"
  | VList _ => "list"
  | VDict _ => "dict"
  | VDatetime _ => "datetime.datetime"
  | VTrim => "Trim"
  | VIncrement _ => "Increment"
  | VAppend _ => "Append"
  | VPrepend _ => "Prepend"
  end.

(** [datetime.timedelta(seconds=x)], as a whole number of microseconds.
    A timedelta holds at most 999999999 days in either direction. *)
Definition timedelta_in_range (us : Z) : result Z :=
  let days := us / (86400 * US_PER_SECOND) in
  if (Z.abs days <=? 999999999) then Ok us else Raise OverflowError.

(** A float is split into its whole and its fractional part; the whole
    seconds are counted exactly, the fraction is multiplied by a million
    as a float and rounded to a whole number of microseconds, ties to
    even. *)
Definition timedelta_seconds (x : value) : result Z :=
  match x with
  | VBool b => timedelta_in_range ((if b then 1 else 0) * US_PER_SECOND)
  | VInt n => timedelta_in_range (n * US_PER_SECOND)
  | VFloat (FFinite q) =>
      let whole := Z.quot (Qnum q) (Zpos (Qden q)) in
      let fraction := Qminus q (inject_Z whole) in
      timedelta_in_range
        (whole * US_PER_SECOND
         + round_half_even (round_double (Qmult (inject_Z US_PER_SECOND) fraction)))
  | VFloat (FInf _) => Raise OverflowError
  | VFloat FNaN => Raise (ValueError "cannot convert float NaN to integer")
  | _ => Raise (TypeError ("unsupported type for timedelta seconds component: "
                           ++ type_name x))
  end.

(** [d + delta]: arithmetic on the wall-clock fields; the result has to
    lie between [datetime.min] and [datetime.max], keeps the tzinfo and
    has fold 0. *)
Definition datetime_add (d : datetime) (delta_us : Z) : result datetime :=
  let us := dt_microsecond d + delta_us in
  let wall := dt_wall d + us / US_PER_SECOND in
  if (MIN_WALL <=? wall) && (wall <=? MAX_WALL)
  then Ok (mk_datetime wall (us mod US_PER_SECOND) (dt_tz d) false)
  else Raise OverflowError.

(** *** Subscripts and [dict.get] *)

Definition list_index (l : list value) (i : Z) : result value :=
  let j := if i <? 0 then Z.of_nat (length l) + i else i in
  if j <? 0 then Raise IndexError
  else match nth_error l (Z.to_nat j) with
       | Some v => Ok v
       | None => Raise IndexError
       end.

(** [o[k]] for a string key [k]. *)
Definition getitem_str (o : value) (k : string) : M value :=
  fun w =>
    match o with
    | VDict r =>
        match dict_get k (heap_dict (w_heap w) r) with
        | Some v => (Ok v, w)
        | None => (Raise (KeyError k), w)
        end
    | VList _ => (Raise (TypeError "list indices must be integers or slices, not str"), w)
    | VStr _ => (Raise (TypeError "string indices must be integers, not 'str'"), w)
    | _ => (Raise (TypeError "object is not subscriptable"), w)
    end.

(** [o[i]] for an integer [i]. *)
Definition getitem_int (o : value) (i : Z) : M value :=
  fun w =>
    match o with
    | VList l => (list_index l i, w)
    | VStr s =>
        let j := if i <? 0 then Z.of_nat (String.length s) + i else i in
        if j <? 0 then (Raise IndexError, w)
        else match String.get (Z.to_nat j) s with
             | Some c => (Ok (VStr (String c EmptyString)), w)
             | None => (Raise IndexError, w)
             end
    | VDict _ => (Raise (KeyError "0"), w)
    | _ => (Raise (TypeError "object is not subscriptable"), w)
    end.

(** [o.get(k)]. *)
Definition method_get (o : value) (k : string) : M value :=
  fun w =>
    match o with
    | VDict r => (Ok (default VNone (dict_get k (heap_dict (w_heap w) r))), w)
    | _ => (Raise (AttributeError "get"), w)
    end.

(** [o.items()]. *)
Definition method_items (o : value) : M dict :=
  match o with
  | VDict r => load r
  | _ => raise (AttributeError "items")
  end.

(** *** urllib.parse.quote(key, safe="") *)

Definition is_unreserved (c : ascii) : bool :=
  let n := nat_of_ascii c in
  ((65 <=? n) && (n <=? 90) || (97 <=? n) && (n <=? 122)
   || (48 <=? n) && (n <=? 57)
   || (n =? 95) || (n =? 46) || (n =? 45) || (n =? 126))%nat.

Definition hex_digit (n : nat) : ascii :=
  match String.get n "0123456789ABCDEF" with
  | Some c => c
  | None => "0"%char
  end.

(** The percent-encoding of the bytes of a str (urllib's
    [quote_from_bytes] with [safe=""]). *)
Fixpoint quote (s : string) : string :=
  match s with
  | EmptyString => EmptyString
  | String c s' =>
      if is_unreserved c then String c (quote s')
      else
        let n := nat_of_ascii c in
        String "%" (String (hex_digit (n / 16)) (String (hex_digit (n mod 16)) (quote s')))
  end.

(** A lone surrogate, in the bytes a str is held as: the byte ED followed
    by a byte from A0 to BF. *)
Fixpoint has_surrogate (s : string) : bool :=
  match s with
  | EmptyString => false
  | String c s' =>
      match s' with
      | EmptyString => false
      | String c' _ =>
          ((nat_of_ascii c =? 237) && (160 <=? nat_of_ascii c')
           && (nat_of_ascii c' <=? 191))%nat
      end || has_surrogate s'
  end.

(** [urllib.parse.quote(s, safe="")] for a str: the str is encoded as
    UTF-8, strictly, and its bytes are percent-encoded. *)
Definition quote_str (s : string) : result string :=
  if has_surrogate s then Raise UnicodeEncodeError else Ok (quote s).

(** *** Keys

    A key argument is an [Optional[str]]. *)
Definition key_truthy (key : option string) : bool :=
  match key with
  | Some s => negb (String.eqb s "")
  | None => false
  end.

(** [str(key)], as an f-string renders it. *)
Definition key_str (key : option string) : string :=
  match key with
  | Some s => s
  | None => "None"
  end.

(** [o[k] = v]. *)
Definition setitem_of (o : value) (k : string) (v : value) : M unit :=
  match o with
  | VDict r => setitem r k v
  | _ => raise (TypeError "object does not support item assignment")
  end.

(** [o[k].append(x)]: lists are values here, so appending in place to
    the list held under [o[k]] is the update of that entry. *)
Definition append_at (o : value) (k : string) (x : value) : M unit :=
  l <- getitem_str o k ;;
  match l with
  | VList xs => setitem_of o k (VList (xs ++ [x]))
  | _ => raise (AttributeError "append")
  end.

(** [for x in xs: body(x)]. *)
Fixpoint for_each {A} (xs : list A) (body : A -> M unit) : M unit :=
  match xs with
  | [] => ret tt
  | x :: xs' => body x ;;; for_each xs' body
  end.

(** ** Module constants *)

Definition BASE_SERVICE_TIMEOUT : Z := 300.
Definition BASE_TTL_ATTRIBUTE : string := "__expires".

(** ** class FetchResponse *)

Record FetchResponse := mk_FetchResponse {
  count : value;
  last : value;
  items : value
}.

(** [FetchResponse.__init__]. *)
Definition FetchResponse_init (count last items : value) : FetchResponse :=
  mk_FetchResponse count last
    (match items with VNone => VList [] | _ => items end).

(** ** class Util *)

Module Util.

(** The constructors of the marker classes. *)
Definition Trim : value := VTrim.

Definition Increment (v : value) : value := VIncrement v.

Definition Append (v : value) : value :=
  VAppend (if is_list v then v else VList [v]).

Definition Prepend (v : value) : value :=
  VPrepend (if is_list v then v else VList [v]).

(** [Increment()] with the default [value=1]. *)
Definition Increment_default : value := Increment (VInt 1).

Definition trim : value := Trim.
Definition increment (v : value) : value := Increment v.
Definition append (v : value) : value := Append v.
Definition prepend (v : value) : value := Prepend v.

End Util.

(** ** class _Base *)

Record _Base := mk_Base {
  base_name : string;
  _ttl_attribute : string
}.

(** [_Base.__init__] (the call to [_Service.__init__] configures the
    transport collaborator and is not modelled). *)
Definition Base_init (name : string) : result _Base :=
  if String.eqb name "" then
    Raise (ValueError "parameter 'name' must be a non-empty string")
  else Ok (mk_Base name BASE_TTL_ATTRIBUTE).

Section Deta.

Variable E : env.

(** [datetime.datetime.now()]: what the wall clock shows, as a value
    without tzinfo. *)
Definition now : M datetime :=
  fun w =>
    let t := clock E (w_ticks w) in
    (Ok (mk_datetime (dt_wall t) (dt_microsecond t) None (dt_fold t)),
     mk_world (w_heap w) (w_sent w) (S (w_ticks w))).

(** [self._request(path, method, data, content_type=...)]: the request
    is recorded, the collaborator answers, and the objects of the decoded
    body join the store; the objects already there are not its to
    change. *)
Definition _request (path method : string) (data : option value)
    (content_type : option string) : M (Z * value) :=
  fun w =>
    let rq := mk_request path method data content_type in
    let rp := transport E (w_sent w) rq (w_heap w) in
    (rp_result rp,
     mk_world (w_heap w ∪ rp_objects rp) (w_sent w ++ [rq]) (w_ticks w)).

(** *** insert_ttl *)

Definition insert_ttl (item : value) (ttl_attribute : string)
    (expire_in expire_at : value) : M unit :=
  t_in <- truth expire_in ;;
  t_at <- truth expire_at ;;
  if t_in && t_at then
    raise (ValueError "'expire_in' and 'expire_at' are mutually exclusive parameters")
  else if negb t_in && negb t_at then ret tt
  else
    expire_at <-
      (if t_in then
         t <- now ;;
         delta <- lift (timedelta_seconds expire_in) ;;
         d <- lift (datetime_add t delta) ;;
         ret (VDatetime d)
       else ret expire_at) ;;
    expire_at <-
      (match expire_at with
       | VDatetime d =>
           f <- lift (timestamp E (replace_microsecond d 0)) ;; ret (VFloat f)
       | _ =>
           if negb (is_number expire_at) then
             raise (TypeError "'expire_at' must be of type 'int', 'float' or 'datetime'")
           else ret expire_at
       end) ;;
    n <- lift (py_int expire_at) ;;
    setitem_of item ttl_attribute (VInt n).

(** *** _Base.get, _Base.delete *)

Definition get (self : _Base) (key : option string) : M value :=
  if negb (key_truthy key) then
    raise (ValueError "parameter 'key' must be a non-empty string")
  else
    key <- lift (quote_str (key_str key)) ;;
    cr <- _request ("/items/" ++ key) "GET" None None ;;
    ret (snd cr).

Definition delete (self : _Base) (key : option string) : M value :=
  if negb (key_truthy key) then
    raise (ValueError "parameter 'key' must be a non-empty string")
  else
    key <- lift (quote_str (key_str key)) ;;
    _request ("/items/" ++ key) "DELETE" None None ;;;
    ret VNone.

(** *** _Base.insert, _Base.put *)

(** [data.copy() if isinstance(data, dict) else {"value": data}]. *)
Definition as_item (data : value) : M value :=
  match data with
  | VDict r => c <- copy r ;; ret (VDict c)
  | _ => c <- new_dict [("value", data)] ;; ret (VDict c)
  end.

Definition insert (self : _Base) (data : value) (key : option string)
    (expire_in expire_at : value) : M value :=
  data <- as_item data ;;
  (if key_truthy key then setitem_of data "key" (VStr (key_str key)) else ret tt) ;;;
  insert_ttl data (_ttl_attribute self) expire_in expire_at ;;;
  body <- new_dict [("item", data)] ;;
  cr <- _request "/items" "POST" (Some (VDict body)) (Some (JSON_MIME E)) ;;
  let code := fst cr in
  let res := snd cr in
  if Z.eqb code 201 then ret res
  else if Z.eqb code 409 then
    raise (ValueError ("item with  key '" ++ key_str key ++ "' already exists"))
  else ret VNone.

Definition put (self : _Base) (data : value) (key : option string)
    (expire_in expire_at : value) : M value :=
  data <- as_item data ;;
  (if key_truthy key then setitem_of data "key" (VStr (key_str key)) else ret tt) ;;;
  insert_ttl data (_ttl_attribute self) expire_in expire_at ;;;
  body <- new_dict [("items", VList [data])] ;;
  cr <- _request "/items" "PUT" (Some (VDict body)) (Some (JSON_MIME E)) ;;
  let code := fst cr in
  let res := snd cr in
  t <- truth res ;;
  if t && Z.eqb code 207 then
    processed <- getitem_str res "processed" ;;
    its <- getitem_str processed "items" ;;
    getitem_int its 0
  else ret VNone.

(** *** _Base.put_many *)

(** The loop of [put_many]; [_items] is the list built so far. *)
Fixpoint put_many_loop (self : _Base) (items : list value) (_items : list value)
    (expire_in expire_at : value) : M (list value) :=
  match items with
  | [] => ret _items
  | item :: rest =>
      data <- (if negb (is_dict item) then
                 c <- new_dict [("value", item)] ;; ret (VDict c)
               else ret item) ;;
      insert_ttl data (_ttl_attribute self) expire_in expire_at ;;;
      put_many_loop self rest (_items ++ [data]) expire_in expire_at
  end.

Definition put_many (self : _Base) (items : list value)
    (expire_in expire_at : value) : M value :=
  if (25 <? Z.of_nat (length items)) then
    raise (ValueError "cannot put more than 25 items at a time")
  else
    _items <- put_many_loop self items [] expire_in expire_at ;;
    body <- new_dict [("items", VList _items)] ;;
    cr <- _request "/items" "PUT" (Some (VDict body)) (Some (JSON_MIME E)) ;;
    ret (snd cr).

(** *** _Base.fetch *)

Definition fetch (self : _Base) (query limit last : value) : M FetchResponse :=
  payload <- new_dict [("limit", limit);
                       ("last", if negb (is_bool last) then last else VNone)] ;;
  q <- truth query ;;
  (if q then
     setitem payload "query" (if is_sequence query then query else VList [query])
   else ret tt) ;;;
  cr <- _request "/query" "POST" (Some (VDict payload)) (Some (JSON_MIME E)) ;;
  let res := snd cr in
  paging <- method_get res "paging" ;;
  size <- method_get paging "size" ;;
  lst <- method_get paging "last" ;;
  its <- method_get res "items" ;;
  ret (FetchResponse_init size lst its).

(** *** _Base.update *)

(** The body of the loop over [updates.items()]. *)
Definition update_step (payload : value) (av : string * value) : M unit :=
  let attr := fst av in
  let value := snd av in
  match value with
  | VTrim => append_at payload "delete" (VStr attr)
  | VIncrement x =>
      b <- getitem_str payload "increment" ;; setitem_of b attr x
  | VAppend x =>
      b <- getitem_str payload "append" ;; setitem_of b attr x
  | VPrepend x =>
      b <- getitem_str payload "prepend" ;; setitem_of b attr x
  | _ =>
      b <- getitem_str payload "set" ;; setitem_of b attr value
  end.

(** Lines 287-306 of [update]: the payload display and the
    classification of the updates; the result is the payload. *)
Definition update_payload (updates : value) : M value :=
  b_set <- new_dict [] ;;
  b_increment <- new_dict [] ;;
  b_append <- new_dict [] ;;
  b_prepend <- new_dict [] ;;
  payload <- new_dict [("set", VDict b_set);
                       ("increment", VDict b_increment);
                       ("append", VDict b_append);
                       ("prepend", VDict b_prepend);
                       ("delete", VList [])] ;;
  t <- truth updates ;;
  (if t then
     its <- method_items updates ;;
     for_each its (update_step (VDict payload))
   else ret tt) ;;;
  ret (VDict payload).

Definition update (self : _Base) (updates : value) (key : option string)
    (expire_in expire_at : value) : M value :=
  if negb (key_truthy key) then
    raise (ValueError "parameter 'key' must be a non-empty string")
  else
    payload <- update_payload updates ;;
    b_set <- getitem_str payload "set" ;;
    insert_ttl b_set (_ttl_attribute self) expire_in expire_at ;;;
    encoded_key <- lift (quote_str (key_str key)) ;;
    cr <- _request ("/items/" ++ encoded_key) "PATCH" (Some payload) (Some (JSON_MIME E)) ;;
    let code := fst cr in
    if Z.eqb code 404 then
      raise (ValueError ("key '" ++ key_str key ++ "' not found"))
    else ret VNone.

End Deta.

(** * Specification vocabulary *)

(** A value is live when it is not a reference to a missing object. *)
Definition live (h : gmap loc dict) (v : value) : Prop :=
  forall r, v = VDict r -> is_Some (h !! r).

(** The error of [insert_ttl] for two expirations at once. *)
Definition MUTUALLY_EXCLUSIVE : exn :=
  ValueError "'expire_in' and 'expire_at' are mutually exclusive parameters".

(** The world after [item[k] = v] on the object at [r]. *)
Definition world_set (w : world) (r : loc) (k : string) (v : value) : world :=
  mk_world (<[r := dict_set k v (heap_dict (w_heap w) r)]> (w_heap w))
           (w_sent w) (w_ticks w).

(** ** The five buckets of an update, as the specification words them *)

Inductive bucket := BSet | BIncrement | BAppend | BPrepend | BDelete.

Definition bucket_eqb (k k' : bucket) : bool :=
  match k, k' with
  | BSet, BSet | BIncrement, BIncrement | BAppend, BAppend
  | BPrepend, BPrepend | BDelete, BDelete => true
  | _, _ => false
  end.

Record buckets := mk_buckets {
  b_set : dict;
  b_increment : dict;
  b_append : dict;
  b_prepend : dict;
  b_delete : list string
}.

Definition no_buckets : buckets := mk_buckets [] [] [] [] [].

(** The bucket a value goes to, by its marker type. *)
Definition bucket_of (v : value) : bucket :=
  match v with
  | VTrim => BDelete
  | VIncrement _ => BIncrement
  | VAppend _ => BAppend
  | VPrepend _ => BPrepend
  | _ => BSet
  end.

(** What is placed there for attribute [attr]: the attribute's name in
    [delete], the marker's value in its bucket, the raw value in [set]. *)
Definition placed_value (attr : string) (v : value) : value :=
  match v with
  | VTrim => VStr attr
  | VIncrement x => x
  | VAppend x => x
  | VPrepend x => x
  | _ => v
  end.

(** The classification rule of the specification, one pair at a time. *)
Definition classify_pair (B : buckets) (av : string * value) : buckets :=
  let attr := fst av in
  let v := snd av in
  match bucket_of v with
  | BDelete =>
      mk_buckets (b_set B) (b_increment B) (b_append B) (b_prepend B)
                 (b_delete B ++ [attr])
  | BIncrement =>
      mk_buckets (b_set B) (dict_set attr (placed_value attr v) (b_increment B))
                 (b_append B) (b_prepend B) (b_delete B)
  | BAppend =>
      mk_buckets (b_set B) (b_increment B)
                 (dict_set attr (placed_value attr v) (b_append B))
                 (b_prepend B) (b_delete B)
  | BPrepend =>
      mk_buckets (b_set B) (b_increment B) (b_append B)
                 (dict_set attr (placed_value attr v) (b_prepend B)) (b_delete B)
  | BSet =>
      mk_buckets (dict_set attr (placed_value attr v) (b_set B)) (b_increment B)
                 (b_append B) (b_prepend B) (b_delete B)
  end.

Definition classify_from (B : buckets) (updates : dict) : buckets :=
  fold_left classify_pair updates B.

Definition classify (updates : dict) : buckets := classify_from no_buckets updates.

(** What bucket [k] of [B] holds for attribute [attr]. *)
Definition placed (B : buckets) (k : bucket) (attr : string) : option value :=
  match k with
  | BSet => dict_get attr (b_set B)
  | BIncrement => dict_get attr (b_increment B)
  | BAppend => dict_get attr (b_append B)
  | BPrepend => dict_get attr (b_prepend B)
  | BDelete => if existsb (String.eqb attr) (b_delete B) then Some (VStr attr) else None
  end.

(** The payload dictionary of [update], with its buckets at the given
    locations. *)
Definition payload_dict (s i a p : loc) (dl : list string) : dict :=
  [("set", VDict s); ("increment", VDict i); ("append", VDict a);
   ("prepend", VDict p); ("delete", VList (map VStr dl))].

(** The store holds the payload at [r] and its buckets, with the
    contents [B]. *)
Definition payload_at (h : gmap loc dict) (r s i a p : loc) (B : buckets) : Prop :=
  h !! r = Some (payload_dict s i a p (b_delete B)) /\
  h !! s = Some (b_set B) /\
  h !! i = Some (b_increment B) /\
  h !! a = Some (b_append B) /\
  h !! p = Some (b_prepend B) /\
  NoDup [r; s; i; a; p].

(** The pairs [updates.items()] yields when [updates] is a dictionary. *)
Definition updates_items (h : gmap loc dict) (updates : value) : dict :=
  match updates with
  | VDict u => heap_dict h u
  | _ => []
  end.

(** ** Sample data *)

(** A collaborator that gives the same answer to every request, a clock
    that stands still and a zone one hour east of Greenwich. *)
Definition sample_env (rp : reply) : env :=
  mk_env (fun _ _ _ => rp)
         (fun _ => mk_datetime 1700000000 250000 None false)
         (fun _ => 3600)
         "application/json".

Definition sample_base : _Base := mk_Base "books" BASE_TTL_ATTRIBUTE.

(** A world whose only object is the dictionary [d], at location 1. *)
Definition world_with (d : dict) : world := mk_world {[ 1%positive := d ]} [] 0.

Definition empty_world : world := mk_world ∅ [] 0.

(** One attribute per marker kind. *)
Definition sample_updates : dict :=
  [("trim_attr", Util.Trim);
   ("incr_attr", Util.Increment (VInt 5));
   ("append_attr", Util.Append (VList [VInt 1; VInt 2]));
   ("prepend_attr", Util.Prepend (VInt 0))].

(** The error of a missing key, of an oversized batch, and of an insert
    that meets an existing key. *)
Definition EMPTY_KEY : exn :=
  ValueError "parameter 'key' must be a non-empty string".

Definition TOO_MANY_ITEMS : exn :=
  ValueError "cannot put more than 25 items at a time".

Definition ALREADY_EXISTS (key : string) : exn :=
  ValueError ("item with  key '" ++ key ++ "' already exists").

(** A call was turned down for its two expirations: it raised the
    error, issued no request and left every object of the store as it
    was. *)
Definition rejected {A} (w : world) (out : result A * world) : Prop :=
  fst out = Raise MUTUALLY_EXCLUSIVE /\
  w_sent (snd out) = w_sent w /\
  w_heap w ⊆ w_heap (snd out).

(** The item [insert] and [put] send: a copy of a dictionary or
    [{"value": data}], with the key when one is given. *)
Definition item_contents (h : gmap loc dict) (data : value) (key : option string) : dict :=
  let d := match data with
           | VDict r => heap_dict h r
           | _ => [("value", data)]
           end in
  if key_truthy key then dict_set "key" (VStr (key_str key)) d else d.

(** The world with one more object, holding [d]. *)
Definition world_alloc (w : world) (d : dict) : world :=
  mk_world (<[fresh (dom (w_heap w)) := d]> (w_heap w)) (w_sent w) (w_ticks w).

(** An answer without a body, and half a second before the epoch as a
    UTC datetime. *)
Definition sample_ok : reply := mk_reply (Ok (200, VNone)) ∅.


(** The rational [q] is the whole number [n]. *)
Definition integral (q : Q) (n : Z) : Prop := Qnum q = n * Zpos (Qden q).

(** The instant a datetime denotes, in seconds since the epoch, as an
    exact rational; none where [timestamp()] has none to give. *)
Definition instant (E : env) (d : datetime) : result Q :=
  match dt_tz d with
  | Some (FixedOffset off) =>
      Ok (Qmake (dt_wall d * US_PER_SECOND + dt_microsecond d - off) 1000000)
  | Some NoOffset =>
      Raise (TypeError "can't subtract offset-naive and offset-aware datetimes")
  | None =>
      match local_to_seconds E (dt_wall d) (dt_fold d) with
      | Ok u => Ok (Qmake (u * US_PER_SECOND + dt_microsecond d) 1000000)
      | Raise e => Raise e
      end
  end.

(** The UTC offset of the datetime is a whole number of seconds (that of
    the local zone always is). *)
Definition whole_seconds (d : datetime) : bool :=
  match dt_tz d with
  | Some (FixedOffset off) => off mod US_PER_SECOND =? 0
  | _ => true
  end.



(** The payload of [fetch] for a query that tests true or false. *)
Definition fetch_payload (query_given : bool) (query limit last : value) : dict :=
  [("limit", limit); ("last", if is_bool last then VNone else last)] ++
  (if query_given
   then [("query", if is_sequence query then query else VList [query])]
   else []).

(** A computation that only reads the world. *)
Definition readonly {A} (m : M A) : Prop := forall w, snd (m w) = w.

(** An answer 207 whose body reports the item as failed and nothing as
    processed, and an answer 409 without a body. *)
Definition skipped_reply : reply :=
  mk_reply (Ok (207, VDict 100%positive))
    (list_to_map
       [(100%positive, [("processed", VDict 101%positive); ("failed", VDict 102%positive)]);
        (101%positive, [("items", VList [])]);
        (102%positive, [("items", VList [VDict 103%positive])]);
        (103%positive, [("value", VInt 1)])]).

Definition conflict_reply : reply := mk_reply (Ok (409, VNone)) ∅.

(** An answer 207 whose body reports one item as processed, and an
    answer 201 with the created item. *)
Definition stored_reply : reply :=
  mk_reply (Ok (207, VDict 100%positive))
    (list_to_map
       [(100%positive, [("processed", VDict 101%positive)]);
        (101%positive, [("items", VList [VDict 102%positive])]);
        (102%positive, [("key", VStr "abc"); ("value", VInt 1)])]).

Definition created_reply : reply :=
  mk_reply (Ok (201, VDict 100%positive))
    (list_to_map [(100%positive, [("key", VStr "abc"); ("value", VInt 1)])]).

(** The world once [insert] or [put] has sent the request whose body is
    the dictionary [body], and what the collaborator answered. *)
Definition sent_world (E : env) (method : string) (body : dict) (w : world) : world :=
  let b := fresh (dom (w_heap w)) in
  let rq := mk_request "/items" method (Some (VDict b)) (Some (JSON_MIME E)) in
  let h := <[b := body]> (w_heap w) in
  mk_world (h ∪ rp_objects (transport E (w_sent w) rq h))
           (w_sent w ++ [rq])%list (w_ticks w).

Definition answer (E : env) (method : string) (body : dict) (w : world)
  : result (Z * value) :=
  let b := fresh (dom (w_heap w)) in
  let rq := mk_request "/items" method (Some (VDict b)) (Some (JSON_MIME E)) in
  rp_result (transport E (w_sent w) rq (<[b := body]> (w_heap w))).

(** ** Vocabulary of the further properties *)

(** The characters a quoted key is made of: the unreserved ones and the
    percent sign. *)
Definition is_quoted_char (c : ascii) : bool :=
  is_unreserved c || Ascii.eqb c "%".

(** The request [get] and [delete] issue for a key. *)
Definition item_request (method : string) (key : option string) : request :=
  mk_request ("/items/" ++ quote (key_str key)) method None None.

(** The request [update] issues for a key, with the payload at [r], and
    the error it raises when the answer is 404. *)
Definition update_request (E : env) (key : option string) (r : loc) : request :=
  mk_request ("/items/" ++ quote (key_str key)) "PATCH" (Some (VDict r))
             (Some (JSON_MIME E)).

Definition NOT_FOUND (key : string) : exn :=
  ValueError ("key '" ++ key ++ "' not found").

(** An answer 404 without a body. *)
Definition missing_reply : reply := mk_reply (Ok (404, VNone)) ∅.

(** The buckets [B] with the expiration [n] written into [set]. *)
Definition with_ttl (attr : string) (n : Z) (B : buckets) : buckets :=
  mk_buckets (dict_set attr (VInt n) (b_set B)) (b_increment B) (b_append B)
             (b_prepend B) (b_delete B).

(** The world once the clock has been read. *)
Definition world_tick (w : world) : world :=
  mk_world (w_heap w) (w_sent w) (S (w_ticks w)).

(** The error of [insert_ttl] for an [expire_at] of another type. *)
Definition BAD_EXPIRE_AT : exn :=
  TypeError "'expire_at' must be of type 'int', 'float' or 'datetime'".

(** The store [h'] differs from [h], on the objects of [h], at most
    under the attribute [attr]. *)
Definition ttl_only (attr : string) (h h' : gmap loc dict) : Prop :=
  forall r d, h !! r = Some d ->
    exists d', h' !! r = Some d' /\ forall k, k <> attr -> dict_get k d' = dict_get k d.

(** How [put_many] lists an item: a dictionary as the object it is,
    anything else in a new dictionary, under ["value"]. *)
Definition sent_as (h h' : gmap loc dict) (item x : value) : Prop :=
  match item with
  | VDict r => x = VDict r
  | _ => exists c, x = VDict c /\ h !! c = None /\ h' !! c = Some [("value", item)]
  end.

(** The request of [put] and [put_many], with the body at [b]. *)
Definition put_request (E : env) (b : loc) : request :=
  mk_request "/items" "PUT" (Some (VDict b)) (Some (JSON_MIME E)).

(** Lines 248-249 of [fetch]: the body of the answer read into a
    FetchResponse. *)
Definition read_response (res : value) : M FetchResponse :=
  paging <- method_get res "paging" ;;
  size <- method_get paging "size" ;;
  lst <- method_get paging "last" ;;
  its <- method_get res "items" ;;
  ret (FetchResponse_init size lst its).

(** The request of [fetch], with the payload at [p]. *)
Definition fetch_request (E : env) (p : loc) : request :=
  mk_request "/query" "POST" (Some (VDict p)) (Some (JSON_MIME E)).

(** An answer 200 with two items, their number and a cursor. *)
Definition page_reply : reply :=
  mk_reply (Ok (200, VDict 100%positive))
    (list_to_map
       [(100%positive, [("paging", VDict 101%positive);
                        ("items", VList [VDict 102%positive; VDict 103%positive])]);
        (101%positive, [("size", VInt 2); ("last", VStr "k2")]);
        (102%positive, [("key", VStr "k1")]);
        (103%positive, [("key", VStr "k2")])]).

(** An answer 207 whose body reports failures only. *)
Definition failed_reply : reply :=
  mk_reply (Ok (207, VDict 100%positive))
    (list_to_map
       [(100%positive, [("failed", VDict 101%positive)]);
        (101%positive, [("items", VList [VDict 102%positive])]);
        (102%positive, [("value", VInt 1)])]).

(** The request of [insert], with the body at [b]. *)
Definition insert_request (E : env) (b : loc) : request :=
  mk_request "/items" "POST" (Some (VDict b)) (Some (JSON_MIME E)).

(** The item with the expiration [n] of an [expire_at], when there is
    one. *)
Definition item_with_ttl (attr : string) (n : Z) (d : dict) : dict :=
  if Z.eqb n 0 then d else dict_set attr (VInt n) d.

(** A bucket read as a list of pairs: the [delete] list pairs each name
    with itself. *)
Definition bucket_dict (k : bucket) (B : buckets) : dict :=
  match k with
  | BSet => b_set B
  | BIncrement => b_increment B
  | BAppend => b_append B
  | BPrepend => b_prepend B
  | BDelete => map (fun a => (a, VStr a)) (b_delete B)
  end.

(** The pairs of an update mapping that go to bucket [k], in the order
    of the mapping, each with what is placed for it. *)
Definition of_kind (k : bucket) (updates : dict) : dict :=
  map (fun av => (fst av, placed_value (fst av) (snd av)))
      (List.filter (fun av => bucket_eqb k (bucket_of (snd av))) updates).

(** A call issued no request, or one. *)
Definition at_most_one_request (w w' : world) : Prop :=
  w_sent w' = w_sent w \/ exists rq, w_sent w' = (w_sent w ++ [rq])%list.

(** A call was turned down with the error [e]: it issued no request and
    left every object of the store as it was. *)
Definition turned_down {A} (e : exn) (w : world) (out : result A * world) : Prop :=
  fst out = Raise e /\
  w_sent (snd out) = w_sent w /\
  w_heap w ⊆ w_heap (snd out).

(** The value [x] is a dictionary that holds the integer [n] under
    [attr]. *)
Definition ttl_is (attr : string) (n : Z) (h : gmap loc dict) (x : value) : Prop :=
  exists c, x = VDict c /\ dict_get attr (heap_dict h c) = Some (VInt n).

(** Every dictionary of [h] is in [h'], as it was or with an integer
    that satisfies [P] written under [attr]. *)
Definition ttl_stamped (P : Z -> Prop) (attr : string) (h h' : gmap loc dict) : Prop :=
  forall x d, h !! x = Some d ->
    h' !! x = Some d \/ exists n, P n /\ h' !! x = Some (dict_set attr (VInt n) d).

(** How [put_many] lists an item when the expiration is the integer
    [n]: a dictionary as the object it is, with [n] written into it under
    [attr]; anything else in a new dictionary under ["value"], with [n]
    written into that. *)
Definition stamped_as (attr : string) (n : Z) (h h' : gmap loc dict)
    (item x : value) : Prop :=
  match item with
  | VDict r =>
      x = VDict r /\
      forall d, h !! r = Some d -> h' !! r = Some (dict_set attr (VInt n) d)
  | _ =>
      exists c, x = VDict c /\ h !! c = None /\
                h' !! c = Some (dict_set attr (VInt n) [("value", item)])
  end.

(** At tick [k] the clock shows a datetime from which [n] seconds can be
    counted, and the local zone places the sum at the POSIX second [u]. *)
Definition clock_resolves (E : env) (n : Z) (k : nat) (u : Z) : Prop :=
  0 <= dt_microsecond (clock E k) < 1000000 /\
  MIN_WALL <= dt_wall (clock E k) <= MAX_WALL /\
  MIN_WALL <= dt_wall (clock E k) + n <= MAX_WALL /\
  local_to_seconds E (dt_wall (clock E k) + n) false = Ok u /\
  Z.abs u < 2 ^ 53.

(** The locations of the dictionaries of a batch. *)
Definition dict_locs (l : list value) : list loc :=
  flat_map (fun v => match v with VDict r => [r] | _ => [] end) l.

(** A collaborator that answers 200 without a body, and a clock that
    advances one second with every reading for an hour, in a zone on UTC. *)
Definition ticking_env : env :=
  mk_env (fun _ _ _ => sample_ok)
         (fun k => mk_datetime (1700000000 + Z.of_nat (Nat.min k 3600)) 250000 None false)
         (fun _ => 0)
         "application/json".

(** * Properties *)

(** ** The monad *)

Lemma bind_ret {A B} (a : A) (k : A -> M B) (w : world) :
  bind (ret a) k w = k a w.
Proof. reflexivity. Qed.

Lemma bind_assoc {A B C} (m : M A) (f : A -> M B) (g : B -> M C) (w : world) :
  bind (bind m f) g w = bind m (fun x => bind (f x) g) w.
Proof. unfold bind. by destruct (m w) as [[a|e] w']. Qed.

Lemma bind_ok {A B} (m : M A) (k : A -> M B) (w w' : world) (a : A) :
  m w = (Ok a, w') -> bind m k w = k a w'.
Proof. intros H. unfold bind. by rewrite H. Qed.

Lemma bind_raise {A B} (m : M A) (k : A -> M B) (w w' : world) (e : exn) :
  m w = (Raise e, w') -> bind m k w = (Raise e, w').
Proof. intros H. unfold bind. by rewrite H. Qed.

(** ** The store *)

Lemma heap_dict_insert_eq (h : gmap loc dict) r d :
  heap_dict (<[r := d]> h) r = d.
Proof. unfold heap_dict. by rewrite lookup_insert_eq. Qed.

Lemma heap_dict_insert_ne (h : gmap loc dict) r r' d :
  r ≠ r' -> heap_dict (<[r := d]> h) r' = heap_dict h r'.
Proof. intros. unfold heap_dict. by rewrite lookup_insert_ne. Qed.

Lemma fresh_loc_unused (h : gmap loc dict) : h !! fresh (dom h) = None.
Proof. apply not_elem_of_dom, is_fresh. Qed.

Lemma heap_dict_weaken (h h' : gmap loc dict) r :
  h ⊆ h' -> is_Some (h !! r) -> heap_dict h' r = heap_dict h r.
Proof.
  intros Hsub [d Hd]. unfold heap_dict.
  by rewrite (lookup_weaken _ _ _ _ Hd Hsub), Hd.
Qed.

Lemma truthy_weaken (h h' : gmap loc dict) v :
  h ⊆ h' -> live h v -> truthy h' v = truthy h v.
Proof.
  intros Hsub Hlive. destruct v; try reflexivity.
  simpl. by rewrite (heap_dict_weaken h h' r Hsub (Hlive r eq_refl)).
Qed.

(** A value that tests true in a store is live there. *)
Lemma truthy_live (h : gmap loc dict) v : truthy h v = true -> live h v.
Proof.
  intros Ht r ->. simpl in Ht. unfold heap_dict in Ht.
  destruct (h !! r); [eauto | discriminate].
Qed.

(** ** Dictionaries *)

Lemma dict_get_set_eq k v d : dict_get k (dict_set k v d) = Some v.
Proof.
  induction d as [|[k' v'] d IH]; simpl.
  - by rewrite String.eqb_refl.
  - destruct (String.eqb k k') eqn:Hk; simpl; rewrite Hk; [done | exact IH].
Qed.

Lemma dict_get_set_ne k k' v d :
  k ≠ k' -> dict_get k' (dict_set k v d) = dict_get k' d.
Proof.
  intros Hne. induction d as [|[k0 v0] d IH]; simpl.
  - destruct (String.eqb k' k) eqn:Hk; [|done].
    apply String.eqb_eq in Hk. congruence.
  - destruct (String.eqb k k0) eqn:Hk; simpl.
    + apply String.eqb_eq in Hk. subst k0.
      destruct (String.eqb k' k) eqn:Hk'; [|done].
      apply String.eqb_eq in Hk'. congruence.
    + by rewrite IH.
Qed.

(** Writing under a key twice is writing the second value. *)
Lemma dict_set_set k v v' d : dict_set k v' (dict_set k v d) = dict_set k v' d.
Proof.
  induction d as [|[k0 v0] d IH]; cbn [dict_set].
  - by rewrite String.eqb_refl.
  - destruct (String.eqb k k0) eqn:Hk; cbn [dict_set]; rewrite Hk; [done|].
    by rewrite IH.
Qed.

(** ** insert_ttl *)

Section InsertTtl.

Variable E : env.

Lemma insert_ttl_both item attr ein eat w :
  truthy (w_heap w) ein = true ->
  truthy (w_heap w) eat = true ->
  insert_ttl E item attr ein eat w = (Raise MUTUALLY_EXCLUSIVE, w).
Proof.
  intros Hin Hat. unfold insert_ttl, bind, truth. by rewrite Hin, Hat.
Qed.

Lemma insert_ttl_neither item attr ein eat w :
  truthy (w_heap w) ein = false ->
  truthy (w_heap w) eat = false ->
  insert_ttl E item attr ein eat w = (Ok tt, w).
Proof.
  intros Hin Hat. unfold insert_ttl, bind, truth. by rewrite Hin, Hat.
Qed.



(** What a call of [insert_ttl] on a dictionary can do to the world: no
    request, and at most one entry of that dictionary written, with an
    integer. *)
Lemma insert_ttl_effect r attr ein eat w res w' :
  insert_ttl E (VDict r) attr ein eat w = (res, w') ->
  w_sent w' = w_sent w /\
  ((w_heap w' = w_heap w /\
    (res = Ok tt -> truthy (w_heap w) ein = false /\ truthy (w_heap w) eat = false))
   \/ (res = Ok tt /\ exists n,
         w_heap w' = <[r := dict_set attr (VInt n) (heap_dict (w_heap w) r)]> (w_heap w))).
Proof.
  assert (Hwrite : forall (x : value) (w0 : world),
    (n <- lift (py_int x) ;; setitem_of (VDict r) attr (VInt n)) w0 = (res, w') ->
    w_sent w0 = w_sent w -> w_heap w0 = w_heap w ->
    w_sent w' = w_sent w /\
    ((w_heap w' = w_heap w /\ (res = Ok tt -> False))
     \/ (res = Ok tt /\ exists n,
           w_heap w' = <[r := dict_set attr (VInt n) (heap_dict (w_heap w) r)]> (w_heap w)))).
  { intros x w0 Hrun Hs Hh. revert Hrun. unfold bind, lift.
    destruct (py_int x) as [n|e].
    - cbn [setitem_of setitem]. intros [= <- <-]. cbn [w_sent w_heap].
      split; [exact Hs|]. right. split; [done|]. exists n. by rewrite Hh.
    - intros [= <- <-]. split; [exact Hs|]. left. split; [exact Hh | discriminate]. }
  assert (Hnot : forall (P : Prop), (w_heap w' = w_heap w /\ (res = Ok tt -> False)) ->
    w_heap w' = w_heap w /\ (res = Ok tt -> P)).
  { intros P [H1 H2]. split; [exact H1|]. intros H. by destruct (H2 H). }
  unfold insert_ttl. unfold bind at 1, truth at 1. cbv beta iota.
  unfold bind at 1, truth at 1. cbv beta iota.
  destruct (truthy (w_heap w) ein) eqn:Hin, (truthy (w_heap w) eat) eqn:Hat;
    cbn [andb negb].
  - intros [= <- <-]. split; [done|]. left. split; [done | discriminate].
  - unfold bind at 1. unfold bind at 1. unfold now at 1. cbv beta iota zeta.
    unfold bind at 1, lift at 1.
    destruct (timedelta_seconds ein) as [delta|e];
      [|intros [= <- <-]; split; [done|]; left; split; [done | discriminate]].
    unfold bind at 1, lift at 1.
    destruct (datetime_add _ delta) as [d|e];
      [|intros [= <- <-]; split; [done|]; left; split; [done | discriminate]].
    unfold ret at 1. cbv beta iota.
    unfold bind at 1. unfold bind at 1, lift at 1.
    destruct (timestamp E (replace_microsecond d 0)) as [f|e];
      [|intros [= <- <-]; split; [done|]; left; split; [done | discriminate]].
    unfold ret at 1. cbv beta iota. intros Hrun.
    destruct (Hwrite _ _ Hrun eq_refl eq_refl) as [Hs [Hl|Hr]];
      (split; [exact Hs|]); [left; by apply Hnot | by right].
  - unfold bind at 1. unfold ret at 1. cbv beta iota.
    unfold bind at 1.
    destruct eat as [| | | | | | |d| | | |];
      cbn [is_number negb];
      try (intros [= <- <-]; split; [done|]; left; split; [done | discriminate]);
      try (unfold ret at 1; cbv beta iota; intros Hrun;
           destruct (Hwrite _ _ Hrun eq_refl eq_refl) as [Hs [Hl|Hr]];
           (split; [exact Hs|]); [left; by apply Hnot | by right]).
    unfold bind at 1, lift at 1.
    destruct (timestamp E (replace_microsecond d 0)) as [f|e];
      [|intros [= <- <-]; split; [done|]; left; split; [done | discriminate]].
    unfold ret at 1. cbv beta iota. intros Hrun.
    destruct (Hwrite _ _ Hrun eq_refl eq_refl) as [Hs [Hl|Hr]];
      (split; [exact Hs|]); [left; by apply Hnot | by right].
  - intros [= <- <-]. split; [done|]. left. done.
Qed.

End InsertTtl.

(** ** Floats and timestamps *)

Lemma round_half_even_integral (q : Q) (n : Z) :
  integral q n -> round_half_even q = n.
Proof.
  unfold integral, round_half_even. intros ->. cbv zeta.
  rewrite Z.div_mul, Z.mod_mul by lia.
  change (2 * 0) with 0. by destruct (Qden q).
Qed.

Lemma integral_plus (q1 q2 : Q) (n1 n2 : Z) :
  integral q1 n1 -> integral q2 n2 -> integral (Qplus q1 q2) (n1 + n2).
Proof.
  unfold integral. destruct q1 as [a b], q2 as [c d]. cbn [Qplus Qnum Qden].
  intros -> ->. rewrite Pos2Z.inj_mul. ring.
Qed.

Lemma integral_inject_Z (n : Z) : integral (inject_Z n) n.
Proof. unfold integral. cbn. lia. Qed.

(** A whole number below [2**53] is a float. *)
Lemma round_double_integral (q : Q) (n : Z) :
  integral q n -> Z.abs n < 2 ^ 53 -> integral (round_double q) n.
Proof.
  intros Hq Hn. unfold round_double.
  destruct (Qnum q =? 0) eqn:Hz.
  { apply Z.eqb_eq in Hz. unfold integral in *. rewrite Hz in Hq. cbn. nia. }
  apply Z.eqb_neq in Hz.
  assert (Hn0 : n <> 0) by (intros ->; unfold integral in Hq; lia).
  assert (Hb : binade q = Z.log2 (Z.abs n)).
  { unfold binade. unfold integral in Hq. rewrite Hq, Z.abs_mul.
    rewrite (Z.abs_eq (Zpos (Qden q))) by lia.
    rewrite Z.div_mul by lia.
    destruct (Zpos (Qden q) <=? Z.abs n * Zpos (Qden q)) eqn:Hle; [done|].
    apply Z.leb_gt in Hle. nia. }
  rewrite Hb.
  set (e := Z.log2 (Z.abs n)).
  assert (He : 0 <= e < 53).
  { split; [apply Z.log2_nonneg|]. apply Z.log2_lt_pow2; lia. }
  replace (Z.max (e - 52) (-1074)) with (e - 52) by lia.
  unfold pow2. replace (Z.max (e - 52) 0) with 0 by lia.
  replace (Z.max (- (e - 52)) 0) with (52 - e) by lia.
  change (2 ^ 0) with 1.
  set (P := Z.to_pos (2 ^ (52 - e))).
  assert (Hdiv : integral (Qdiv q (Qmake 1 P)) (n * Zpos P)).
  { unfold integral in *. destruct q as [a D]. cbn [Qdiv Qmult Qinv Qnum Qden] in *.
    rewrite Hq, Pos2Z.inj_mul. ring. }
  rewrite (round_half_even_integral _ _ Hdiv).
  unfold integral. cbn [Qmult inject_Z Qnum Qden]. rewrite Pos2Z.inj_mul. ring.
Qed.

Lemma to_double_integral (q : Q) (n : Z) :
  integral q n -> Z.abs n < 2 ^ 53 ->
  exists r, to_double q = FFinite r /\ integral r n.
Proof.
  intros Hq Hn. pose proof (round_double_integral q n Hq Hn) as Hr.
  exists (round_double q). split; [|exact Hr].
  unfold to_double. cbv zeta.
  destruct (Qle_bool (pow2 1024) (Qabs (round_double q))) eqn:Hle; [|done].
  exfalso. unfold Qle_bool, pow2 in Hle. apply Z.leb_le in Hle.
  unfold integral in Hr. destruct (round_double q) as [a D].
  cbn [Qabs Qnum Qden] in *. rewrite Hr in Hle.
  replace (Z.max 1024 0) with 1024 in Hle by lia.
  change (Z.pos (Z.to_pos (2 ^ Z.max (Z.opp 1024) 0))) with 1 in Hle.
  assert (Hpow : 2 ^ 53 < 2 ^ 1024) by (apply Z.pow_lt_mono_r; lia).
  rewrite Z.abs_mul in Hle. rewrite (Z.abs_eq (Zpos D)) in Hle by lia.
  set (T := 2 ^ 1024) in *. set (S53 := 2 ^ 53) in *. clearbody T S53. nia.
Qed.

Lemma float_int_integral (r : Q) (n : Z) :
  integral r n -> float_int (FFinite r) = Ok n.
Proof.
  unfold integral, float_int. intros ->. f_equal. apply Z.quot_mul. lia.
Qed.

(** [int(x)] of the float of a whole number below [2**53]. *)
Lemma py_int_to_double (q : Q) (n : Z) :
  integral q n -> Z.abs n < 2 ^ 53 -> py_int (VFloat (to_double q)) = Ok n.
Proof.
  intros Hq Hn. destruct (to_double_integral q n Hq Hn) as (r & -> & Hr).
  by apply float_int_integral.
Qed.

(** In a zone that keeps one offset, a wall-clock second more than a day
    from either end of the calendar is that offset away from its POSIX
    second. *)
Lemma local_to_seconds_fixed (E : env) (o t : Z) (fold : bool) :
  (forall x, local_utcoffset E x = o) ->
  MIN_WALL <= t + o <= MAX_WALL ->
  MIN_WALL + 86400 <= t <= MAX_WALL - 86400 ->
  local_to_seconds E t fold = Ok (t - o).
Proof.
  intros Ho H1 H2.
  assert (Hlocal : forall x, MIN_WALL <= x + o <= MAX_WALL -> local E x = Ok (x + o)).
  { intros x Hx. unfold local. rewrite Ho. cbv zeta.
    destruct (x + o <? MIN_WALL) eqn:Ha; [apply Z.ltb_lt in Ha; lia|].
    destruct (MAX_WALL <? x + o) eqn:Hb; [apply Z.ltb_lt in Hb; lia|]. done. }
  unfold local_to_seconds. rewrite (Hlocal t H1). cbv zeta.
  replace (t - (t + o - t)) with (t - o) by lia.
  rewrite (Hlocal (t - o)) by lia.
  replace (t - o + o) with t by lia. rewrite Z.eqb_refl.
  unfold max_fold_seconds. destruct fold.
  - rewrite (Hlocal (t - o + 24 * 3600)) by lia.
    replace (t + o - t =? t - o + 24 * 3600 + o - (t - o + 24 * 3600)) with true; [done|].
    symmetry. apply Z.eqb_eq. lia.
  - rewrite (Hlocal (t - o - 24 * 3600)) by lia.
    replace (t + o - t =? t - o - 24 * 3600 + o - (t - o - 24 * 3600)) with true; [done|].
    symmetry. apply Z.eqb_eq. lia.
Qed.

(** In a zone that keeps one offset, the POSIX second found for a
    wall-clock second is that offset away from it. *)
Lemma local_to_seconds_fixed_inv (E : env) (o t u : Z) (fold : bool) :
  (forall x, local_utcoffset E x = o) ->
  local_to_seconds E t fold = Ok u -> u = t - o.
Proof.
  intros Ho.
  assert (Hlocal : forall x l, local E x = Ok l -> l = x + o).
  { intros x l. unfold local. rewrite Ho. cbv zeta.
    destruct (_ <? MIN_WALL); [discriminate|].
    destruct (MAX_WALL <? _); [discriminate|]. by intros [= <-]. }
  unfold local_to_seconds. cbv zeta.
  destruct (local E t) as [lt|] eqn:H0; [|discriminate].
  apply Hlocal in H0. subst lt.
  replace (t - (t + o - t)) with (t - o) by lia.
  destruct (local E (t - o)) as [t1|] eqn:H1; [|discriminate].
  apply Hlocal in H1. replace (t - o + o) with t in H1 by lia. subst t1.
  rewrite Z.eqb_refl.
  match goal with
  | |- context [local E ?x] => destruct (local E x) as [lt2|] eqn:H2; [|discriminate]
  end.
  apply Hlocal in H2. subst lt2.
  match goal with
  | |- context [?x =? ?y] => replace (x =? y) with true by (symmetry; apply Z.eqb_eq; lia)
  end.
  by intros [= <-].
Qed.

(** What [local] and [timestamp()] can raise. *)
Lemma local_raises (E : env) (u : Z) (e : exn) :
  local E u = Raise e ->
  e = ValueError "year 0 is out of range" \/ e = ValueError "year 10000 is out of range".
Proof.
  unfold local. cbv zeta.
  destruct (_ <? MIN_WALL); [intros [= <-]; by left|].
  destruct (MAX_WALL <? _); [intros [= <-]; by right | discriminate].
Qed.

Lemma local_to_seconds_raises (E : env) (t : Z) (fold : bool) (e : exn) :
  local_to_seconds E t fold = Raise e ->
  e = ValueError "year 0 is out of range" \/ e = ValueError "year 10000 is out of range".
Proof.
  unfold local_to_seconds. cbv zeta.
  destruct (local E t) as [lt|e0] eqn:H0;
    [|intros [= <-]; by eapply local_raises].
  destruct (local E (t - (lt - t))) as [t1|e1] eqn:H1;
    [|intros [= <-]; by eapply local_raises].
  assert (Hother : forall b,
    match local E (t - b) with
    | Ok t2 =>
        if t2 =? t then Ok (t - b)
        else if t1 =? t then Ok (t - (lt - t))
             else Ok (if fold then Z.min (t - (lt - t)) (t - b)
                      else Z.max (t - (lt - t)) (t - b))
    | Raise e2 => Raise e2
    end = Raise e ->
    e = ValueError "year 0 is out of range" \/ e = ValueError "year 10000 is out of range").
  { intros b. destruct (local E (t - b)) as [t2|e2] eqn:H2.
    - destruct (t2 =? t); [discriminate|]. destruct (t1 =? t); discriminate.
    - intros [= <-]. by eapply local_raises. }
  destruct (t1 =? t); [|apply Hother].
  match goal with
  | |- context [local E ?x] => destruct (local E x) as [lt2|e2] eqn:H2
  end; [|intros [= <-]; by eapply local_raises].
  destruct (_ =? _); [discriminate | apply Hother].
Qed.


(** The timestamp of a datetime without microseconds, where it is a
    whole number of seconds. *)
Lemma timestamp_whole (E : env) (d : datetime) (q : Q) :
  instant E d = Ok q ->
  whole_seconds d = true ->
  0 <= dt_microsecond d < 1000000 ->
  Z.abs (Qfloor q) < 2 ^ 53 ->
  exists f,
    timestamp E (replace_microsecond d 0) = Ok f /\
    py_int (VFloat f) = Ok (Qfloor q) /\
    (inject_Z (Qfloor q) <= q)%Q.
Proof.
  unfold instant, whole_seconds, timestamp, replace_microsecond.
  cbn [dt_tz dt_wall dt_fold dt_microsecond].
  intros Hq Hwhole Hus Hbound.
  destruct (dt_tz d) as [[off|]|]; [| discriminate |].
  - injection Hq as <-. apply Z.eqb_eq in Hwhole.
    assert (Hoff : off = (off / 1000000) * 1000000).
    { unfold US_PER_SECOND in Hwhole.
      pose proof (Z.div_mod off 1000000). lia. }
    set (o := off / 1000000) in *.
    assert (Hfloor : Qfloor (Qmake (dt_wall d * US_PER_SECOND + dt_microsecond d - off) 1000000)
                     = dt_wall d - o).
    { unfold Qfloor, US_PER_SECOND. cbn [Qnum Qden]. rewrite Hoff.
      replace (dt_wall d * 1000000 + dt_microsecond d - o * 1000000)
        with ((dt_wall d - o) * 1000000 + dt_microsecond d) by lia.
      rewrite Z.div_add_l by lia. rewrite Z.div_small by lia. lia. }
    rewrite Hfloor in *. eexists. split; [reflexivity|]. split.
    + apply py_int_to_double; [|exact Hbound].
      unfold integral, US_PER_SECOND. cbn [Qnum Qden]. lia.
    + unfold Qle, US_PER_SECOND. cbn [Qnum Qden inject_Z]. lia.
  - destruct (local_to_seconds E (dt_wall d) (dt_fold d)) as [u|e]; [|discriminate].
    injection Hq as <-.
    assert (Hfloor : Qfloor (Qmake (u * US_PER_SECOND + dt_microsecond d) 1000000) = u).
    { unfold Qfloor, US_PER_SECOND. cbn [Qnum Qden].
      rewrite Z.div_add_l by lia. rewrite Z.div_small by lia. lia. }
    rewrite Hfloor in *. eexists. split; [reflexivity|]. split.
    + apply py_int_to_double; [|exact Hbound].
      replace u with (u + 0) at 2 by lia. apply integral_plus.
      * apply round_double_integral; [apply integral_inject_Z | exact Hbound].
      * unfold integral. reflexivity.
    + unfold Qle, US_PER_SECOND. cbn [Qnum Qden inject_Z]. lia.
Qed.

(** ** The update encoder *)

Lemma classify_pair_placed B a v k attr :
  placed (classify_pair B (a, v)) k attr =
    if String.eqb attr a && bucket_eqb k (bucket_of v)
    then Some (placed_value a v) else placed B k attr.
Proof.
  destruct (String.eqb attr a) eqn:Ha.
  - apply String.eqb_eq in Ha. subst a.
    destruct v, k; simpl; rewrite ?dict_get_set_eq, ?existsb_app; simpl;
      rewrite ?String.eqb_refl, ?orb_true_r, ?orb_false_r; reflexivity.
  - assert (a ≠ attr) as Hne.
    { intros ->. by rewrite String.eqb_refl in Ha. }
    destruct v, k; simpl; rewrite ?dict_get_set_ne, ?existsb_app by done; simpl;
      rewrite ?Ha, ?orb_false_r; reflexivity.
Qed.

Lemma classify_from_frame updates B k attr :
  ~ In attr (dict_keys updates) ->
  placed (classify_from B updates) k attr = placed B k attr.
Proof.
  revert B. induction updates as [|[a v] l IH]; intros B Hnot; [done|].
  unfold classify_from in *. simpl in *.
  rewrite IH by tauto. rewrite classify_pair_placed.
  destruct (String.eqb attr a) eqn:Ha; [|done].
  apply String.eqb_eq in Ha. subst. tauto.
Qed.

Lemma classify_from_placed updates B k attr v :
  List.NoDup (dict_keys updates) ->
  In (attr, v) updates ->
  placed (classify_from B updates) k attr =
    if bucket_eqb k (bucket_of v) then Some (placed_value attr v) else placed B k attr.
Proof.
  revert B. induction updates as [|[a x] l IH]; intros B Hnd Hin; [done|].
  simpl in Hnd. apply List.NoDup_cons_iff in Hnd as [Hfresh Hnd].
  unfold classify_from in *. simpl.
  destruct Hin as [[= -> ->]|Hin].
  - fold (classify_from (classify_pair B (attr, v)) l).
    rewrite classify_from_frame by done.
    rewrite classify_pair_placed. by rewrite String.eqb_refl.
  - rewrite (IH _ Hnd Hin). rewrite classify_pair_placed.
    destruct (String.eqb attr a) eqn:Ha; [|done].
    apply String.eqb_eq in Ha. subst a. exfalso. apply Hfresh.
    apply in_map_iff. by exists (attr, v).
Qed.

Lemma payload_locs_distinct (r s i a p : loc) :
  NoDup [r; s; i; a; p] ->
  r ≠ s /\ r ≠ i /\ r ≠ a /\ r ≠ p /\ s ≠ i /\ s ≠ a /\ s ≠ p /\
  i ≠ a /\ i ≠ p /\ a ≠ p.
Proof.
  rewrite !NoDup_cons, !not_elem_of_cons. tauto.
Qed.

Section Encoder.

Variables r s i a p : loc.

Ltac payload_facts H :=
  destruct H as (Hr & Hs & Hi & Ha & Hp & Hnd);
  pose proof (payload_locs_distinct r s i a p Hnd)
    as (Hrs & Hri & Hra & Hrp & Hsi & Hsa & Hsp & Hia & Hip & Hap).

Ltac step_done :=
  eexists; split; [reflexivity|]; simpl;
  split; [| split; [done | split; [done |]]];
  [ unfold payload_at, payload_dict; simpl; rewrite ?map_app; simpl;
    repeat split; rewrite ?lookup_insert_eq, ?lookup_insert_ne by done; done
  | intros x Hx; rewrite !not_elem_of_cons in Hx;
    destruct Hx as (? & ? & ? & ? & ? & _);
    rewrite ?lookup_insert_ne by done; done ].

(** One turn of the loop of [update] does to the store what
    [classify_pair] does to the five buckets. *)
Lemma update_step_spec B av w :
  payload_at (w_heap w) r s i a p B ->
  exists w',
    update_step (VDict r) av w = (Ok tt, w') /\
    payload_at (w_heap w') r s i a p (classify_pair B av) /\
    w_sent w' = w_sent w /\ w_ticks w' = w_ticks w /\
    (forall x, x ∉ [r; s; i; a; p] -> w_heap w' !! x = w_heap w !! x).
Proof.
  intros H. payload_facts H. destruct av as [attr v].
  destruct v;
    unfold update_step, append_at, getitem_str, setitem_of, setitem, bind, heap_dict;
    simpl; rewrite Hr; simpl; rewrite ?Hr, ?Hs, ?Hi, ?Ha, ?Hp; simpl;
    step_done.
Qed.

Lemma update_loop_spec its : forall B w,
  payload_at (w_heap w) r s i a p B ->
  exists w',
    for_each its (update_step (VDict r)) w = (Ok tt, w') /\
    payload_at (w_heap w') r s i a p (classify_from B its) /\
    w_sent w' = w_sent w /\ w_ticks w' = w_ticks w /\
    (forall x, x ∉ [r; s; i; a; p] -> w_heap w' !! x = w_heap w !! x).
Proof.
  induction its as [|av its IH]; intros B w H.
  - exists w. split; [done|]. split; [exact H|]. done.
  - destruct (update_step_spec B av w H) as (w1 & Hrun & H1 & Hsent & Hticks & Hframe).
    destruct (IH _ _ H1) as (w2 & Hrun2 & H2 & Hsent2 & Hticks2 & Hframe2).
    exists w2. simpl. unfold bind at 1. rewrite Hrun, Hrun2.
    split; [done|]. split; [exact H2|].
    split; [congruence|]. split; [congruence|].
    intros x Hx. rewrite Hframe2, Hframe; done.
Qed.

End Encoder.

Lemma new_dict_spec d w :
  exists r,
    new_dict d w = (Ok r, mk_world (<[r := d]> (w_heap w)) (w_sent w) (w_ticks w)) /\
    w_heap w !! r = None.
Proof. eexists. split; [reflexivity | apply fresh_loc_unused]. Qed.

Lemma lookup_insert_None_inv (h : gmap loc dict) r r' d :
  <[r := d]> h !! r' = None -> r ≠ r' /\ h !! r' = None.
Proof.
  intros H. destruct (decide (r = r')) as [->|Hne].
  - by rewrite lookup_insert_eq in H.
  - by rewrite lookup_insert_ne in H.
Qed.

(** The payload [update] builds: five new objects, the buckets holding
    what [classify] says, and nothing else in the store touched. *)
Lemma update_payload_spec updates w :
  live (w_heap w) updates ->
  (is_dict updates = false -> truthy (w_heap w) updates = false) ->
  exists r s i a p w',
    update_payload updates w = (Ok (VDict r), w') /\
    payload_at (w_heap w') r s i a p (classify (updates_items (w_heap w) updates)) /\
    w_sent w' = w_sent w /\ w_ticks w' = w_ticks w /\
    w_heap w ⊆ w_heap w' /\
    (forall x, x ∈ [r; s; i; a; p] -> w_heap w !! x = None).
Proof.
  intros Hlive Hdict. unfold update_payload.
  cbn [bind new_dict w_heap w_sent w_ticks].
  set (s := fresh (dom (w_heap w))).
  set (h1 := <[s := []]> (w_heap w)).
  set (i := fresh (dom h1)).
  set (h2 := <[i := []]> h1).
  set (a := fresh (dom h2)).
  set (h3 := <[a := []]> h2).
  set (p := fresh (dom h3)).
  set (h4 := <[p := []]> h3).
  set (r := fresh (dom h4)).
  set (h5 := <[r := _]> h4).
  set (w5 := mk_world h5 (w_sent w) (w_ticks w)).
  assert (Hs0 : w_heap w !! s = None) by apply fresh_loc_unused.
  assert (Hi0 : h1 !! i = None) by apply fresh_loc_unused.
  assert (Ha0 : h2 !! a = None) by apply fresh_loc_unused.
  assert (Hp0 : h3 !! p = None) by apply fresh_loc_unused.
  assert (Hr0 : h4 !! r = None) by apply fresh_loc_unused.
  unfold h4 in Hr0. unfold h3 in Hr0, Hp0. unfold h2 in Hr0, Hp0, Ha0.
  unfold h1 in Hr0, Hp0, Ha0, Hi0.
  apply lookup_insert_None_inv in Hi0 as [Hsi Hi0].
  apply lookup_insert_None_inv in Ha0 as [Hia Ha0].
  apply lookup_insert_None_inv in Ha0 as [Hsa Ha0].
  apply lookup_insert_None_inv in Hp0 as [Hap Hp0].
  apply lookup_insert_None_inv in Hp0 as [Hip Hp0].
  apply lookup_insert_None_inv in Hp0 as [Hsp Hp0].
  apply lookup_insert_None_inv in Hr0 as [Hpr Hr0].
  apply lookup_insert_None_inv in Hr0 as [Har Hr0].
  apply lookup_insert_None_inv in Hr0 as [Hir Hr0].
  apply lookup_insert_None_inv in Hr0 as [Hsr Hr0].
  assert (Hnone : forall x, x ∈ [r; s; i; a; p] -> w_heap w !! x = None).
  { intros x Hx. rewrite !elem_of_cons in Hx.
    destruct Hx as [->|[->|[->|[->|[->|Hx]]]]]; try done.
    by apply elem_of_nil in Hx. }
  assert (Hsub : w_heap w ⊆ w_heap w5).
  { simpl. unfold h5, h4, h3, h2, h1.
    repeat (apply insert_subseteq_r; [done|]). done. }
  assert (Hpay : payload_at (w_heap w5) r s i a p no_buckets).
  { unfold payload_at, payload_dict. simpl. unfold h5, h4, h3, h2, h1.
    split_and!;
      repeat first [rewrite lookup_insert_eq | rewrite lookup_insert_ne by done];
      try done.
    rewrite !NoDup_cons, !not_elem_of_cons.
    split_and!; try done; try apply not_elem_of_nil; try apply NoDup_nil_2;
      by apply not_eq_sym. }
  assert (Htruth : truthy (w_heap w5) updates = truthy (w_heap w) updates)
    by (by apply truthy_weaken).
  unfold bind at 1. unfold truth. rewrite Htruth.
  destruct (truthy (w_heap w) updates) eqn:Ht.
  - destruct updates as [| | | | | |u| | | | |];
      try (specialize (Hdict eq_refl); discriminate).
    simpl.
    assert (Hu : heap_dict (w_heap w5) u = heap_dict (w_heap w) u).
    { apply heap_dict_weaken; [done|]. by apply Hlive. }
    destruct (update_loop_spec r s i a p (heap_dict (w_heap w) u) no_buckets w5 Hpay)
      as (w6 & Hrun & Hpay6 & Hsent & Hticks & Hframe).
    unfold bind, load. rewrite Hu, Hrun. unfold ret.
    exists r, s, i, a, p, w6.
    split; [done|]. split; [exact Hpay6|].
    split; [by rewrite Hsent|]. split; [by rewrite Hticks|]. split; [|done].
    apply map_subseteq_spec. intros x d Hx.
    rewrite Hframe.
    + by apply (lookup_weaken _ _ _ _ Hx Hsub).
    + intros Hin. apply Hnone in Hin. congruence.
  - unfold bind at 1. unfold ret.
    exists r, s, i, a, p, w5.
    split; [done|]. split.
    + replace (updates_items (w_heap w) updates) with (@nil (string * value)); [done|].
      destruct updates; try done. simpl in *.
      by destruct (heap_dict (w_heap w) r0).
    + done.
Qed.

(** C1. The update encoder puts every attribute/value pair of the
    update mapping into exactly one of the five buckets, chosen by the
    marker type of the value: the payload [update] builds holds what the
    classification rule [classify] prescribes; for a mapping with distinct
    keys, bucket [k] holds something for [attr] exactly when [k] is the
    bucket of the pair's value, and then it holds the attribute name
    (delete), the marker's value (increment, append, prepend; a single
    value given to Append or Prepend is a one-element list) or the raw
    value (set).  The mapping with one attribute per marker kind gives
    delete=[trim_attr], increment={incr_attr:5}, append={append_attr:[1,2]},
    prepend={prepend_attr:[0]}, set={}, and the empty mapping gives five
    empty buckets. *)
Theorem update_encoder_classifies (w : world) (u : loc) (updates : dict) :
  w_heap w !! u = Some updates ->
  List.NoDup (dict_keys updates) ->
  (exists r s i a p w',
     update_payload (VDict u) w = (Ok (VDict r), w') /\
     payload_at (w_heap w') r s i a p (classify updates) /\
     w_heap w ⊆ w_heap w') /\
  (forall attr v k, In (attr, v) updates ->
     placed (classify updates) k attr =
       if bucket_eqb k (bucket_of v) then Some (placed_value attr v) else None) /\
  (forall x, Util.Append x = VAppend (if is_list x then x else VList [x]) /\
             Util.Prepend x = VPrepend (if is_list x then x else VList [x])) /\
  classify sample_updates =
    mk_buckets [] [("incr_attr", VInt 5)] [("append_attr", VList [VInt 1; VInt 2])]
               [("prepend_attr", VList [VInt 0])] ["trim_attr"] /\
  classify [] = no_buckets.
Proof.
  intros Hu Hnd. split_and!.
  - destruct (update_payload_spec (VDict u) w) as (r & s & i & a & p & w' & H).
    + intros r [= <-]. eauto.
    + discriminate.
    + exists r, s, i, a, p, w'.
      destruct H as (Hrun & Hpay & _ & _ & Hsub & _).
      simpl in Hpay. unfold heap_dict in Hpay. rewrite Hu in Hpay. done.
  - intros attr v k Hin. unfold classify.
    rewrite (classify_from_placed updates no_buckets k attr v Hnd Hin).
    by destruct k, (bucket_of v).
  - done.
  - reflexivity.
  - reflexivity.
Qed.

(** The update mapping with one attribute per marker kind. *)
Lemma update_encoder_classifies_witness :
  (exists r s i a p w',
     update_payload (VDict 1%positive) (world_with sample_updates) = (Ok (VDict r), w') /\
     payload_at (w_heap w') r s i a p (classify sample_updates) /\
     w_heap (world_with sample_updates) ⊆ w_heap w') /\
  (forall attr v k, In (attr, v) sample_updates ->
     placed (classify sample_updates) k attr =
       if bucket_eqb k (bucket_of v) then Some (placed_value attr v) else None) /\
  (forall x, Util.Append x = VAppend (if is_list x then x else VList [x]) /\
             Util.Prepend x = VPrepend (if is_list x then x else VList [x])) /\
  classify sample_updates =
    mk_buckets [] [("incr_attr", VInt 5)] [("append_attr", VList [VInt 1; VInt 2])]
               [("prepend_attr", VList [VInt 0])] ["trim_attr"] /\
  classify [] = no_buckets.
Proof.
  apply (update_encoder_classifies (world_with sample_updates) 1%positive sample_updates).
  - reflexivity.
  - repeat constructor; simpl; intuition discriminate.
Defined.

(** ** Expiration *)

Lemma truthy_true_weaken (h h' : gmap loc dict) v :
  h ⊆ h' -> truthy h v = true -> truthy h' v = true.
Proof.
  intros Hsub Ht. rewrite (truthy_weaken h h' v Hsub); [done|].
  by apply truthy_live.
Qed.

Lemma truthy_not_dict (h h' : gmap loc dict) v :
  is_dict v = false -> truthy h v = truthy h' v.
Proof. by destruct v. Qed.






(** ** Argument checks *)

(** C5. [put_many] with more than 25 items raises the error of an
    oversized batch before anything else happens: no request is issued
    and the world is as it was. *)
Theorem put_many_batch_limit (E : env) (self : _Base) (items : list value)
    (ein eat : value) (w : world) :
  (25 < length items)%nat ->
  put_many E self items ein eat w = (Raise TOO_MANY_ITEMS, w).
Proof.
  intros Hlen. unfold put_many.
  destruct (25 <? Z.of_nat (length items)) eqn:Hlt; [reflexivity|].
  apply Z.ltb_ge in Hlt. lia.
Qed.

(** A batch of 26 items. *)
Lemma put_many_batch_limit_witness :
  put_many (sample_env sample_ok) sample_base (repeat (VInt 7) 26) VNone VNone empty_world
    = (Raise TOO_MANY_ITEMS, empty_world).
Proof.
  apply (put_many_batch_limit (sample_env sample_ok) sample_base
           (repeat (VInt 7) 26) VNone VNone empty_world).
  simpl. lia.
Defined.

(** C6. [get], [delete] and [update] with an empty (or missing) key
    raise the error of an empty key at once: the collaborator is not
    called and the world is as it was. *)
Theorem empty_key_rejected (E : env) (self : _Base) (key : option string)
    (updates ein eat : value) (w : world) :
  key_truthy key = false ->
  get E self key w = (Raise EMPTY_KEY, w) /\
  delete E self key w = (Raise EMPTY_KEY, w) /\
  update E self updates key ein eat w = (Raise EMPTY_KEY, w).
Proof.
  intros Hkey. unfold get, delete, update. rewrite Hkey. done.
Qed.

(** The empty string as key. *)
Lemma empty_key_rejected_witness :
  get (sample_env sample_ok) sample_base (Some "") empty_world
    = (Raise EMPTY_KEY, empty_world) /\
  delete (sample_env sample_ok) sample_base (Some "") empty_world
    = (Raise EMPTY_KEY, empty_world) /\
  update (sample_env sample_ok) sample_base VNone (Some "") VNone VNone empty_world
    = (Raise EMPTY_KEY, empty_world).
Proof.
  apply (empty_key_rejected (sample_env sample_ok) sample_base (Some "")
           VNone VNone VNone empty_world).
  reflexivity.
Defined.

(** ** fetch *)

Lemma method_get_world o k w : snd (method_get o k w) = w.
Proof. by destruct o. Qed.

Lemma method_get_chain_world (res : value) (w : world) :
  snd ((paging <- method_get res "paging" ;;
        size <- method_get paging "size" ;;
        lst <- method_get paging "last" ;;
        its <- method_get res "items" ;;
        ret (FetchResponse_init size lst its)) w) = w.
Proof.
  unfold bind.
  destruct (method_get res "paging" w) as [[paging|e] w1] eqn:H1;
    pose proof (method_get_world res "paging" w) as E1; rewrite H1 in E1;
    simpl in E1; subst w1; [|done].
  destruct (method_get paging "size" w) as [[size|e] w1] eqn:H2;
    pose proof (method_get_world paging "size" w) as E2; rewrite H2 in E2;
    simpl in E2; subst w1; [|done].
  destruct (method_get paging "last" w) as [[lst|e] w1] eqn:H3;
    pose proof (method_get_world paging "last" w) as E3; rewrite H3 in E3;
    simpl in E3; subst w1; [|done].
  destruct (method_get res "items" w) as [[its|e] w1] eqn:H4;
    pose proof (method_get_world res "items" w) as E4; rewrite H4 in E4;
    simpl in E4; subst w1; done.
Qed.

(** C7. Every call of [fetch] issues one request, POST /query, whose
    payload always holds [limit]; its [last] is the cursor given, with a
    boolean replaced by None; a query that tests true goes under [query],
    as it is when it is a sequence and wrapped in a one-element list
    otherwise; a query that tests false (none given) leaves the payload
    without a [query] entry. *)
Theorem fetch_request_payload (E : env) (self : _Base) (query limit last : value)
    (w : world) :
  live (w_heap w) query ->
  exists p,
    w_heap w !! p = None /\
    w_sent (snd (fetch E self query limit last w)) =
      (w_sent w ++ [mk_request "/query" "POST" (Some (VDict p)) (Some (JSON_MIME E))])%list /\
    w_heap (snd (fetch E self query limit last w)) !! p =
      Some (fetch_payload (truthy (w_heap w) query) query limit last) /\
    dict_get "limit" (fetch_payload (truthy (w_heap w) query) query limit last)
      = Some limit /\
    dict_get "last" (fetch_payload (truthy (w_heap w) query) query limit last)
      = Some (if is_bool last then VNone else last) /\
    dict_get "query" (fetch_payload (truthy (w_heap w) query) query limit last)
      = if truthy (w_heap w) query
        then Some (if is_sequence query then query else VList [query])
        else None.
Proof.
  intros Hlive.
  exists (fresh (dom (w_heap w))).
  pose proof (fresh_loc_unused (w_heap w)) as Hfresh.
  set (p := fresh (dom (w_heap w))) in *.
  assert (Hrun : snd (fetch E self query limit last w) =
    mk_world
      (<[p := fetch_payload (truthy (w_heap w) query) query limit last]> (w_heap w)
       ∪ rp_objects (transport E (w_sent w)
           (mk_request "/query" "POST" (Some (VDict p)) (Some (JSON_MIME E)))
           (<[p := fetch_payload (truthy (w_heap w) query) query limit last]> (w_heap w))))
      (w_sent w ++ [mk_request "/query" "POST" (Some (VDict p)) (Some (JSON_MIME E))])%list
      (w_ticks w)).
  { unfold fetch. cbn [bind new_dict w_heap w_sent w_ticks truth]. fold p.
    rewrite (truthy_weaken (w_heap w) _ query (insert_subseteq _ _ _ Hfresh) Hlive).
    assert (Hb : (if negb (is_bool last) then last else VNone)
                 = (if is_bool last then VNone else last)) by (by destruct (is_bool last)).
    rewrite Hb.
    destruct (truthy (w_heap w) query) eqn:Ht.
    - cbn [bind setitem w_heap w_sent w_ticks]. rewrite heap_dict_insert_eq.
      rewrite insert_insert_eq. unfold _request at 1. unfold bind at 1.
      cbn [w_heap w_sent w_ticks].
      match goal with
      | |- snd (match ?r with _ => _ end) = _ => destruct r as [[c res]|e] eqn:Hr
      end; [|reflexivity].
      cbn [snd]. apply method_get_chain_world.
    - cbn [bind ret]. unfold _request at 1. unfold bind at 1.
      cbn [w_heap w_sent w_ticks].
      match goal with
      | |- snd (match ?r with _ => _ end) = _ => destruct r as [[c res]|e] eqn:Hr
      end; [|reflexivity].
      cbn [snd]. apply method_get_chain_world. }
  rewrite Hrun. cbn [w_heap w_sent].
  split_and!; try done;
    first [ apply lookup_union_Some_l; apply lookup_insert_eq
          | unfold fetch_payload; simpl; by destruct (truthy (w_heap w) query) ].
Qed.

(** A filter with a boolean cursor: fetch(query={"age?gt": 10}, last=True). *)
Lemma fetch_request_payload_witness :
  exists p,
    w_heap (world_with [("age?gt", VInt 10)]) !! p = None /\
    w_sent (snd (fetch (sample_env sample_ok) sample_base (VDict 1%positive)
                       (VInt 1000) (VBool true) (world_with [("age?gt", VInt 10)]))) =
      (w_sent (world_with [("age?gt", VInt 10)]) ++
       [mk_request "/query" "POST" (Some (VDict p))
                   (Some (JSON_MIME (sample_env sample_ok)))])%list /\
    w_heap (snd (fetch (sample_env sample_ok) sample_base (VDict 1%positive)
                       (VInt 1000) (VBool true) (world_with [("age?gt", VInt 10)]))) !! p =
      Some (fetch_payload
              (truthy (w_heap (world_with [("age?gt", VInt 10)])) (VDict 1%positive))
              (VDict 1%positive) (VInt 1000) (VBool true)) /\
    dict_get "limit"
      (fetch_payload (truthy (w_heap (world_with [("age?gt", VInt 10)])) (VDict 1%positive))
                     (VDict 1%positive) (VInt 1000) (VBool true))
      = Some (VInt 1000) /\
    dict_get "last"
      (fetch_payload (truthy (w_heap (world_with [("age?gt", VInt 10)])) (VDict 1%positive))
                     (VDict 1%positive) (VInt 1000) (VBool true))
      = Some (if is_bool (VBool true) then VNone else VBool true) /\
    dict_get "query"
      (fetch_payload (truthy (w_heap (world_with [("age?gt", VInt 10)])) (VDict 1%positive))
                     (VDict 1%positive) (VInt 1000) (VBool true))
      = if truthy (w_heap (world_with [("age?gt", VInt 10)])) (VDict 1%positive)
        then Some (if is_sequence (VDict 1%positive) then VDict 1%positive
                   else VList [VDict 1%positive])
        else None.
Proof.
  apply (fetch_request_payload (sample_env sample_ok) sample_base (VDict 1%positive)
           (VInt 1000) (VBool true) (world_with [("age?gt", VInt 10)])).
  intros r [= <-]. exists [("age?gt", VInt 10)]. reflexivity.
Defined.

(** ** insert and put: the item sent *)

(** [insert] and [put] begin alike: a new object holds the item, the key
    goes in, and [insert_ttl] works on that object. *)
Lemma item_prefix {B} (E : env) (self : _Base) (data : value) (key : option string)
    (ein eat : value) (k : value -> M B) (w : world) :
  (data' <- as_item data ;;
   (if key_truthy key then setitem_of data' "key" (VStr (key_str key)) else ret tt) ;;;
   insert_ttl E data' (_ttl_attribute self) ein eat ;;;
   k data') w
  = match insert_ttl E (VDict (fresh (dom (w_heap w)))) (_ttl_attribute self) ein eat
            (world_alloc w (item_contents (w_heap w) data key)) with
    | (Ok _, w2) => k (VDict (fresh (dom (w_heap w)))) w2
    | (Raise e, w2) => (Raise e, w2)
    end.
Proof.
  unfold world_alloc, item_contents.
  destruct data; cbn [as_item copy load bind new_dict ret w_heap w_sent w_ticks];
    destruct (key_truthy key);
    cbn [setitem_of setitem bind ret w_heap w_sent w_ticks];
    rewrite ?heap_dict_insert_eq, ?insert_insert_eq; reflexivity.
Qed.

(** What the item object and the rest of the store look like once
    [insert_ttl] has run on the new object. *)
Lemma item_prefix_effect (E : env) (attr : string) (ein eat : value) (d : dict)
    (w : world) res w2 :
  insert_ttl E (VDict (fresh (dom (w_heap w)))) attr ein eat (world_alloc w d) = (res, w2) ->
  w_sent w2 = w_sent w /\ w_heap w ⊆ w_heap w2.
Proof.
  intros Hrun. pose proof (fresh_loc_unused (w_heap w)) as Hfresh.
  apply insert_ttl_effect in Hrun as [Hsent [[Hheap _]|[_ [n Hheap]]]];
    (split; [exact Hsent|]); rewrite Hheap; unfold world_alloc; cbn [w_heap].
  - by apply insert_subseteq.
  - apply insert_subseteq_r; [done|]. by apply insert_subseteq.
Qed.

Lemma insert_ttl_both_weaken (E : env) item attr ein eat (h : gmap loc dict) w :
  h ⊆ w_heap w ->
  truthy h ein = true -> truthy h eat = true ->
  insert_ttl E item attr ein eat w = (Raise MUTUALLY_EXCLUSIVE, w).
Proof.
  intros Hsub Hin Hat. apply insert_ttl_both; by eapply truthy_true_weaken.
Qed.

(** C2. When [expire_in] and [expire_at] both test true, [insert_ttl]
    raises the error of mutually exclusive parameters and leaves the world
    as it was; so [insert], [put], [put_many] (on its first item) and
    [update] raise that error, issue no request and leave every object of
    the store, the target mapping included, unchanged. *)
Theorem ttl_mutually_exclusive (E : env) (self : _Base) (ein eat : value) (w : world) :
  truthy (w_heap w) ein = true ->
  truthy (w_heap w) eat = true ->
  (forall item attr,
     insert_ttl E item attr ein eat w = (Raise MUTUALLY_EXCLUSIVE, w)) /\
  (forall data key, rejected w (insert E self data key ein eat w)) /\
  (forall data key, rejected w (put E self data key ein eat w)) /\
  (forall item items, (length (item :: items) <= 25)%nat ->
     rejected w (put_many E self (item :: items) ein eat w)) /\
  (forall updates key,
     key_truthy key = true -> live (w_heap w) updates ->
     (is_dict updates = false -> truthy (w_heap w) updates = false) ->
     rejected w (update E self updates key ein eat w)).
Proof.
  intros Hin Hat. pose proof (fresh_loc_unused (w_heap w)) as Hfresh.
  split_and!.
  - intros item attr. by apply insert_ttl_both.
  - intros data key. unfold insert. rewrite item_prefix.
    rewrite (insert_ttl_both_weaken E _ _ ein eat (w_heap w)); try done.
    + unfold rejected, world_alloc. cbn [fst snd w_heap w_sent].
      split_and!; try done. by apply insert_subseteq.
    + unfold world_alloc. cbn [w_heap]. by apply insert_subseteq.
  - intros data key. unfold put. rewrite item_prefix.
    rewrite (insert_ttl_both_weaken E _ _ ein eat (w_heap w)); try done.
    + unfold rejected, world_alloc. cbn [fst snd w_heap w_sent].
      split_and!; try done. by apply insert_subseteq.
    + unfold world_alloc. cbn [w_heap]. by apply insert_subseteq.
  - intros item items Hlen. unfold put_many.
    destruct (25 <? Z.of_nat (length (item :: items))) eqn:Hlt;
      [apply Z.ltb_lt in Hlt; lia|].
    cbn [put_many_loop]. destruct (is_dict item) eqn:Hd.
    + cbn [negb]. rewrite bind_assoc, bind_ret, bind_assoc.
      rewrite (bind_raise _ _ w w MUTUALLY_EXCLUSIVE) by (by apply insert_ttl_both).
      unfold rejected. cbn [fst snd]. done.
    + cbn [negb]. rewrite !bind_assoc.
      rewrite (bind_ok _ _ w (world_alloc w [("value", item)]) (fresh (dom (w_heap w))))
        by reflexivity.
      rewrite bind_ret, bind_assoc.
      rewrite (bind_raise _ _ _ (world_alloc w [("value", item)]) MUTUALLY_EXCLUSIVE).
      * unfold rejected, world_alloc. cbn [fst snd w_heap w_sent].
        split_and!; try done. by apply insert_subseteq.
      * apply (insert_ttl_both_weaken E _ _ ein eat (w_heap w)); try done.
        unfold world_alloc. cbn [w_heap]. by apply insert_subseteq.
  - intros updates key Hkey Hlive Hdict. unfold update. rewrite Hkey.
    cbn [negb].
    destruct (update_payload_spec updates w Hlive Hdict)
      as (r & s & i & a & p & w' & Hrun & Hpay & Hsent & _ & Hsub & _).
    unfold bind at 1. rewrite Hrun.
    destruct Hpay as (Hr & _).
    unfold bind at 1. unfold getitem_str, heap_dict. rewrite Hr.
    cbn [default from_option id payload_dict dict_get String.eqb Ascii.eqb Bool.eqb].
    unfold bind at 1.
    rewrite (insert_ttl_both_weaken E _ _ ein eat (w_heap w)); try done.
Qed.

(** Ten seconds from now and the first second of the epoch, at once. *)
Lemma ttl_mutually_exclusive_witness :
  (forall item attr,
     insert_ttl (sample_env sample_ok) item attr (VInt 10) (VInt 1) (world_with [])
       = (Raise MUTUALLY_EXCLUSIVE, world_with [])) /\
  (forall data key,
     rejected (world_with [])
       (insert (sample_env sample_ok) sample_base data key (VInt 10) (VInt 1) (world_with []))) /\
  (forall data key,
     rejected (world_with [])
       (put (sample_env sample_ok) sample_base data key (VInt 10) (VInt 1) (world_with []))) /\
  (forall item items, (length (item :: items) <= 25)%nat ->
     rejected (world_with [])
       (put_many (sample_env sample_ok) sample_base (item :: items) (VInt 10) (VInt 1)
                 (world_with []))) /\
  (forall updates key,
     key_truthy key = true -> live (w_heap (world_with [])) updates ->
     (is_dict updates = false -> truthy (w_heap (world_with [])) updates = false) ->
     rejected (world_with [])
       (update (sample_env sample_ok) sample_base updates key (VInt 10) (VInt 1)
               (world_with []))).
Proof.
  apply (ttl_mutually_exclusive (sample_env sample_ok) sample_base (VInt 10) (VInt 1)
           (world_with [])); reflexivity.
Defined.

(** ** put_many: the loop writes into the items it is given *)

Lemma ttl_stamped_refl P attr (h : gmap loc dict) : ttl_stamped P attr h h.
Proof. intros x d Hx. by left. Qed.

Lemma ttl_stamped_trans P attr (h1 h2 h3 : gmap loc dict) :
  ttl_stamped P attr h1 h2 -> ttl_stamped P attr h2 h3 -> ttl_stamped P attr h1 h3.
Proof.
  intros H12 H23 x d Hx.
  destruct (H12 x d Hx) as [H2|(n & Hn & H2)].
  - exact (H23 x d H2).
  - destruct (H23 x _ H2) as [H3|(m & Hm & H3)].
    + right. by exists n.
    + right. exists m. split; [done|]. by rewrite dict_set_set in H3.
Qed.

Lemma ttl_stamped_subseteq P attr (h h' : gmap loc dict) :
  h ⊆ h' -> ttl_stamped P attr h h'.
Proof. intros Hsub x d Hx. left. by apply (lookup_weaken _ _ _ _ Hx Hsub). Qed.

Lemma ttl_stamped_set (P : Z -> Prop) attr (h : gmap loc dict) x n :
  P n -> ttl_stamped P attr h (<[x := dict_set attr (VInt n) (heap_dict h x)]> h).
Proof.
  intros Hn y d Hy. destruct (decide (y = x)) as [->|Hne].
  - right. exists n. split; [done|]. rewrite lookup_insert_eq.
    unfold heap_dict. by rewrite Hy.
  - left. by rewrite lookup_insert_ne.
Qed.

(** What has been written stays written. *)
Lemma ttl_stamped_written (P : Z -> Prop) attr (h h' : gmap loc dict) r n d :
  ttl_stamped P attr h h' -> P n -> h !! r = Some (dict_set attr (VInt n) d) ->
  exists m, P m /\ h' !! r = Some (dict_set attr (VInt m) d).
Proof.
  intros Hst Hn Hr. destruct (Hst r _ Hr) as [H|(m & Hm & H)].
  - by exists n.
  - exists m. split; [done|]. by rewrite dict_set_set in H.
Qed.

Lemma stamped_as_mono attr n (h h' h'' : gmap loc dict) item x :
  h' ⊆ h'' -> stamped_as attr n h h' item x -> stamped_as attr n h h'' item x.
Proof.
  intros Hsub.
  destruct item; cbn [stamped_as];
    try (intros (c & -> & Hc & Hc'); exists c;
         split_and!; [done | done | by apply (lookup_weaken _ _ _ _ Hc' Hsub)]).
  intros [-> Hr]. split; [done|]. intros d Hd.
  by apply (lookup_weaken _ _ _ _ (Hr d Hd) Hsub).
Qed.

Lemma stamped_as_earlier attr n (h0 h1 h' : gmap loc dict) item x :
  ttl_stamped (eq n) attr h0 h1 ->
  stamped_as attr n h1 h' item x -> stamped_as attr n h0 h' item x.
Proof.
  intros Hst.
  assert (Hnone : forall c, h1 !! c = None -> h0 !! c = None).
  { intros c Hc. destruct (h0 !! c) as [d|] eqn:Hd; [|done].
    destruct (Hst c d Hd) as [H|(m & _ & H)]; congruence. }
  destruct item; cbn [stamped_as];
    try (intros (c & -> & Hc & Hc'); exists c; split_and!; [done | by apply Hnone | done]).
  intros [-> Hr]. split; [done|]. intros d Hd.
  destruct (Hst _ d Hd) as [H|(m & <- & H)].
  - by apply Hr.
  - rewrite (Hr _ H). by rewrite dict_set_set.
Qed.

Lemma ttl_is_weaken attr n (h h' : gmap loc dict) x :
  h ⊆ h' -> ttl_is attr n h x -> ttl_is attr n h' x.
Proof.
  intros Hsub (c & -> & Hc). exists c. split; [done|].
  unfold heap_dict in *. destruct (h !! c) as [d|] eqn:Hd; [|discriminate Hc].
  by rewrite (lookup_weaken _ _ _ _ Hd Hsub).
Qed.

Lemma ttl_is_set attr n (h : gmap loc dict) x v :
  ttl_is attr n h v ->
  ttl_is attr n (<[x := dict_set attr (VInt n) (heap_dict h x)]> h) v.
Proof.
  intros (c & -> & Hc). exists c. split; [done|].
  destruct (decide (x = c)) as [->|Hne].
  - rewrite heap_dict_insert_eq. apply dict_get_set_eq.
  - by rewrite heap_dict_insert_ne.
Qed.

(** The item the loop of [put_many] works on. *)
Lemma put_many_data (item : value) (w : world) :
  exists x w1,
    (if negb (is_dict item) then c <- new_dict [("value", item)] ;; ret (VDict c)
     else ret item) w = (Ok (VDict x), w1) /\
    ((item = VDict x /\ w1 = w) \/
     (is_dict item = false /\ x = fresh (dom (w_heap w)) /\
      w1 = world_alloc w [("value", item)])).
Proof.
  destruct (is_dict item) eqn:Hd; cbn [negb].
  - destruct item as [| | | | | |x0| | | | |]; try discriminate.
    exists x0, w. split; [reflexivity|]. by left.
  - exists (fresh (dom (w_heap w))), (world_alloc w [("value", item)]).
    split; [reflexivity|]. by right.
Qed.

Lemma insert_ttl_int (E : env) x attr ein n w :
  truthy (w_heap w) ein = false ->
  insert_ttl E (VDict x) attr ein (VInt n) w
    = (Ok tt, if Z.eqb n 0 then w else world_set w x attr (VInt n)).
Proof.
  intros Hin. unfold insert_ttl, bind, truth. rewrite Hin. simpl.
  by destruct (Z.eqb n 0).
Qed.

Section PutManyLoop.

Variables (E : env) (self : _Base) (ein eat : value).
Hypothesis Hein : is_dict ein = false.
Hypothesis Heat : is_dict eat = false.
Variable h0 : gmap loc dict.
Hypothesis Hgiven : truthy h0 ein || truthy h0 eat = true.

(** An [insert_ttl] that returns, with an expiration given, has written
    the attribute. *)
Lemma insert_ttl_given x w res w' :
  insert_ttl E (VDict x) (_ttl_attribute self) ein eat w = (res, w') ->
  w_sent w' = w_sent w /\
  ttl_stamped (fun _ => True) (_ttl_attribute self) (w_heap w) (w_heap w') /\
  (forall u, res = Ok u ->
     exists n, w_heap w' = <[x := dict_set (_ttl_attribute self) (VInt n)
                                          (heap_dict (w_heap w) x)]> (w_heap w)).
Proof.
  intros Hrun.
  apply insert_ttl_effect in Hrun as [Hsent [[Hheap Hok]|[Hres [n Hheap]]]];
    (split; [exact Hsent|]); rewrite Hheap.
  - split; [apply ttl_stamped_refl|]. intros [] ->. destruct (Hok eq_refl) as [H1 H2].
    rewrite (truthy_not_dict h0 (w_heap w) ein Hein) in Hgiven.
    rewrite (truthy_not_dict h0 (w_heap w) eat Heat) in Hgiven.
    rewrite H1, H2 in Hgiven. discriminate.
  - split; [by apply ttl_stamped_set|]. intros _ _. by exists n.
Qed.

Lemma put_many_loop_spec items : forall acc w res w',
  put_many_loop E self items acc ein eat w = (res, w') ->
  w_sent w' = w_sent w /\
  ttl_stamped (fun _ => True) (_ttl_attribute self) (w_heap w) (w_heap w') /\
  (forall l, res = Ok l ->
     forall r d, In (VDict r) items -> w_heap w !! r = Some d ->
       exists n, w_heap w' !! r = Some (dict_set (_ttl_attribute self) (VInt n) d)).
Proof.
  induction items as [|item rest IH]; intros acc w res w' Hrun.
  - cbn in Hrun. injection Hrun as <- <-.
    split_and!; [done | apply ttl_stamped_refl | by intros l _ r d []].
  - cbn [put_many_loop] in Hrun.
    destruct (put_many_data item w) as (x & w1 & Hdata & Hcase).
    assert (H1 : w_sent w1 = w_sent w /\ w_heap w ⊆ w_heap w1).
    { destruct Hcase as [[_ ->]|(_ & _ & ->)]; [done|].
      split; [done|]. apply insert_subseteq, fresh_loc_unused. }
    destruct H1 as [Hsent1 Hsub1].
    rewrite (bind_ok _ _ w w1 (VDict x) Hdata) in Hrun.
    destruct (insert_ttl E (VDict x) (_ttl_attribute self) ein eat w1)
      as [[[]|e] w2] eqn:Httl;
      destruct (insert_ttl_given x w1 _ w2 Httl) as (Hsent2 & Hst2 & Hwritten).
    + rewrite (bind_ok _ _ w1 w2 tt Httl) in Hrun.
      destruct (IH _ _ _ _ Hrun) as (Hsent3 & Hst3 & Hall).
      assert (Hst : ttl_stamped (fun _ => True) (_ttl_attribute self)
                      (w_heap w) (w_heap w2)).
      { eapply ttl_stamped_trans; [by apply ttl_stamped_subseteq | exact Hst2]. }
      split_and!.
      * congruence.
      * eapply ttl_stamped_trans; [exact Hst | exact Hst3].
      * intros l Hl r d [Hhead|Htail] Hr.
        -- destruct Hcase as [[Hitem ->]|(Hd & _ & _)];
             [|rewrite Hhead in Hd; discriminate Hd].
           assert (x = r) as -> by congruence.
           destruct (Hwritten tt eq_refl) as [n Hheap].
           destruct (ttl_stamped_written _ _ _ _ r n d Hst3 I) as (m & _ & Hm);
             [|by exists m].
           rewrite Hheap, lookup_insert_eq. unfold heap_dict. by rewrite Hr.
        -- destruct (Hst r d Hr) as [H2|(n & _ & H2)].
           ++ by apply (Hall l Hl).
           ++ destruct (Hall l Hl r _ Htail H2) as [m Hm]. exists m.
              by rewrite dict_set_set in Hm.
    + rewrite (bind_raise _ _ w1 w2 e Httl) in Hrun. injection Hrun as <- <-.
      split_and!.
      * congruence.
      * eapply ttl_stamped_trans; [by apply ttl_stamped_subseteq | exact Hst2].
      * intros l [=].
Qed.

End PutManyLoop.

Section PutManyStamp.

Variables (E : env) (self : _Base) (ein : value) (n : Z).
Hypothesis Hein : is_dict ein = false.
Variable h0 : gmap loc dict.
Hypothesis Hnone : truthy h0 ein = false.
Hypothesis Hn : n <> 0.

Lemma insert_ttl_stamp x w :
  insert_ttl E (VDict x) (_ttl_attribute self) ein (VInt n) w
    = (Ok tt, world_set w x (_ttl_attribute self) (VInt n)).
Proof.
  rewrite insert_ttl_int by (by rewrite (truthy_not_dict (w_heap w) h0 ein Hein)).
  destruct (Z.eqb n 0) eqn:Hz; [apply Z.eqb_eq in Hz; contradiction | done].
Qed.

(** With the integer [n] as [expire_at] the loop of [put_many] runs to
    its end, and lists every item with [n] written into it. *)
Lemma put_many_loop_stamp items : forall acc w,
  exists l w',
    put_many_loop E self items acc ein (VInt n) w = (Ok (acc ++ l)%list, w') /\
    w_sent w' = w_sent w /\
    Forall (ttl_is (_ttl_attribute self) n (w_heap w')) l /\
    (forall v, ttl_is (_ttl_attribute self) n (w_heap w) v ->
               ttl_is (_ttl_attribute self) n (w_heap w') v) /\
    ttl_stamped (eq n) (_ttl_attribute self) (w_heap w) (w_heap w') /\
    Forall2 (stamped_as (_ttl_attribute self) n (w_heap w) (w_heap w')) items l.
Proof.
  induction items as [|item rest IH]; intros acc w.
  - exists [], w. cbn. rewrite app_nil_r.
    split_and!; [done | done | done | done | apply ttl_stamped_refl | done].
  - cbn [put_many_loop].
    destruct (put_many_data item w) as (x & w1 & Hdata & Hcase).
    rewrite (bind_ok _ _ w w1 (VDict x) Hdata).
    rewrite (bind_ok _ _ w1 _ tt (insert_ttl_stamp x w1)).
    destruct (IH (acc ++ [VDict x])%list (world_set w1 x (_ttl_attribute self) (VInt n)))
      as (l & w' & Hrun & Hsent & Hall & Hkeep & Hst & Hlisted).
    exists (VDict x :: l), w'. rewrite Hrun, <- app_assoc. cbn [app].
    assert (H1 : w_sent w1 = w_sent w /\ w_heap w ⊆ w_heap w1).
    { destruct Hcase as [[_ ->]|(_ & _ & ->)]; [done|].
      split; [done | apply insert_subseteq, fresh_loc_unused]. }
    destruct H1 as (Hsent1 & Hsub1).
    assert (Hst1 : ttl_stamped (eq n) (_ttl_attribute self) (w_heap w)
                     (w_heap (world_set w1 x (_ttl_attribute self) (VInt n)))).
    { eapply ttl_stamped_trans; [by apply ttl_stamped_subseteq|].
      cbn [world_set w_heap]. by apply ttl_stamped_set. }
    split_and!.
    + done.
    + by rewrite Hsent.
    + constructor; [|exact Hall].
      apply Hkeep. exists x. split; [done|]. cbn [world_set w_heap].
      rewrite heap_dict_insert_eq. apply dict_get_set_eq.
    + intros v Hv. apply Hkeep. cbn [world_set w_heap]. apply ttl_is_set.
      by apply (ttl_is_weaken _ _ (w_heap w)).
    + eapply ttl_stamped_trans; [exact Hst1 | exact Hst].
    + constructor.
      * assert (Hwritten : forall d, w_heap w1 !! x = Some d ->
                  w_heap w' !! x = Some (dict_set (_ttl_attribute self) (VInt n) d)).
        { intros d Hd.
          destruct (ttl_stamped_written _ _ _ _ x n d Hst eq_refl) as (m & <- & Hm);
            [|exact Hm].
          cbn [world_set w_heap]. rewrite lookup_insert_eq. unfold heap_dict.
          by rewrite Hd. }
        destruct Hcase as [[-> ->]|(Hd & Hx & ->)].
        -- cbn [stamped_as]. by split.
        -- assert (Hwrap : exists c, VDict x = VDict c /\ w_heap w !! c = None /\
                     w_heap w' !! c
                       = Some (dict_set (_ttl_attribute self) (VInt n) [("value", item)])).
           { exists x. split_and!; [done | rewrite Hx; apply fresh_loc_unused |].
             apply Hwritten. unfold world_alloc. cbn [w_heap]. rewrite Hx.
             apply lookup_insert_eq. }
           by destruct item.
      * eapply Forall2_impl; [exact Hlisted|]. intros it y.
        by apply stamped_as_earlier.
Qed.

End PutManyStamp.

(** [put_many] with the integer [n] as [expire_at]: the request goes
    out, with every item listed and stamped. *)
Lemma put_many_stamp_run (E : env) (self : _Base) (batch : list value)
    (ein : value) (n : Z) (w : world) :
  (length batch <= 25)%nat ->
  truthy (w_heap w) ein = false -> is_dict ein = false ->
  n <> 0 ->
  exists b l,
    w_sent (snd (put_many E self batch ein (VInt n) w))
      = (w_sent w ++ [put_request E b])%list /\
    w_heap (snd (put_many E self batch ein (VInt n) w)) !! b = Some [("items", VList l)] /\
    Forall2 (stamped_as (_ttl_attribute self) n (w_heap w)
               (w_heap (snd (put_many E self batch ein (VInt n) w)))) batch l /\
    Forall (ttl_is (_ttl_attribute self) n
                   (w_heap (snd (put_many E self batch ein (VInt n) w)))) l.
Proof.
  intros Hlen Hin Hein Hn.
  destruct (put_many_loop_stamp E self ein n Hein (w_heap w) Hin Hn batch [] w)
    as (l & w1 & Hloop & Hsent & Hall & _ & _ & Hlisted).
  cbn [app] in Hloop.
  pose proof (fresh_loc_unused (w_heap w1)) as Hfresh.
  pose (b := fresh (dom (w_heap w1))).
  pose (h1 := <[b := [("items", VList l)]]> (w_heap w1)).
  pose (rp := transport E (w_sent w1) (put_request E b) h1).
  assert (Hrun : put_many E self batch ein (VInt n) w =
            (match rp_result rp with
             | Ok cr => Ok (snd cr)
             | Raise e => Raise e
             end,
             mk_world (h1 ∪ rp_objects rp) (w_sent w1 ++ [put_request E b])%list (w_ticks w1))).
  { unfold put_many.
    destruct (25 <? Z.of_nat (length batch)) eqn:Hlt; [apply Z.ltb_lt in Hlt; lia|].
    rewrite (bind_ok _ _ w w1 l Hloop).
    cbn [bind new_dict w_heap w_sent w_ticks].
    unfold _request at 1, bind at 1. cbn [w_heap w_sent w_ticks].
    subst rp h1 b. unfold put_request.
    by destruct (rp_result _) as [[code res]|e]. }
  rewrite Hrun. cbn [fst snd w_heap w_sent].
  assert (Hsub1 : w_heap w1 ⊆ h1 ∪ rp_objects rp).
  { etransitivity; [|apply map_union_subseteq_l]. by apply insert_subseteq. }
  exists b, l. split_and!.
  - by rewrite Hsent.
  - apply lookup_union_Some_l. apply lookup_insert_eq.
  - eapply Forall2_impl; [exact Hlisted|]. intros it y. by apply stamped_as_mono.
  - eapply Forall_impl; [exact Hall|]. intros x. by apply ttl_is_weaken.
Qed.

(** ** insert and put: the request and the answer *)

Lemma readonly_getitem_str o k : readonly (getitem_str o k).
Proof.
  intros w. unfold getitem_str.
  destruct o; try reflexivity. by destruct (dict_get k _).
Qed.

Lemma readonly_getitem_int o i : readonly (getitem_int o i).
Proof.
  intros w. unfold getitem_int. destruct o; try reflexivity.
  destruct (_ <? 0); [reflexivity|]. by destruct (String.get _ _).
Qed.

Lemma readonly_bind {A B} (m : M A) (k : A -> M B) :
  readonly m -> (forall a, readonly (k a)) -> readonly (bind m k).
Proof.
  intros Hm Hk w. unfold bind. specialize (Hm w).
  destruct (m w) as [[a|e] w']; simpl in Hm; subst w'; [apply Hk | reflexivity].
Qed.

(** [res["processed"]["items"][0]]. *)
Lemma readonly_first_processed res :
  readonly (processed <- getitem_str res "processed" ;;
            its <- getitem_str processed "items" ;;
            getitem_int its 0).
Proof.
  apply readonly_bind; [apply readonly_getitem_str|]. intros processed.
  apply readonly_bind; [apply readonly_getitem_str|]. intros its.
  apply readonly_getitem_int.
Qed.

Section Shapes.

Variables (E : env) (self : _Base) (data : value) (key : option string)
          (ein eat : value) (w : world).

(** The item [insert_ttl] runs on, and the world it runs in. *)
Local Abbreviation c := (fresh (dom (w_heap w))).
Local Abbreviation w1 := (world_alloc w (item_contents (w_heap w) data key)).

Lemma insert_shape :
  insert E self data key ein eat w =
    match insert_ttl E (VDict c) (_ttl_attribute self) ein eat w1 with
    | (Raise e, w2) => (Raise e, w2)
    | (Ok _, w2) =>
        let w3 := sent_world E "POST" [("item", VDict c)] w2 in
        match answer E "POST" [("item", VDict c)] w2 with
        | Raise e => (Raise e, w3)
        | Ok (code, res) =>
            if Z.eqb code 201 then (Ok res, w3)
            else if Z.eqb code 409 then (Raise (ALREADY_EXISTS (key_str key)), w3)
            else (Ok VNone, w3)
        end
    end.
Proof.
  unfold insert. rewrite item_prefix.
  destruct (insert_ttl E (VDict c) (_ttl_attribute self) ein eat w1) as [[[]|e] w2];
    [|reflexivity].
  cbn [bind new_dict w_heap w_sent w_ticks]. unfold _request at 1, bind at 1.
  cbn [w_heap w_sent w_ticks]. unfold answer, sent_world. cbv zeta.
  destruct (rp_result _) as [[code res]|e]; [|reflexivity].
  cbn [fst snd]. destruct (Z.eqb code 201); [reflexivity|].
  by destruct (Z.eqb code 409).
Qed.

Lemma put_shape :
  put E self data key ein eat w =
    match insert_ttl E (VDict c) (_ttl_attribute self) ein eat w1 with
    | (Raise e, w2) => (Raise e, w2)
    | (Ok _, w2) =>
        let w3 := sent_world E "PUT" [("items", VList [VDict c])] w2 in
        match answer E "PUT" [("items", VList [VDict c])] w2 with
        | Raise e => (Raise e, w3)
        | Ok (code, res) =>
            if truthy (w_heap w3) res && Z.eqb code 207 then
              (fst ((processed <- getitem_str res "processed" ;;
                     its <- getitem_str processed "items" ;;
                     getitem_int its 0) w3), w3)
            else (Ok VNone, w3)
        end
    end.
Proof.
  unfold put. rewrite item_prefix.
  destruct (insert_ttl E (VDict c) (_ttl_attribute self) ein eat w1) as [[[]|e] w2];
    [|reflexivity].
  cbn [bind new_dict w_heap w_sent w_ticks]. unfold _request at 1, bind at 1.
  cbn [w_heap w_sent w_ticks]. unfold answer, sent_world. cbv zeta.
  destruct (rp_result _) as [[code res]|e]; [|reflexivity].
  cbn [fst snd]. unfold bind at 1, truth. cbn [w_heap].
  match goal with |- context [truthy ?h res] => destruct (truthy h res) end;
    [|reflexivity].
  cbn [andb]. destruct (Z.eqb code 207); [|reflexivity].
  match goal with
  | |- ?m ?x = _ => pose proof (readonly_first_processed res x) as Hro;
                    destruct (m x) as [r wx] eqn:Hm
  end.
  cbn [snd fst] in *. by subst wx.
Qed.

(** Whatever [insert] and [put] do, the objects the store held before
    the call are as they were: the item is written to a copy. *)
Lemma sent_world_frame method body w2 :
  w_heap w ⊆ w_heap w2 -> w_heap w ⊆ w_heap (sent_world E method body w2).
Proof.
  intros Hsub. unfold sent_world. cbn [w_heap].
  etransitivity; [exact Hsub|].
  etransitivity; [|apply map_union_subseteq_l].
  apply insert_subseteq, fresh_loc_unused.
Qed.

Lemma insert_frame : w_heap w ⊆ w_heap (snd (insert E self data key ein eat w)).
Proof.
  rewrite insert_shape.
  destruct (insert_ttl E (VDict c) (_ttl_attribute self) ein eat w1)
    as [[[]|e] w2] eqn:Httl;
    destruct (item_prefix_effect E _ ein eat _ w _ w2 Httl) as [_ Hsub];
    [|exact Hsub].
  cbv zeta. destruct (answer _ _ _ _) as [[code res]|e];
    [destruct (Z.eqb code 201); [|destruct (Z.eqb code 409)]|];
    cbn [snd]; by apply sent_world_frame.
Qed.

Lemma put_frame : w_heap w ⊆ w_heap (snd (put E self data key ein eat w)).
Proof.
  rewrite put_shape.
  destruct (insert_ttl E (VDict c) (_ttl_attribute self) ein eat w1)
    as [[[]|e] w2] eqn:Httl;
    destruct (item_prefix_effect E _ ein eat _ w _ w2 Httl) as [_ Hsub];
    [|exact Hsub].
  cbv zeta. destruct (answer _ _ _ _) as [[code res]|e];
    [destruct (_ && _)|]; cbn [snd]; by apply sent_world_frame.
Qed.

End Shapes.

(** ** put *)

(** C4, as the code has it.  Once [put] has issued its request: when the
    answer has status 207 and a body whose [processed] entry holds a list
    [items] with a first element, [put] returns that element; when the
    body tests false (it is None or empty) or the status is not 207,
    [put] returns None and raises nothing. *)
Theorem put_answer (E : env) (self : _Base) (data : value) (key : option string)
    (ein eat : value) (w : world) (code : Z) (res : value) :
  (forall sent rq h, rp_result (transport E sent rq h) = Ok (code, res)) ->
  w_sent (snd (put E self data key ein eat w)) <> w_sent w ->
  (truthy (w_heap (snd (put E self data key ein eat w))) res = false \/ code <> 207 ->
   fst (put E self data key ein eat w) = Ok VNone) /\
  (code = 207 ->
   forall rr rp x xs,
     res = VDict rr ->
     dict_get "processed" (heap_dict (w_heap (snd (put E self data key ein eat w))) rr)
       = Some (VDict rp) ->
     dict_get "items" (heap_dict (w_heap (snd (put E self data key ein eat w))) rp)
       = Some (VList (x :: xs)) ->
     fst (put E self data key ein eat w) = Ok x).
Proof.
  intros Hreply. rewrite put_shape. unfold answer, sent_world. cbv zeta.
  destruct (insert_ttl E _ (_ttl_attribute self) ein eat _) as [[[]|e] w2] eqn:Httl.
  - rewrite Hreply. intros _.
    set (w3 := mk_world _ _ _).
    match goal with
    | |- context [if ?c then (?a, w3) else (?b, w3)] =>
        assert (Hsnd : snd (if c then (a, w3) else (b, w3)) = w3) by (by destruct c)
    end.
    rewrite !Hsnd. clear Hsnd.
    split.
    + intros [Hfalse|Hcode].
      * by rewrite Hfalse.
      * destruct (Z.eqb code 207) eqn:Hc;
          [apply Z.eqb_eq in Hc; contradiction|].
        by rewrite andb_false_r.
    + intros -> rr rp x xs -> Hproc Hitems.
      assert (Ht : truthy (w_heap w3) (VDict rr) = true).
      { unfold truthy. destruct (heap_dict (w_heap w3) rr) eqn:Hd; [|reflexivity].
        simpl in Hproc. discriminate Hproc. }
      rewrite Ht. cbn [andb Z.eqb Pos.eqb fst].
      unfold bind, getitem_str, getitem_int. rewrite Hproc, Hitems. reflexivity.
  - intros Hsent. exfalso. apply Hsent. cbn [snd].
    by destruct (item_prefix_effect E _ ein eat _ w _ w2 Httl).
Qed.

(** A plain value put under no key, answered 207 with one processed item. *)
Lemma put_answer_witness :
  (truthy (w_heap (snd (put (sample_env stored_reply) sample_base (VInt 1) None
                            VNone VNone empty_world))) (VDict 100%positive) = false
   \/ 207 <> 207 ->
   fst (put (sample_env stored_reply) sample_base (VInt 1) None VNone VNone empty_world)
     = Ok VNone) /\
  (207 = 207 ->
   forall rr rp x xs,
     VDict 100%positive = VDict rr ->
     dict_get "processed"
       (heap_dict (w_heap (snd (put (sample_env stored_reply) sample_base (VInt 1) None
                                    VNone VNone empty_world))) rr)
       = Some (VDict rp) ->
     dict_get "items"
       (heap_dict (w_heap (snd (put (sample_env stored_reply) sample_base (VInt 1) None
                                    VNone VNone empty_world))) rp)
       = Some (VList (x :: xs)) ->
     fst (put (sample_env stored_reply) sample_base (VInt 1) None VNone VNone empty_world)
       = Ok x).
Proof.
  apply (put_answer (sample_env stored_reply) sample_base (VInt 1) None VNone VNone
           empty_world 207 (VDict 100%positive)).
  - intros sent rq h. reflexivity.
  - vm_compute. discriminate.
Defined.

(** C4, as the claim words it, fails: the answer 207 below reports no
    item as processed (the only item is listed as failed), and [put]
    raises IndexError instead of returning None. *)
Lemma put_skipped_item_raises :
  rp_result skipped_reply = Ok (207, VDict 100%positive) /\
  dict_get "processed" (heap_dict (rp_objects skipped_reply) 100%positive)
    = Some (VDict 101%positive) /\
  dict_get "items" (heap_dict (rp_objects skipped_reply) 101%positive)
    = Some (VList []) /\
  fst (put (sample_env skipped_reply) sample_base (VInt 1) None VNone VNone empty_world)
    = Raise IndexError /\
  fst (put (sample_env skipped_reply) sample_base (VInt 1) None VNone VNone empty_world)
    <> Ok VNone.
Proof.
  split_and!; try (vm_compute; reflexivity).
  vm_compute. discriminate.
Qed.

(** ** insert *)

(** What [insert] makes of the answer, once its request is out: the body
    for status 201, the error naming [str(key)], the key argument, for
    status 409. *)
Lemma insert_answer (E : env) (self : _Base) (data : value) (key : option string)
    (ein eat : value) (w : world) (code : Z) (res : value) :
  (forall sent rq h, rp_result (transport E sent rq h) = Ok (code, res)) ->
  w_sent (snd (insert E self data key ein eat w)) <> w_sent w ->
  (code = 201 -> fst (insert E self data key ein eat w) = Ok res) /\
  (code = 409 ->
   fst (insert E self data key ein eat w) = Raise (ALREADY_EXISTS (key_str key))).
Proof.
  intros Hreply. rewrite insert_shape. unfold answer, sent_world. cbv zeta.
  destruct (insert_ttl E _ (_ttl_attribute self) ein eat _) as [[[]|e] w2] eqn:Httl.
  - rewrite Hreply. intros _. split; intros ->; reflexivity.
  - intros Hsent. exfalso. apply Hsent. cbn [snd].
    by destruct (item_prefix_effect E _ ein eat _ w _ w2 Httl).
Qed.

(** Inserting under the key "abc": 201 returns the created item, 409
    raises the error naming "abc". *)
Lemma insert_answer_example :
  fst (insert (sample_env created_reply) sample_base (VInt 1) (Some "abc")
              VNone VNone empty_world) = Ok (VDict 100%positive) /\
  fst (insert (sample_env conflict_reply) sample_base (VInt 1) (Some "abc")
              VNone VNone empty_world)
    = Raise (ValueError "item with  key 'abc' already exists").
Proof. split; vm_compute; reflexivity. Qed.

(** C8, where the code falls short of it.  The item below carries its
    key "abc" in the data and the key argument is None; the request sends
    the item with that key, the answer is 409, and the error [insert]
    raises names 'None' instead of the conflicting key. *)
Theorem insert_conflict_key_in_data :
  let out := insert (sample_env conflict_reply) sample_base (VDict 1%positive) None
                    VNone VNone (world_with [("key", VStr "abc"); ("value", VInt 1)]) in
  w_sent (snd out) =
    [mk_request "/items" "POST" (Some (VDict 3%positive)) (Some "application/json")] /\
  w_heap (snd out) !! 3%positive = Some [("item", VDict 2%positive)] /\
  w_heap (snd out) !! 2%positive = Some [("key", VStr "abc"); ("value", VInt 1)] /\
  fst out = Raise (ValueError "item with  key 'None' already exists") /\
  fst out <> Raise (ALREADY_EXISTS "abc").
Proof.
  cbv zeta. split_and!; try (vm_compute; reflexivity).
  vm_compute. discriminate.
Qed.

(** ** put_many writes into the caller's items, insert and put do not *)

(** C9, as the code has it.  [put_many] hands each item that is a
    dictionary to [insert_ttl] as it is.  With an integer [expire_at]
    that is not zero and no [expire_in], a call of at most 25 items
    issues its request and has written that integer under the TTL
    attribute of every such item, in the caller's own object, which
    otherwise holds what it held.  With any expiration given, a call
    that gets as far as its request has written an integer under the TTL
    attribute of every such item.  [insert] and [put] work on a copy:
    whatever they do, the objects the store held before the call, the
    caller's data among them, are as they were.  The TTL attribute of a
    base is [__expires]. *)
Theorem put_many_writes_into_items (E : env) (self : _Base) (items : list value)
    (ein eat : value) (w : world) (r : loc) (d : dict) :
  is_dict ein = false -> is_dict eat = false ->
  In (VDict r) items ->
  w_heap w !! r = Some d ->
  (forall n,
     (length items <= 25)%nat -> truthy (w_heap w) ein = false -> n <> 0 ->
     w_heap (snd (put_many E self items ein (VInt n) w)) !! r
       = Some (dict_set (_ttl_attribute self) (VInt n) d) /\
     exists b, w_sent (snd (put_many E self items ein (VInt n) w))
               = (w_sent w ++ [put_request E b])%list) /\
  (truthy (w_heap w) ein || truthy (w_heap w) eat = true ->
   w_sent (snd (put_many E self items ein eat w)) <> w_sent w ->
   exists n, w_heap (snd (put_many E self items ein eat w)) !! r
             = Some (dict_set (_ttl_attribute self) (VInt n) d)) /\
  (forall data key,
     w_heap w ⊆ w_heap (snd (insert E self data key ein eat w)) /\
     w_heap w ⊆ w_heap (snd (put E self data key ein eat w))) /\
  (forall name b, Base_init name = Ok b -> _ttl_attribute b = "__expires").
Proof.
  intros Hein Heat Hin Hr. split_and!.
  - intros n Hlen Hnone Hn.
    destruct (put_many_stamp_run E self items ein n w Hlen Hnone Hein Hn)
      as (b & l & Hsent & _ & Hlisted & _).
    split; [|by exists b].
    apply list_elem_of_In, list_elem_of_lookup in Hin as [i Hi].
    destruct (Forall2_lookup_l _ _ _ _ _ Hlisted Hi) as (y & _ & Hy).
    cbn [stamped_as] in Hy. destruct Hy as [_ Hy]. by apply Hy.
  - intros Hgiven Hsent. unfold put_many in *.
    destruct (25 <? Z.of_nat (length items)); [by cbn in Hsent|].
    destruct (put_many_loop E self items [] ein eat w) as [[l|e] w1] eqn:Hloop.
    + destruct (put_many_loop_spec E self ein eat Hein Heat (w_heap w) Hgiven
                  items [] w _ w1 Hloop) as (_ & _ & Hall).
      destruct (Hall l eq_refl r d Hin Hr) as [n Hn].
      rewrite (bind_ok _ _ w w1 l Hloop).
      cbn [bind new_dict w_heap w_sent w_ticks].
      unfold _request at 1, bind at 1. cbn [w_heap w_sent w_ticks].
      assert (Hkeep : forall h' : gmap loc dict,
                (<[fresh (dom (w_heap w1)) := [("items", VList l)]]> (w_heap w1) ∪ h') !! r
                = Some (dict_set (_ttl_attribute self) (VInt n) d)).
      { intros h'. apply lookup_union_Some_l. rewrite lookup_insert_ne; [done|].
        intros Heq. rewrite <- Heq, fresh_loc_unused in Hn. discriminate Hn. }
      exists n. destruct (rp_result _) as [[code res]|e]; cbn [snd w_heap]; apply Hkeep.
    + rewrite (bind_raise _ _ w w1 e Hloop) in Hsent. cbn [snd] in Hsent.
      destruct (put_many_loop_spec E self ein eat Hein Heat (w_heap w) Hgiven
                  items [] w _ w1 Hloop) as (Hs & _). contradiction.
  - intros data key. split; [apply insert_frame | apply put_frame].
  - intros name b. unfold Base_init.
    destruct (String.eqb name ""); [discriminate|]. by intros [= <-].
Qed.

(** Two items, the first a dictionary of the caller, to expire at the
    second 1700000000. *)
Lemma put_many_writes_into_items_witness :
  (forall n,
     (length [VDict 1%positive; VInt 3] <= 25)%nat ->
     truthy (w_heap (world_with [("name", VStr "a")])) VNone = false -> n <> 0 ->
     w_heap (snd (put_many (sample_env sample_ok) sample_base [VDict 1%positive; VInt 3]
                           VNone (VInt n) (world_with [("name", VStr "a")]))) !! 1%positive
       = Some (dict_set (_ttl_attribute sample_base) (VInt n) [("name", VStr "a")]) /\
     exists b, w_sent (snd (put_many (sample_env sample_ok) sample_base
                                     [VDict 1%positive; VInt 3] VNone (VInt n)
                                     (world_with [("name", VStr "a")])))
               = (w_sent (world_with [("name", VStr "a")]) ++
                  [put_request (sample_env sample_ok) b])%list) /\
  (truthy (w_heap (world_with [("name", VStr "a")])) VNone
   || truthy (w_heap (world_with [("name", VStr "a")])) (VInt 1700000000) = true ->
   w_sent (snd (put_many (sample_env sample_ok) sample_base [VDict 1%positive; VInt 3]
                         VNone (VInt 1700000000) (world_with [("name", VStr "a")])))
     <> w_sent (world_with [("name", VStr "a")]) ->
   exists n, w_heap (snd (put_many (sample_env sample_ok) sample_base
                                   [VDict 1%positive; VInt 3] VNone (VInt 1700000000)
                                   (world_with [("name", VStr "a")]))) !! 1%positive
             = Some (dict_set (_ttl_attribute sample_base) (VInt n) [("name", VStr "a")])) /\
  (forall data key,
     w_heap (world_with [("name", VStr "a")]) ⊆
       w_heap (snd (insert (sample_env sample_ok) sample_base data key VNone
                           (VInt 1700000000) (world_with [("name", VStr "a")]))) /\
     w_heap (world_with [("name", VStr "a")]) ⊆
       w_heap (snd (put (sample_env sample_ok) sample_base data key VNone
                        (VInt 1700000000) (world_with [("name", VStr "a")])))) /\
  (forall name b, Base_init name = Ok b -> _ttl_attribute b = "__expires").
Proof.
  apply (put_many_writes_into_items (sample_env sample_ok) sample_base
           [VDict 1%positive; VInt 3] VNone (VInt 1700000000)
           (world_with [("name", VStr "a")]) 1%positive [("name", VStr "a")]).
  - reflexivity.
  - reflexivity.
  - simpl. left. reflexivity.
  - reflexivity.
Defined.

(** C9, as the claim words it, fails: an expiration supplied and an item
    that is a mapping do not suffice.  With both expirations supplied,
    with 26 items, or with a date written as a string for [expire_at],
    [put_many] raises and the world is as it was: the caller's
    dictionary at location 1 holds its name and no [__expires]. *)
Lemma put_many_leaves_items_unwritten :
  put_many (sample_env sample_ok) sample_base [VDict 1%positive] (VInt 10)
           (VInt 1700000000) (world_with [("name", VStr "a")])
    = (Raise MUTUALLY_EXCLUSIVE, world_with [("name", VStr "a")]) /\
  put_many (sample_env sample_ok) sample_base (repeat (VDict 1%positive) 26) (VInt 10)
           VNone (world_with [("name", VStr "a")])
    = (Raise (ValueError "cannot put more than 25 items at a time"),
       world_with [("name", VStr "a")]) /\
  put_many (sample_env sample_ok) sample_base [VDict 1%positive] VNone
           (VStr "2030-01-01") (world_with [("name", VStr "a")])
    = (Raise (TypeError "'expire_at' must be of type 'int', 'float' or 'datetime'"),
       world_with [("name", VStr "a")]) /\
  w_heap (world_with [("name", VStr "a")]) !! 1%positive = Some [("name", VStr "a")] /\
  dict_get "__expires" [("name", VStr "a")] = None.
Proof. split_and!; vm_compute; reflexivity. Qed.

(** The same call, spelled out: the caller's dictionary at location 1
    has gained [__expires], and it is that very object the request
    lists. *)
Lemma put_many_example :
  let out := put_many (sample_env sample_ok) sample_base [VDict 1%positive; VInt 3]
                      (VInt 10) VNone (world_with [("name", VStr "a")]) in
  w_heap (snd out) !! 1%positive
    = Some [("name", VStr "a"); ("__expires", VInt 1699996410)] /\
  w_heap (snd out) !! 3%positive
    = Some [("items", VList [VDict 1%positive; VDict 2%positive])].
Proof. cbv zeta. split; vm_compute; reflexivity. Qed.

(** * Further properties *)

(** ** Keys in request paths *)

Lemma hex_digit_unreserved (n : nat) : is_unreserved (hex_digit n) = true.
Proof. do 16 (destruct n as [|n]; [reflexivity|]). reflexivity. Qed.

Lemma hex_digit_inj (a b : nat) :
  (a < 16)%nat -> (b < 16)%nat -> hex_digit a = hex_digit b -> a = b.
Proof.
  intros Ha Hb.
  do 16 (destruct a as [|a];
         [do 16 (destruct b as [|b];
                 [first [reflexivity | intros H; vm_compute in H; discriminate H]|]);
          lia|]).
  lia.
Qed.

Lemma hex_pair_inj (c1 c2 : ascii) :
  hex_digit (nat_of_ascii c1 / 16) = hex_digit (nat_of_ascii c2 / 16) ->
  hex_digit (nat_of_ascii c1 mod 16) = hex_digit (nat_of_ascii c2 mod 16) ->
  c1 = c2.
Proof.
  intros Hhi Hlo.
  pose proof (nat_ascii_bounded c1) as B1. pose proof (nat_ascii_bounded c2) as B2.
  apply hex_digit_inj in Hhi;
    [| apply Nat.Div0.div_lt_upper_bound; lia | apply Nat.Div0.div_lt_upper_bound; lia].
  apply hex_digit_inj in Hlo; [| apply Nat.mod_upper_bound; lia | apply Nat.mod_upper_bound; lia].
  rewrite <- (ascii_nat_embedding c1), <- (ascii_nat_embedding c2). f_equal.
  rewrite (Nat.div_mod_eq (nat_of_ascii c1) 16), (Nat.div_mod_eq (nat_of_ascii c2) 16).
  by rewrite Hhi, Hlo.
Qed.

Lemma quote_inj (s1 s2 : string) : quote s1 = quote s2 -> s1 = s2.
Proof.
  revert s2. induction s1 as [|c1 s1 IH]; intros [|c2 s2]; simpl.
  - done.
  - by destruct (is_unreserved c2).
  - by destruct (is_unreserved c1).
  - destruct (is_unreserved c1) eqn:H1, (is_unreserved c2) eqn:H2.
    + intros [= -> Hq]. f_equal. by apply IH.
    + intros [= -> _]. discriminate H1.
    + intros [= <- _]. discriminate H2.
    + intros [= Hhi Hlo Hq]. f_equal; [by apply hex_pair_inj | by apply IH].
Qed.

Lemma quote_length (s : string) :
  (String.length s <= String.length (quote s))%nat /\
  (forallb is_unreserved (list_ascii_of_string s) = false ->
   String.length s < String.length (quote s))%nat.
Proof.
  induction s as [|c s [IH1 IH2]]; simpl; [split; [lia | discriminate]|].
  destruct (is_unreserved c); simpl.
  - split; [lia|]. intros H. specialize (IH2 H). lia.
  - split; [lia|]. intros _. lia.
Qed.

Lemma quote_unreserved (s : string) :
  forallb is_unreserved (list_ascii_of_string s) = true -> quote s = s.
Proof.
  induction s as [|c s IH]; simpl; [done|].
  destruct (is_unreserved c); simpl; [|discriminate].
  intros H. by rewrite IH.
Qed.

Lemma quote_quoted_chars (s : string) :
  forallb is_quoted_char (list_ascii_of_string (quote s)) = true.
Proof.
  induction s as [|c s IH]; simpl; [done|].
  destruct (is_unreserved c) eqn:Hc; simpl; rewrite IH.
  - unfold is_quoted_char. by rewrite Hc.
  - unfold is_quoted_char. by rewrite !hex_digit_unreserved.
Qed.

Lemma quote_avoids (s : string) (c : ascii) :
  is_quoted_char c = false ->
  existsb (Ascii.eqb c) (list_ascii_of_string (quote s)) = false.
Proof.
  intros Hc. pose proof (quote_quoted_chars s) as Hall.
  induction (list_ascii_of_string (quote s)) as [|x l IH]; simpl; [done|].
  simpl in Hall. apply andb_true_iff in Hall as [Hx Hl].
  rewrite (IH Hl), orb_false_r.
  destruct (Ascii.eqb c x) eqn:Heq; [|done].
  apply Ascii.eqb_eq in Heq. subst x. congruence.
Qed.

(** X1. The characters of a quoted key are unreserved ones
    (letters, digits, [_], [.], [-], [~]) and percent signs: a slash, a
    question mark or a hash sign of the key never reaches the path as
    such.  A key made of unreserved characters is sent as it is, and
    every other key changes. *)
Theorem quote_output_chars (s : string) :
  forallb is_quoted_char (list_ascii_of_string (quote s)) = true /\
  existsb (Ascii.eqb "/") (list_ascii_of_string (quote s)) = false /\
  existsb (Ascii.eqb "?") (list_ascii_of_string (quote s)) = false /\
  existsb (Ascii.eqb "#") (list_ascii_of_string (quote s)) = false /\
  String.eqb (quote s) s = forallb is_unreserved (list_ascii_of_string s).
Proof.
  split_and!; try (by apply quote_avoids); [apply quote_quoted_chars|].
  destruct (forallb is_unreserved (list_ascii_of_string s)) eqn:Hs.
  - rewrite (quote_unreserved s Hs). apply String.eqb_refl.
  - apply String.eqb_neq. intros Heq.
    destruct (quote_length s) as [_ Hlt]. specialize (Hlt Hs).
    rewrite Heq in Hlt. lia.
Qed.

(** X2. Quoting loses nothing: two keys are quoted alike exactly when
    they are the same key, so [get], [delete] and [update] address
    different keys by different paths. *)
Theorem quote_distinguishes_keys (k1 k2 : string) :
  String.eqb (quote k1) (quote k2) = String.eqb k1 k2 /\
  String.eqb ("/items/" ++ quote k1) ("/items/" ++ quote k2) = String.eqb k1 k2.
Proof.
  assert (H : String.eqb (quote k1) (quote k2) = String.eqb k1 k2).
  { destruct (String.eqb k1 k2) eqn:Hk.
    - apply String.eqb_eq in Hk. subst. apply String.eqb_refl.
    - apply String.eqb_neq. intros Hq. apply quote_inj in Hq.
      apply String.eqb_neq in Hk. contradiction. }
  split; [exact H|]. simpl. exact H.
Qed.

(** ** update: the payload, the request and the answer *)

(** The five objects of the payload come first, whatever [updates] is. *)
Lemma update_payload_run updates w :
  exists r s i a p w5,
    payload_at (w_heap w5) r s i a p no_buckets /\
    w_heap w ⊆ w_heap w5 /\ w_sent w5 = w_sent w /\ w_ticks w5 = w_ticks w /\
    (forall x, x ∈ [r; s; i; a; p] -> w_heap w !! x = None) /\
    update_payload updates w =
      (t <- truth updates ;;
       (if t then its <- method_items updates ;; for_each its (update_step (VDict r))
        else ret tt) ;;;
       ret (VDict r)) w5.
Proof.
  set (s := fresh (dom (w_heap w))).
  set (h1 := <[s := []]> (w_heap w)).
  set (i := fresh (dom h1)).
  set (h2 := <[i := []]> h1).
  set (a := fresh (dom h2)).
  set (h3 := <[a := []]> h2).
  set (p := fresh (dom h3)).
  set (h4 := <[p := []]> h3).
  set (r := fresh (dom h4)).
  set (h5 := <[r := payload_dict s i a p []]> h4).
  set (w5 := mk_world h5 (w_sent w) (w_ticks w)).
  assert (Hs0 : w_heap w !! s = None) by apply fresh_loc_unused.
  assert (Hi0 : h1 !! i = None) by apply fresh_loc_unused.
  assert (Ha0 : h2 !! a = None) by apply fresh_loc_unused.
  assert (Hp0 : h3 !! p = None) by apply fresh_loc_unused.
  assert (Hr0 : h4 !! r = None) by apply fresh_loc_unused.
  unfold h4 in Hr0. unfold h3 in Hr0, Hp0. unfold h2 in Hr0, Hp0, Ha0.
  unfold h1 in Hr0, Hp0, Ha0, Hi0.
  apply lookup_insert_None_inv in Hi0 as [Hsi Hi0].
  apply lookup_insert_None_inv in Ha0 as [Hia Ha0].
  apply lookup_insert_None_inv in Ha0 as [Hsa Ha0].
  apply lookup_insert_None_inv in Hp0 as [Hap Hp0].
  apply lookup_insert_None_inv in Hp0 as [Hip Hp0].
  apply lookup_insert_None_inv in Hp0 as [Hsp Hp0].
  apply lookup_insert_None_inv in Hr0 as [Hpr Hr0].
  apply lookup_insert_None_inv in Hr0 as [Har Hr0].
  apply lookup_insert_None_inv in Hr0 as [Hir Hr0].
  apply lookup_insert_None_inv in Hr0 as [Hsr Hr0].
  exists r, s, i, a, p, w5. split_and!.
  - unfold payload_at. simpl. unfold h5, h4, h3, h2, h1.
    split_and!;
      repeat first [rewrite lookup_insert_eq | rewrite lookup_insert_ne by done];
      try done.
    rewrite !NoDup_cons, !not_elem_of_cons.
    split_and!; try done; try apply not_elem_of_nil; try apply NoDup_nil_2;
      by apply not_eq_sym.
  - simpl. unfold h5, h4, h3, h2, h1.
    repeat (apply insert_subseteq_r; [done|]). done.
  - done.
  - done.
  - intros x Hx. rewrite !elem_of_cons in Hx.
    destruct Hx as [->|[->|[->|[->|[->|Hx]]]]]; try done.
    by apply elem_of_nil in Hx.
  - reflexivity.
Qed.

(** [update_payload] either finds that [updates] tests true and has no
    [items] method, or returns the payload with its five buckets; either
    way the objects of the store are as they were. *)
Lemma update_payload_outcome updates w :
  exists r s i a p,
    (forall x, x ∈ [r; s; i; a; p] -> w_heap w !! x = None) /\
    ((exists w5,
        update_payload updates w = (Raise (AttributeError "items"), w5) /\
        w_heap w ⊆ w_heap w5 /\ w_sent w5 = w_sent w /\ is_dict updates = false) \/
     (exists B w',
        update_payload updates w = (Ok (VDict r), w') /\
        payload_at (w_heap w') r s i a p B /\
        w_heap w ⊆ w_heap w' /\ w_sent w' = w_sent w /\ w_ticks w' = w_ticks w)).
Proof.
  destruct (update_payload_run updates w)
    as (r & s & i & a & p & w5 & Hpay & Hsub & Hsent & Hticks & Hnone & Heq).
  exists r, s, i, a, p. split; [exact Hnone|].
  unfold bind at 1 in Heq. unfold truth in Heq. cbv beta iota in Heq.
  destruct (truthy (w_heap w5) updates) eqn:Ht.
  - destruct (is_dict updates) eqn:Hd.
    + right. destruct updates as [| | | | | |u| | | | |]; try discriminate Hd.
      destruct (update_loop_spec r s i a p (heap_dict (w_heap w5) u) no_buckets w5 Hpay)
        as (w6 & Hrun & Hpay6 & Hsent6 & Hticks6 & Hframe).
      assert (Hrun' : (its <- method_items (VDict u) ;;
                       for_each its (update_step (VDict r))) w5 = (Ok tt, w6))
        by exact Hrun.
      rewrite (bind_ok _ _ _ _ _ Hrun') in Heq.
      exists (classify_from no_buckets (heap_dict (w_heap w5) u)), w6.
      split_and!; [exact Heq | exact Hpay6 | | congruence | congruence].
      apply map_subseteq_spec. intros x d Hx. rewrite Hframe.
      * by apply (lookup_weaken _ _ _ _ Hx Hsub).
      * intros Hin. apply Hnone in Hin. congruence.
    + left. exists w5.
      split_and!; [|exact Hsub | exact Hsent | reflexivity].
      destruct updates; try discriminate Hd; exact Heq.
  - right. exists no_buckets, w5. by split_and!.
Qed.

(** What [update] does with the payload once it is built. *)
Lemma update_shape (E : env) (self : _Base) updates key ein eat w r s i a p B w1 :
  key_truthy key = true ->
  update_payload updates w = (Ok (VDict r), w1) ->
  payload_at (w_heap w1) r s i a p B ->
  update E self updates key ein eat w =
    match insert_ttl E (VDict s) (_ttl_attribute self) ein eat w1 with
    | (Raise e, w2) => (Raise e, w2)
    | (Ok _, w2) =>
        if has_surrogate (key_str key) then (Raise UnicodeEncodeError, w2) else
        let rq := update_request E key r in
        let rp := transport E (w_sent w2) rq (w_heap w2) in
        let w3 := mk_world (w_heap w2 ∪ rp_objects rp) (w_sent w2 ++ [rq])%list (w_ticks w2) in
        match rp_result rp with
        | Raise e => (Raise e, w3)
        | Ok (code, _) =>
            if Z.eqb code 404 then (Raise (NOT_FOUND (key_str key)), w3)
            else (Ok VNone, w3)
        end
    end.
Proof.
  intros Hkey Hrun (Hr & _). unfold update. rewrite Hkey. cbn [negb].
  rewrite (bind_ok _ _ w w1 (VDict r) Hrun).
  unfold bind at 1. unfold getitem_str, heap_dict. rewrite Hr.
  cbn [default from_option id payload_dict dict_get String.eqb Ascii.eqb Bool.eqb].
  unfold bind at 1.
  destruct (insert_ttl E (VDict s) (_ttl_attribute self) ein eat w1) as [[[]|e] w2];
    [|reflexivity].
  unfold bind at 1, lift at 1, quote_str at 1.
  destruct (has_surrogate (key_str key)); [reflexivity|].
  unfold _request at 1, bind at 1. cbv zeta. unfold update_request.
  destruct (rp_result _) as [[code res]|e]; [|reflexivity].
  cbn [fst]. by destruct (Z.eqb code 404).
Qed.

(** The store before a call of [update] is part of the store after it. *)
Lemma update_frame (E : env) (self : _Base) updates key ein eat w :
  w_heap w ⊆ w_heap (snd (update E self updates key ein eat w)).
Proof.
  destruct (key_truthy key) eqn:Hkey; [|by unfold update; rewrite Hkey].
  destruct (update_payload_outcome updates w)
    as (r & s & i & a & p & Hnone & [(w5 & Hrun & Hsub & _)|(B & w1 & Hrun & Hpay & Hsub & _)]).
  - unfold update. rewrite Hkey. cbn [negb].
    by rewrite (bind_raise _ _ w w5 _ Hrun).
  - rewrite (update_shape E self updates key ein eat w r s i a p B w1 Hkey Hrun Hpay).
    assert (Hs : w_heap w !! s = None).
    { apply Hnone. rewrite !elem_of_cons. tauto. }
    destruct (insert_ttl E (VDict s) (_ttl_attribute self) ein eat w1)
      as [res w2] eqn:Httl.
    assert (Hsub2 : w_heap w ⊆ w_heap w2).
    { apply insert_ttl_effect in Httl as [_ [[Hheap _]|[_ [n Hheap]]]]; rewrite Hheap.
      - exact Hsub.
      - by apply insert_subseteq_r. }
    destruct res as [[]|e]; [|exact Hsub2].
    destruct (has_surrogate (key_str key)); [exact Hsub2|].
    cbv zeta. destruct (rp_result _) as [[code res]|e];
      [destruct (Z.eqb code 404)|]; cbn [snd w_heap];
      (etransitivity; [exact Hsub2 | apply map_union_subseteq_l]).
Qed.

(** X3. Once [update] has issued its request (one request, a PATCH at
    the path of the quoted key), an answer 404 raises the error that
    names the key as it was given, and every other status returns
    None. *)
Theorem update_answer (E : env) (self : _Base) (updates : value) (key : option string)
    (ein eat : value) (w : world) (code : Z) (res : value) :
  (forall sent rq h, rp_result (transport E sent rq h) = Ok (code, res)) ->
  w_sent (snd (update E self updates key ein eat w)) <> w_sent w ->
  (exists r, w_sent (snd (update E self updates key ein eat w))
             = (w_sent w ++ [update_request E key r])%list) /\
  (code = 404 ->
   fst (update E self updates key ein eat w) = Raise (NOT_FOUND (key_str key))) /\
  (code <> 404 -> fst (update E self updates key ein eat w) = Ok VNone).
Proof.
  intros Hreply.
  destruct (key_truthy key) eqn:Hkey;
    [|unfold update; rewrite Hkey; intros Hsent; by exfalso].
  destruct (update_payload_outcome updates w)
    as (r & s & i & a & p & Hnone &
        [(w5 & Hrun & _ & Hsent5 & _)|(B & w1 & Hrun & Hpay & _ & Hsent1 & _)]).
  - unfold update. rewrite Hkey. cbn [negb].
    rewrite (bind_raise _ _ w w5 _ Hrun). intros Hsent. by exfalso.
  - rewrite (update_shape E self updates key ein eat w r s i a p B w1 Hkey Hrun Hpay).
    destruct (insert_ttl E (VDict s) (_ttl_attribute self) ein eat w1)
      as [[[]|e] w2] eqn:Httl;
      apply insert_ttl_effect in Httl as [Hsent2 _].
    + destruct (has_surrogate (key_str key));
        [cbn [snd]; intros Hsent; exfalso; apply Hsent; congruence|].
      cbv zeta. rewrite Hreply. intros _.
      destruct (Z.eqb code 404) eqn:Hc; cbn [fst snd w_sent].
      * apply Z.eqb_eq in Hc. split_and!; [|done|done].
        exists r. by rewrite Hsent2, Hsent1.
      * apply Z.eqb_neq in Hc. split_and!; [|done|done].
        exists r. by rewrite Hsent2, Hsent1.
    + cbn [snd]. intros Hsent. exfalso. apply Hsent. congruence.
Qed.

(** Updating a key that the collaborator does not know. *)
Lemma update_answer_witness :
  (exists r, w_sent (snd (update (sample_env missing_reply) sample_base VNone (Some "a b")
                                 VNone VNone empty_world))
             = (w_sent empty_world ++
                [update_request (sample_env missing_reply) (Some "a b") r])%list) /\
  (404 = 404 ->
   fst (update (sample_env missing_reply) sample_base VNone (Some "a b")
               VNone VNone empty_world) = Raise (NOT_FOUND (key_str (Some "a b")))) /\
  (404 <> 404 ->
   fst (update (sample_env missing_reply) sample_base VNone (Some "a b")
               VNone VNone empty_world) = Ok VNone).
Proof.
  apply (update_answer (sample_env missing_reply) sample_base VNone (Some "a b")
           VNone VNone empty_world 404 VNone).
  - intros sent rq h. reflexivity.
  - vm_compute. discriminate.
Defined.

(** X4. An expiration given to [update] goes into the [set] bucket of
    the payload, under the TTL attribute: for a key that can be encoded
    (a str without a lone surrogate), the payload sent holds the buckets
    of the classification, with the integer written into [set] over
    whatever the updates put there under that name. *)
Theorem update_ttl_in_set (E : env) (self : _Base) (u : loc) (d : dict)
    (key : option string) (ein : value) (n : Z) (w : world) :
  key_truthy key = true ->
  has_surrogate (key_str key) = false ->
  w_heap w !! u = Some d ->
  truthy (w_heap w) ein = false -> is_dict ein = false ->
  n <> 0 ->
  exists r s i a p,
    w_sent (snd (update E self (VDict u) key ein (VInt n) w))
      = (w_sent w ++ [update_request E key r])%list /\
    payload_at (w_heap (snd (update E self (VDict u) key ein (VInt n) w))) r s i a p
      (with_ttl (_ttl_attribute self) n (classify d)) /\
    dict_get (_ttl_attribute self)
      (b_set (with_ttl (_ttl_attribute self) n (classify d))) = Some (VInt n).
Proof.
  intros Hkey Henc Hu Hein Hnd Hn.
  destruct (update_payload_spec (VDict u) w)
    as (r & s & i & a & p & w1 & Hrun & Hpay & Hsent1 & _ & Hsub & _).
  { intros x [= <-]. eauto. }
  { discriminate. }
  simpl in Hpay. unfold heap_dict in Hpay. rewrite Hu in Hpay. simpl in Hpay.
  rewrite (update_shape E self (VDict u) key ein (VInt n) w r s i a p _ w1 Hkey Hrun Hpay).
  assert (Httl : insert_ttl E (VDict s) (_ttl_attribute self) ein (VInt n) w1
                 = (Ok tt, world_set w1 s (_ttl_attribute self) (VInt n))).
  { unfold insert_ttl, bind, truth.
    rewrite (truthy_not_dict (w_heap w1) (w_heap w) ein Hnd), Hein. simpl.
    destruct (Z.eqb n 0) eqn:Hz; [apply Z.eqb_eq in Hz; contradiction|].
    reflexivity. }
  rewrite Httl, Henc. cbv zeta.
  exists r, s, i, a, p.
  assert (Hsnd : forall (x : result (Z * value)) (w3 : world),
            snd (match x with
                 | Ok (code, _) =>
                     if Z.eqb code 404 then (Raise (NOT_FOUND (key_str key)), w3)
                     else (@Ok value VNone, w3)
                 | Raise e => (Raise e, w3)
                 end) = w3).
  { intros [[c0 r0]|e0] w3; [by destruct (Z.eqb c0 404) | done]. }
  rewrite Hsnd. cbn [w_sent w_heap world_set].
  destruct Hpay as (Hr & Hs & Hi & Ha & Hp & Hdis).
  pose proof (payload_locs_distinct r s i a p Hdis)
    as (Hrs & Hri & Hra & Hrp & Hsi & Hsa & Hsp & Hia & Hip & Hap).
  split_and!.
  - by rewrite Hsent1.
  - unfold payload_at, with_ttl. cbn [b_set b_increment b_append b_prepend b_delete].
    split_and!; try exact Hdis; apply lookup_union_Some_l.
    + by rewrite lookup_insert_ne.
    + rewrite lookup_insert_eq. unfold heap_dict. by rewrite Hs.
    + by rewrite lookup_insert_ne.
    + by rewrite lookup_insert_ne.
    + by rewrite lookup_insert_ne.
  - apply dict_get_set_eq.
Qed.

(** An update that sets its own [__expires] and a name, with an
    expiration beside. *)
Lemma update_ttl_in_set_witness :
  exists r s i a p,
    w_sent (snd (update (sample_env sample_ok) sample_base (VDict 1%positive) (Some "k")
                        VNone (VInt 1700000000)
                        (world_with [("__expires", VInt 5); ("name", VStr "x")])))
      = (w_sent (world_with [("__expires", VInt 5); ("name", VStr "x")]) ++
         [update_request (sample_env sample_ok) (Some "k") r])%list /\
    payload_at
      (w_heap (snd (update (sample_env sample_ok) sample_base (VDict 1%positive) (Some "k")
                           VNone (VInt 1700000000)
                           (world_with [("__expires", VInt 5); ("name", VStr "x")]))))
      r s i a p
      (with_ttl (_ttl_attribute sample_base) 1700000000
                (classify [("__expires", VInt 5); ("name", VStr "x")])) /\
    dict_get (_ttl_attribute sample_base)
      (b_set (with_ttl (_ttl_attribute sample_base) 1700000000
                       (classify [("__expires", VInt 5); ("name", VStr "x")])))
      = Some (VInt 1700000000).
Proof.
  apply (update_ttl_in_set (sample_env sample_ok) sample_base 1%positive
           [("__expires", VInt 5); ("name", VStr "x")] (Some "k") VNone 1700000000
           (world_with [("__expires", VInt 5); ("name", VStr "x")])).
  - reflexivity.
  - reflexivity.
  - reflexivity.
  - reflexivity.
  - reflexivity.
  - lia.
Defined.

(** X5. Updates that test true and are no mapping have no [items]
    method: [update] raises AttributeError before any request is issued,
    and the objects of the store are as they were. *)
Theorem update_rejects_non_mapping (E : env) (self : _Base) (updates : value)
    (key : option string) (ein eat : value) (w : world) :
  key_truthy key = true ->
  is_dict updates = false ->
  truthy (w_heap w) updates = true ->
  fst (update E self updates key ein eat w) = Raise (AttributeError "items") /\
  w_sent (snd (update E self updates key ein eat w)) = w_sent w /\
  w_heap w ⊆ w_heap (snd (update E self updates key ein eat w)).
Proof.
  intros Hkey Hd Ht.
  destruct (update_payload_run updates w)
    as (r & s & i & a & p & w5 & _ & Hsub & Hsent & _ & _ & Heq).
  assert (Hrun : update_payload updates w = (Raise (AttributeError "items"), w5)).
  { rewrite Heq. unfold bind at 1. unfold truth. cbv beta.
    rewrite (truthy_not_dict (w_heap w5) (w_heap w) updates Hd), Ht.
    by destruct updates. }
  unfold update. rewrite Hkey. cbn [negb].
  rewrite (bind_raise _ _ w w5 _ Hrun). done.
Qed.

(** A list of pairs in place of a mapping. *)
Lemma update_rejects_non_mapping_witness :
  fst (update (sample_env sample_ok) sample_base (VList [VStr "name"]) (Some "k")
              VNone VNone empty_world) = Raise (AttributeError "items") /\
  w_sent (snd (update (sample_env sample_ok) sample_base (VList [VStr "name"]) (Some "k")
                      VNone VNone empty_world)) = w_sent empty_world /\
  w_heap empty_world ⊆
    w_heap (snd (update (sample_env sample_ok) sample_base (VList [VStr "name"]) (Some "k")
                        VNone VNone empty_world)).
Proof.
  apply (update_rejects_non_mapping (sample_env sample_ok) sample_base
           (VList [VStr "name"]) (Some "k") VNone VNone empty_world); reflexivity.
Defined.

Lemma payload_at_weaken (h h' : gmap loc dict) r s i a p B :
  h ⊆ h' -> payload_at h r s i a p B -> payload_at h' r s i a p B.
Proof.
  intros Hsub (Hr & Hs & Hi & Ha & Hp & Hnd). unfold payload_at.
  split_and!; try (by eapply lookup_weaken). exact Hnd.
Qed.

(** X6. Nothing to update is no reason not to ask: with updates that
    test false (None, or an empty mapping) and no expiration, [update]
    still issues its request for a key that can be encoded (a str
    without a lone surrogate), with a payload of five empty buckets; for
    a key that cannot, it raises UnicodeEncodeError and issues none. *)
Theorem update_without_updates (E : env) (self : _Base) (updates : value)
    (key : option string) (ein eat : value) (w : world) :
  key_truthy key = true ->
  live (w_heap w) updates -> truthy (w_heap w) updates = false ->
  truthy (w_heap w) ein = false -> is_dict ein = false ->
  truthy (w_heap w) eat = false -> is_dict eat = false ->
  (has_surrogate (key_str key) = false ->
   exists r s i a p,
     w_sent (snd (update E self updates key ein eat w))
       = (w_sent w ++ [update_request E key r])%list /\
     payload_at (w_heap (snd (update E self updates key ein eat w))) r s i a p no_buckets) /\
  (has_surrogate (key_str key) = true ->
   fst (update E self updates key ein eat w) = Raise UnicodeEncodeError /\
   w_sent (snd (update E self updates key ein eat w)) = w_sent w).
Proof.
  intros Hkey Hlive Ht Hin Hnin Hat Hnat.
  destruct (update_payload_spec updates w Hlive (fun _ => Ht))
    as (r & s & i & a & p & w1 & Hrun & Hpay & Hsent1 & _ & Hsub & _).
  assert (Hempty : updates_items (w_heap w) updates = []).
  { destruct updates; try reflexivity. simpl in *.
    by destruct (heap_dict (w_heap w) r0). }
  rewrite Hempty in Hpay. change (classify []) with no_buckets in Hpay.
  rewrite (update_shape E self updates key ein eat w r s i a p _ w1 Hkey Hrun Hpay).
  rewrite insert_ttl_neither;
    [| by rewrite (truthy_not_dict _ (w_heap w) ein Hnin)
     | by rewrite (truthy_not_dict _ (w_heap w) eat Hnat)].
  split; intros ->; [|by split].
  cbv zeta. exists r, s, i, a, p.
  assert (Hsnd : forall (x : result (Z * value)) (w3 : world),
            snd (match x with
                 | Ok (code, _) =>
                     if Z.eqb code 404 then (Raise (NOT_FOUND (key_str key)), w3)
                     else (@Ok value VNone, w3)
                 | Raise e => (Raise e, w3)
                 end) = w3).
  { intros [[c0 r0]|e0] w3; [by destruct (Z.eqb c0 404) | done]. }
  rewrite Hsnd. cbn [w_sent w_heap]. split; [by rewrite Hsent1|].
  eapply payload_at_weaken; [apply map_union_subseteq_l | exact Hpay].
Qed.

(** An update with None for updates. *)
Lemma update_without_updates_witness :
  (has_surrogate (key_str (Some "k")) = false ->
   exists r s i a p,
     w_sent (snd (update (sample_env sample_ok) sample_base VNone (Some "k")
                         VNone VNone empty_world))
       = (w_sent empty_world ++ [update_request (sample_env sample_ok) (Some "k") r])%list /\
     payload_at (w_heap (snd (update (sample_env sample_ok) sample_base VNone (Some "k")
                                     VNone VNone empty_world))) r s i a p no_buckets) /\
  (has_surrogate (key_str (Some "k")) = true ->
   fst (update (sample_env sample_ok) sample_base VNone (Some "k")
               VNone VNone empty_world) = Raise UnicodeEncodeError /\
   w_sent (snd (update (sample_env sample_ok) sample_base VNone (Some "k")
                       VNone VNone empty_world)) = w_sent empty_world).
Proof.
  apply (update_without_updates (sample_env sample_ok) sample_base VNone (Some "k")
           VNone VNone empty_world); try reflexivity.
  intros r [=].
Defined.

(** ** insert_ttl: what is written, and what is not *)

Lemma timedelta_seconds_int (n : Z) :
  -86399999913600 <= n <= 86399999913600 ->
  timedelta_seconds (VInt n) = Ok (n * US_PER_SECOND).
Proof.
  intros Hn. unfold timedelta_seconds, timedelta_in_range, US_PER_SECOND.
  rewrite Z.div_mul_cancel_r by lia.
  assert (-999999999 <= n / 86400 <= 999999999) as Hq.
  { split; [apply Z.div_le_lower_bound | apply Z.div_le_upper_bound]; lia. }
  destruct (Z.abs (n / 86400) <=? 999999999) eqn:Hle; [done|].
  apply Z.leb_gt in Hle. lia.
Qed.

Lemma datetime_add_seconds (t : datetime) (n : Z) :
  0 <= dt_microsecond t < 1000000 ->
  MIN_WALL <= dt_wall t + n <= MAX_WALL ->
  datetime_add t (n * US_PER_SECOND)
    = Ok (mk_datetime (dt_wall t + n) (dt_microsecond t) (dt_tz t) false).
Proof.
  intros Hus Hwall. unfold datetime_add, US_PER_SECOND.
  rewrite Z.div_add by lia. rewrite Z.mod_add by lia.
  rewrite Z.div_small, Z.mod_small by lia. rewrite Z.add_0_l.
  destruct (MIN_WALL <=? dt_wall t + n) eqn:H1;
    [|apply Z.leb_gt in H1; lia].
  destruct (dt_wall t + n <=? MAX_WALL) eqn:H2;
    [|apply Z.leb_gt in H2; lia].
  reflexivity.
Qed.

(** X7. [insert_ttl] on a dictionary issues no request, leaves every
    other object as it is and, in the dictionary itself, every key but
    the TTL attribute; when it raises, it has written nothing. *)
Theorem insert_ttl_touches_only_ttl (E : env) (r : loc) (attr : string)
    (ein eat : value) (w : world) :
  w_sent (snd (insert_ttl E (VDict r) attr ein eat w)) = w_sent w /\
  (forall r', r' <> r ->
     w_heap (snd (insert_ttl E (VDict r) attr ein eat w)) !! r' = w_heap w !! r') /\
  (forall k, k <> attr ->
     dict_get k (heap_dict (w_heap (snd (insert_ttl E (VDict r) attr ein eat w))) r)
       = dict_get k (heap_dict (w_heap w) r)) /\
  (forall e, fst (insert_ttl E (VDict r) attr ein eat w) = Raise e ->
     w_heap (snd (insert_ttl E (VDict r) attr ein eat w)) = w_heap w).
Proof.
  destruct (insert_ttl E (VDict r) attr ein eat w) as [res w'] eqn:Hrun.
  apply insert_ttl_effect in Hrun as [Hsent [[Hheap _]|[Hres [n Hheap]]]];
    cbn [fst snd]; rewrite Hheap.
  - done.
  - split_and!.
    + exact Hsent.
    + intros r' Hne. by rewrite lookup_insert_ne.
    + intros k Hk. rewrite heap_dict_insert_eq. by apply dict_get_set_ne.
    + intros e He. congruence.
Qed.

(** X8. An [expire_at] that tests true and is neither a number nor a
    datetime (a string, a list, a mapping) is turned down with a
    TypeError; nothing is written and the world is as it was. *)
Theorem insert_ttl_rejects_other_types (E : env) (item : value) (attr : string)
    (ein eat : value) (w : world) :
  truthy (w_heap w) ein = false ->
  truthy (w_heap w) eat = true ->
  is_number eat = false -> is_datetime eat = false ->
  insert_ttl E item attr ein eat w = (Raise BAD_EXPIRE_AT, w).
Proof.
  intros Hin Hat Hnum Hdt. unfold insert_ttl, bind, truth. rewrite Hin, Hat.
  by destruct eat.
Qed.

(** A date written as a string. *)
Lemma insert_ttl_rejects_other_types_witness :
  insert_ttl (sample_env sample_ok) (VDict 1%positive) "__expires" VNone
             (VStr "2030-01-01") (world_with [])
    = (Raise BAD_EXPIRE_AT, world_with []).
Proof.
  apply (insert_ttl_rejects_other_types (sample_env sample_ok) (VDict 1%positive)
           "__expires" VNone (VStr "2030-01-01") (world_with [])); reflexivity.
Defined.

(** What [insert_ttl] does with a whole number of seconds given as
    [expire_in], once the sum is within the range of datetime. *)
Lemma insert_ttl_in_seconds (E : env) r attr n eat w :
  n <> 0 ->
  truthy (w_heap w) eat = false ->
  0 <= dt_microsecond (clock E (w_ticks w)) < 1000000 ->
  MIN_WALL <= dt_wall (clock E (w_ticks w)) <= MAX_WALL ->
  MIN_WALL <= dt_wall (clock E (w_ticks w)) + n <= MAX_WALL ->
  insert_ttl E (VDict r) attr (VInt n) eat w =
    match timestamp E (mk_datetime (dt_wall (clock E (w_ticks w)) + n) 0 None false) with
    | Raise e => (Raise e, world_tick w)
    | Ok f =>
        match py_int (VFloat f) with
        | Ok m => (Ok tt, world_set (world_tick w) r attr (VInt m))
        | Raise e => (Raise e, world_tick w)
        end
    end.
Proof.
  intros Hn Hat Hus Hnow Hthen.
  unfold insert_ttl. unfold bind at 1, truth at 1. cbv beta iota.
  unfold bind at 1, truth at 1. cbv beta iota. rewrite Hat. cbn [truthy].
  destruct (Z.eqb n 0) eqn:Hz; [apply Z.eqb_eq in Hz; contradiction|].
  cbn [negb andb]. unfold bind at 1. unfold bind at 1. unfold now at 1.
  cbv beta iota zeta. unfold bind at 1, lift at 1.
  rewrite timedelta_seconds_int by (unfold MIN_WALL, MAX_WALL in *; lia).
  unfold bind at 1, lift at 1.
  rewrite datetime_add_seconds by (cbn [dt_microsecond dt_wall]; assumption).
  cbn [dt_wall dt_microsecond dt_tz].
  unfold ret at 1. cbv beta iota. unfold bind at 1. unfold bind at 1, lift at 1.
  unfold replace_microsecond. cbn [dt_wall dt_microsecond dt_tz dt_fold].
  destruct (timestamp E _) as [f|e]; [|reflexivity].
  unfold ret at 1. cbv beta iota. unfold bind at 1, lift at 1.
  by destruct (py_int (VFloat f)).
Qed.

(** The same, where the local zone places the sum at a POSIX second. *)
Lemma insert_ttl_in_seconds_at (E : env) r attr n eat w u :
  n <> 0 ->
  truthy (w_heap w) eat = false ->
  clock_resolves E n (w_ticks w) u ->
  insert_ttl E (VDict r) attr (VInt n) eat w
    = (Ok tt, world_set (world_tick w) r attr (VInt u)).
Proof.
  intros Hn Hat (Hus & Hnow & Hthen & Hu & Hbound).
  rewrite (insert_ttl_in_seconds E r attr n eat w Hn Hat Hus Hnow Hthen).
  destruct (timestamp_whole E
              (mk_datetime (dt_wall (clock E (w_ticks w)) + n) 0 None false)
              (Qmake (u * US_PER_SECOND + 0) 1000000))
    as (f & Hf & Hint & _).
  - unfold instant. cbn [dt_tz dt_wall dt_fold dt_microsecond]. by rewrite Hu.
  - reflexivity.
  - cbn [dt_microsecond]. lia.
  - replace (Qfloor (Qmake (u * US_PER_SECOND + 0) 1000000)) with u; [exact Hbound|].
    unfold Qfloor, US_PER_SECOND. cbn [Qnum Qden].
    rewrite Z.add_0_r. by rewrite Z.div_mul.
  - replace (Qfloor (Qmake (u * US_PER_SECOND + 0) 1000000)) with u in Hint.
    + change (replace_microsecond
                (mk_datetime (dt_wall (clock E (w_ticks w)) + n) 0 None false) 0)
        with (mk_datetime (dt_wall (clock E (w_ticks w)) + n) 0 None false) in Hf.
      by rewrite Hf, Hint.
    + unfold Qfloor, US_PER_SECOND. cbn [Qnum Qden].
      rewrite Z.add_0_r. by rewrite Z.div_mul.
Qed.

(** X9. A whole number [n] of seconds given as [expire_in] reads the
    clock once, counts [n] seconds on the wall clock and takes the
    timestamp of the sum as a value without tzinfo.  Where the local zone
    places the sum at a POSIX second, that second is written; where it
    has none to give (the sum, shifted by the zone, leaves the years 1 to
    9999) the ValueError of timestamp() is raised and nothing is
    written.  In a zone of constant offset the second written is the
    wall-clock second of now plus [n], less the offset. *)
Theorem insert_ttl_expire_in_seconds (E : env) (r : loc) (attr : string)
    (n : Z) (eat : value) (w : world) :
  n <> 0 ->
  truthy (w_heap w) eat = false ->
  0 <= dt_microsecond (clock E (w_ticks w)) < 1000000 ->
  MIN_WALL <= dt_wall (clock E (w_ticks w)) <= MAX_WALL ->
  MIN_WALL <= dt_wall (clock E (w_ticks w)) + n <= MAX_WALL ->
  (forall u,
     local_to_seconds E (dt_wall (clock E (w_ticks w)) + n) false = Ok u ->
     Z.abs u < 2 ^ 53 ->
     insert_ttl E (VDict r) attr (VInt n) eat w
       = (Ok tt, world_set (world_tick w) r attr (VInt u))) /\
  (forall e,
     local_to_seconds E (dt_wall (clock E (w_ticks w)) + n) false = Raise e ->
     insert_ttl E (VDict r) attr (VInt n) eat w = (Raise e, world_tick w) /\
     (e = ValueError "year 0 is out of range" \/
      e = ValueError "year 10000 is out of range")) /\
  (forall o u,
     (forall x, local_utcoffset E x = o) ->
     local_to_seconds E (dt_wall (clock E (w_ticks w)) + n) false = Ok u ->
     u = dt_wall (clock E (w_ticks w)) + n - o).
Proof.
  intros Hn Hat Hus Hnow Hthen. split_and!.
  - intros u Hu Hbound.
    apply insert_ttl_in_seconds_at; [exact Hn | exact Hat |].
    unfold clock_resolves. split_and!; first [assumption | lia].
  - intros e He. split; [|exact (local_to_seconds_raises E _ _ _ He)].
    rewrite (insert_ttl_in_seconds E r attr n eat w Hn Hat Hus Hnow Hthen).
    unfold timestamp. cbn [dt_tz dt_wall dt_fold]. by rewrite He.
  - intros o u Hfixed Hu. exact (local_to_seconds_fixed_inv E o _ u false Hfixed Hu).
Qed.

(** Ten seconds from a quarter past the second 1700000000 on the wall
    clock, one hour east of Greenwich. *)
Lemma insert_ttl_expire_in_seconds_witness :
  (forall u,
     local_to_seconds (sample_env sample_ok)
       (dt_wall (clock (sample_env sample_ok) (w_ticks (world_with []))) + 10) false = Ok u ->
     Z.abs u < 2 ^ 53 ->
     insert_ttl (sample_env sample_ok) (VDict 1%positive) "__expires" (VInt 10) VNone
                (world_with [])
       = (Ok tt, world_set (world_tick (world_with [])) 1%positive "__expires" (VInt u))) /\
  (forall e,
     local_to_seconds (sample_env sample_ok)
       (dt_wall (clock (sample_env sample_ok) (w_ticks (world_with []))) + 10) false
       = Raise e ->
     insert_ttl (sample_env sample_ok) (VDict 1%positive) "__expires" (VInt 10) VNone
                (world_with []) = (Raise e, world_tick (world_with [])) /\
     (e = ValueError "year 0 is out of range" \/
      e = ValueError "year 10000 is out of range")) /\
  (forall o u,
     (forall x, local_utcoffset (sample_env sample_ok) x = o) ->
     local_to_seconds (sample_env sample_ok)
       (dt_wall (clock (sample_env sample_ok) (w_ticks (world_with []))) + 10) false = Ok u ->
     u = dt_wall (clock (sample_env sample_ok) (w_ticks (world_with []))) + 10 - o).
Proof.
  apply (insert_ttl_expire_in_seconds (sample_env sample_ok) 1%positive "__expires" 10
           VNone (world_with [])).
  - lia.
  - reflexivity.
  - simpl. lia.
  - simpl. unfold MIN_WALL, MAX_WALL. lia.
  - simpl. unfold MIN_WALL, MAX_WALL. lia.
Defined.

(** The same call writes 1699996410, and half an hour before the end of
    the year 9999 it raises: the zone is an hour ahead. *)
Example insert_ttl_expire_in_examples :
  insert_ttl (sample_env sample_ok) (VDict 1%positive) "__expires" (VInt 10) VNone
             (world_with [])
    = (Ok tt, world_set (world_tick (world_with [])) 1%positive "__expires"
                (VInt 1699996410)) /\
  insert_ttl (sample_env sample_ok) (VDict 1%positive) "__expires" (VInt 251702298999)
             VNone (world_with [])
    = (Raise (ValueError "year 10000 is out of range"), world_tick (world_with [])).
Proof.
  split.
  - rewrite insert_ttl_in_seconds;
      [|lia|reflexivity|simpl; lia|simpl; unfold MIN_WALL, MAX_WALL; lia
       |simpl; unfold MIN_WALL, MAX_WALL; lia].
    vm_compute. reflexivity.
  - rewrite insert_ttl_in_seconds;
      [|lia|reflexivity|simpl; lia|simpl; unfold MIN_WALL, MAX_WALL; lia
       |simpl; unfold MIN_WALL, MAX_WALL; lia].
    vm_compute. reflexivity.
Qed.

(** X10. A finite float given as [expire_at] is cut towards zero: the
    integer written is the floor of a positive time and the ceiling of a
    negative one.  An infinity raises OverflowError and a nan ValueError,
    with nothing written. *)
Theorem insert_ttl_float_truncates (E : env) (r : loc) (attr : string)
    (ein : value) (q : Q) (w : world) :
  truthy (w_heap w) ein = false ->
  Qnum q <> 0 ->
  insert_ttl E (VDict r) attr ein (VFloat (FFinite q)) w
    = (Ok tt, world_set w r attr (VInt (Z.quot (Qnum q) (Zpos (Qden q))))) /\
  ((0 <= q)%Q -> Z.quot (Qnum q) (Zpos (Qden q)) = Qfloor q) /\
  ((q <= 0)%Q -> Z.quot (Qnum q) (Zpos (Qden q)) = Qceiling q) /\
  (forall b, insert_ttl E (VDict r) attr ein (VFloat (FInf b)) w = (Raise OverflowError, w)) /\
  fst (insert_ttl E (VDict r) attr ein (VFloat FNaN) w)
    = Raise (ValueError "cannot convert float NaN to integer") /\
  snd (insert_ttl E (VDict r) attr ein (VFloat FNaN) w) = w.
Proof.
  intros Hin Hq. split_and!.
  - unfold insert_ttl, bind, truth. rewrite Hin. cbn [truthy float_truthy].
    destruct (Z.eqb (Qnum q) 0) eqn:Hz; [apply Z.eqb_eq in Hz; contradiction|].
    reflexivity.
  - unfold Qle, Qfloor. destruct q as [a b]. cbn [Qnum Qden]. intros Hpos.
    apply Z.quot_div_nonneg; lia.
  - unfold Qle, Qceiling, Qfloor, Qopp. destruct q as [a b]. cbn [Qnum Qden].
    intros Hneg.
    rewrite <- (Z.opp_involutive a) at 1. rewrite Z.quot_opp_l by lia.
    f_equal. apply Z.quot_div_nonneg; lia.
  - intros b. unfold insert_ttl, bind, truth. by rewrite Hin.
  - unfold insert_ttl, bind, truth. by rewrite Hin.
  - unfold insert_ttl, bind, truth. by rewrite Hin.
Qed.

(** Half a second before the epoch, as a float: 0 is written. *)
Lemma insert_ttl_float_truncates_witness :
  insert_ttl (sample_env sample_ok) (VDict 1%positive) "__expires" VNone
             (VFloat (FFinite (Qmake (-1) 2))) (world_with [])
    = (Ok tt, world_set (world_with []) 1%positive "__expires"
                (VInt (Z.quot (Qnum (Qmake (-1) 2)) (Zpos (Qden (Qmake (-1) 2)))))) /\
  ((0 <= Qmake (-1) 2)%Q ->
   Z.quot (Qnum (Qmake (-1) 2)) (Zpos (Qden (Qmake (-1) 2))) = Qfloor (Qmake (-1) 2)) /\
  ((Qmake (-1) 2 <= 0)%Q ->
   Z.quot (Qnum (Qmake (-1) 2)) (Zpos (Qden (Qmake (-1) 2))) = Qceiling (Qmake (-1) 2)) /\
  (forall b, insert_ttl (sample_env sample_ok) (VDict 1%positive) "__expires" VNone
                        (VFloat (FInf b)) (world_with [])
             = (Raise OverflowError, world_with [])) /\
  fst (insert_ttl (sample_env sample_ok) (VDict 1%positive) "__expires" VNone
                  (VFloat FNaN) (world_with []))
    = Raise (ValueError "cannot convert float NaN to integer") /\
  snd (insert_ttl (sample_env sample_ok) (VDict 1%positive) "__expires" VNone
                  (VFloat FNaN) (world_with [])) = world_with [].
Proof.
  apply (insert_ttl_float_truncates (sample_env sample_ok) 1%positive "__expires" VNone
           (Qmake (-1) 2) (world_with [])).
  - reflexivity.
  - simpl. lia.
Defined.

(** X11. An [expire_in] that leads out of the range of datetime (before
    the year 1 or after the year 9999) raises OverflowError, from the
    timedelta or from the sum: the clock has been read, nothing is
    written and no request is issued. *)
Theorem insert_ttl_expire_in_out_of_range (E : env) (r : loc) (attr : string)
    (n : Z) (eat : value) (w : world) :
  n <> 0 ->
  truthy (w_heap w) eat = false ->
  0 <= dt_microsecond (clock E (w_ticks w)) < 1000000 ->
  dt_wall (clock E (w_ticks w)) + n < MIN_WALL \/
  MAX_WALL < dt_wall (clock E (w_ticks w)) + n ->
  insert_ttl E (VDict r) attr (VInt n) eat w = (Raise OverflowError, world_tick w).
Proof.
  intros Hn Hat Hus Hout.
  unfold insert_ttl, bind, truth. rewrite Hat. cbn [truthy].
  destruct (Z.eqb n 0) eqn:Hz; [apply Z.eqb_eq in Hz; contradiction|].
  cbn [negb andb]. unfold now, lift.
  unfold timedelta_seconds, timedelta_in_range.
  destruct (Z.abs _ <=? 999999999); [|reflexivity].
  unfold datetime_add, US_PER_SECOND. cbn [dt_wall dt_microsecond dt_tz dt_fold].
  rewrite Z.div_add by lia. rewrite Z.div_small by lia. rewrite Z.add_0_l.
  destruct (MIN_WALL <=? dt_wall (clock E (w_ticks w)) + n) eqn:H1;
    [|reflexivity].
  destruct (dt_wall (clock E (w_ticks w)) + n <=? MAX_WALL) eqn:H2;
    [|reflexivity].
  apply Z.leb_le in H1, H2. lia.
Qed.

(** Ten thousand years from now. *)
Lemma insert_ttl_expire_in_out_of_range_witness :
  insert_ttl (sample_env sample_ok) (VDict 1%positive) "__expires" (VInt 315576000000)
             VNone (world_with [])
    = (Raise OverflowError, world_tick (world_with [])).
Proof.
  apply (insert_ttl_expire_in_out_of_range (sample_env sample_ok) 1%positive "__expires"
           315576000000 VNone (world_with [])).
  - lia.
  - reflexivity.
  - simpl. lia.
  - right. simpl. unfold MAX_WALL. lia.
Defined.

(** ** put_many: what it sends and what it leaves alone *)

Lemma ttl_only_subseteq attr (h h' : gmap loc dict) : h ⊆ h' -> ttl_only attr h h'.
Proof.
  intros Hsub r d Hr. exists d. split; [|done].
  by apply (lookup_weaken _ _ _ _ Hr Hsub).
Qed.

Lemma ttl_only_trans attr (h1 h2 h3 : gmap loc dict) :
  ttl_only attr h1 h2 -> ttl_only attr h2 h3 -> ttl_only attr h1 h3.
Proof.
  intros H12 H23 r d Hr.
  destruct (H12 r d Hr) as (d2 & Hr2 & Hk2).
  destruct (H23 r d2 Hr2) as (d3 & Hr3 & Hk3).
  exists d3. split; [done|]. intros k Hk. by rewrite Hk3, Hk2.
Qed.

Lemma insert_ttl_ttl_only (E : env) x attr ein eat w res w' :
  insert_ttl E (VDict x) attr ein eat w = (res, w') ->
  w_sent w' = w_sent w /\
  ttl_only attr (w_heap w) (w_heap w') /\
  (forall r, r <> x -> w_heap w' !! r = w_heap w !! r).
Proof.
  intros Hrun.
  apply insert_ttl_effect in Hrun as [Hsent [[Hheap _]|[_ [n Hheap]]]];
    (split; [exact Hsent|]); rewrite Hheap.
  - split; [by apply ttl_only_subseteq | done].
  - split.
    + intros r d Hr. destruct (decide (r = x)) as [->|Hne].
      * eexists. rewrite lookup_insert_eq. split; [reflexivity|].
        intros k Hk. unfold heap_dict. rewrite Hr. by apply dict_get_set_ne.
      * exists d. by rewrite lookup_insert_ne.
    + intros r Hne. by rewrite lookup_insert_ne.
Qed.

Lemma put_many_loop_effect (E : env) (self : _Base) (ein eat : value) items :
  forall acc w res w',
  put_many_loop E self items acc ein eat w = (res, w') ->
  w_sent w' = w_sent w /\
  ttl_only (_ttl_attribute self) (w_heap w) (w_heap w') /\
  (forall r d, w_heap w !! r = Some d -> ~ In (VDict r) items -> w_heap w' !! r = Some d).
Proof.
  induction items as [|item rest IH]; intros acc w res w' Hrun.
  - cbn in Hrun. injection Hrun as <- <-.
    split_and!; [done | by apply ttl_only_subseteq | done].
  - cbn [put_many_loop] in Hrun.
    destruct (put_many_data item w) as (x & w1 & Hdata & Hcase).
    rewrite (bind_ok _ _ w w1 (VDict x) Hdata) in Hrun.
    assert (H1 : w_sent w1 = w_sent w /\ w_heap w ⊆ w_heap w1 /\
                 (forall r d, w_heap w !! r = Some d -> ~ In (VDict r) (item :: rest) ->
                              r <> x)).
    { destruct Hcase as [[-> ->]|(_ & -> & ->)].
      - split_and!; [done | done |]. intros r d _ Hnot ->. apply Hnot. by left.
      - split_and!; [done | apply insert_subseteq, fresh_loc_unused |].
        intros r d Hr _ ->. by rewrite fresh_loc_unused in Hr. }
    destruct H1 as (Hsent1 & Hsub1 & Hother).
    destruct (insert_ttl E (VDict x) (_ttl_attribute self) ein eat w1)
      as [[[]|e] w2] eqn:Httl;
      destruct (insert_ttl_ttl_only E x _ ein eat w1 _ w2 Httl) as (Hsent2 & Honly2 & Hrest2).
    + rewrite (bind_ok _ _ w1 w2 tt Httl) in Hrun.
      destruct (IH _ _ _ _ Hrun) as (Hsent3 & Honly3 & Hrest3).
      split_and!.
      * congruence.
      * eapply ttl_only_trans; [by apply ttl_only_subseteq|].
        eapply ttl_only_trans; [exact Honly2 | exact Honly3].
      * intros r d Hr Hnot. apply Hrest3.
        -- rewrite Hrest2 by (by eapply Hother).
           by apply (lookup_weaken _ _ _ _ Hr Hsub1).
        -- intros Hin. apply Hnot. by right.
    + rewrite (bind_raise _ _ w1 w2 e Httl) in Hrun. injection Hrun as <- <-.
      split_and!.
      * congruence.
      * eapply ttl_only_trans; [by apply ttl_only_subseteq | exact Honly2].
      * intros r d Hr Hnot. rewrite Hrest2 by (by eapply Hother).
        by apply (lookup_weaken _ _ _ _ Hr Hsub1).
Qed.

(** The request of [put_many] adds to the store and takes nothing away. *)
Lemma put_many_send_frame (E : env) (l : list value) (w1 : world) :
  w_heap w1 ⊆
    w_heap (snd ((body <- new_dict [("items", VList l)] ;;
                  cr <- _request E "/items" "PUT" (Some (VDict body)) (Some (JSON_MIME E)) ;;
                  ret (snd cr)) w1)).
Proof.
  cbn [bind new_dict w_heap w_sent w_ticks].
  unfold _request at 1, bind at 1. cbn [w_heap w_sent w_ticks].
  destruct (rp_result _) as [[code res]|e]; cbn [snd w_heap];
    (etransitivity; [|apply map_union_subseteq_l]);
    apply insert_subseteq, fresh_loc_unused.
Qed.

(** X12. Whatever [put_many] is given and however it ends, the objects
    the store held before the call differ afterwards at most under the TTL
    attribute, and an object that is not one of the items does not differ
    at all. *)
Theorem put_many_alters_only_ttl (E : env) (self : _Base) (items : list value)
    (ein eat : value) (w : world) :
  ttl_only (_ttl_attribute self) (w_heap w)
           (w_heap (snd (put_many E self items ein eat w))) /\
  (forall r d, w_heap w !! r = Some d -> ~ In (VDict r) items ->
     w_heap (snd (put_many E self items ein eat w)) !! r = Some d).
Proof.
  unfold put_many.
  destruct (25 <? Z.of_nat (length items)).
  { split; [by apply ttl_only_subseteq | done]. }
  destruct (put_many_loop E self items [] ein eat w) as [[l|e] w1] eqn:Hloop;
    destruct (put_many_loop_effect E self ein eat items [] w _ w1 Hloop)
      as (_ & Honly & Hrest).
  - rewrite (bind_ok _ _ w w1 l Hloop).
    pose proof (put_many_send_frame E l w1) as Hsub.
    split.
    + eapply ttl_only_trans; [exact Honly | by apply ttl_only_subseteq].
    + intros r d Hr Hnot.
      exact (lookup_weaken _ _ _ _ (Hrest r d Hr Hnot) Hsub).
  - rewrite (bind_raise _ _ w w1 e Hloop). cbn [snd]. done.
Qed.

Lemma sent_as_weaken (h0 h h' h'' : gmap loc dict) item x :
  h0 ⊆ h -> h' ⊆ h'' -> sent_as h h' item x -> sent_as h0 h'' item x.
Proof.
  intros H0 H1. unfold sent_as.
  destruct item; try done;
    intros (c & -> & Hc & Hc'); exists c;
    (split_and!; [done | by eapply lookup_weaken_None | by eapply lookup_weaken]).
Qed.

Section PutManyPlain.

Variables (E : env) (self : _Base) (ein eat : value).
Hypothesis Hein : is_dict ein = false.
Hypothesis Heat : is_dict eat = false.
Variable h0 : gmap loc dict.
Hypothesis Hnone_in : truthy h0 ein = false.
Hypothesis Hnone_at : truthy h0 eat = false.

Lemma insert_ttl_absent item w :
  insert_ttl E item (_ttl_attribute self) ein eat w = (Ok tt, w).
Proof.
  apply insert_ttl_neither.
  - by rewrite (truthy_not_dict (w_heap w) h0 ein Hein).
  - by rewrite (truthy_not_dict (w_heap w) h0 eat Heat).
Qed.

(** Without an expiration the loop lists every item, in order, and
    writes to no object that was there. *)
Lemma put_many_loop_plain items : forall acc w,
  exists l w',
    put_many_loop E self items acc ein eat w = (Ok (acc ++ l)%list, w') /\
    w_sent w' = w_sent w /\ w_heap w ⊆ w_heap w' /\
    Forall2 (sent_as (w_heap w) (w_heap w')) items l.
Proof.
  induction items as [|item rest IH]; intros acc w.
  - exists [], w. cbn. rewrite app_nil_r. by split_and!.
  - cbn [put_many_loop].
    destruct (put_many_data item w) as (x & w1 & Hdata & Hcase).
    rewrite (bind_ok _ _ w w1 (VDict x) Hdata).
    rewrite (bind_ok _ _ w1 w1 tt (insert_ttl_absent (VDict x) w1)).
    destruct (IH (acc ++ [VDict x])%list w1) as (l & w' & Hrun & Hsent & Hsub & Hall).
    exists (VDict x :: l), w'. rewrite Hrun, <- app_assoc. cbn [app].
    destruct Hcase as [[-> ->]|(Hd & -> & ->)].
    + split_and!; try done. constructor; [reflexivity | exact Hall].
    + assert (Hsub1 : w_heap w ⊆ w_heap (world_alloc w [("value", item)])).
      { apply insert_subseteq, fresh_loc_unused. }
      split_and!; [done | done | by etransitivity |].
      constructor.
      * assert (Hc : w_heap w' !! fresh (dom (w_heap w)) = Some [("value", item)]).
        { apply (lookup_weaken _ _ _ _ (lookup_insert_eq _ _ _) Hsub). }
        pose proof (fresh_loc_unused (w_heap w)) as Hfresh.
        destruct item; try discriminate Hd; eexists; by split_and!.
      * eapply Forall2_impl; [exact Hall|].
        intros a b. by apply sent_as_weaken.
Qed.

End PutManyPlain.

(** X13. Without an expiration, [put_many] of at most 25 items issues
    one PUT request whose body lists the items in order, a dictionary as
    the very object it was given and anything else wrapped in a new
    dictionary under [value]; it writes to no object of the caller and
    returns the body of the answer whatever its status. *)
Theorem put_many_request (E : env) (self : _Base) (items : list value)
    (ein eat : value) (w : world) :
  (length items <= 25)%nat ->
  truthy (w_heap w) ein = false -> truthy (w_heap w) eat = false ->
  is_dict ein = false -> is_dict eat = false ->
  exists b l,
    w_sent (snd (put_many E self items ein eat w)) = (w_sent w ++ [put_request E b])%list /\
    w_heap w !! b = None /\
    w_heap (snd (put_many E self items ein eat w)) !! b = Some [("items", VList l)] /\
    Forall2 (sent_as (w_heap w) (w_heap (snd (put_many E self items ein eat w)))) items l /\
    w_heap w ⊆ w_heap (snd (put_many E self items ein eat w)) /\
    (forall code res,
       (forall sent rq h, rp_result (transport E sent rq h) = Ok (code, res)) ->
       fst (put_many E self items ein eat w) = Ok res).
Proof.
  intros Hlen Hin Hat Hein Heat.
  destruct (put_many_loop_plain E self ein eat Hein Heat (w_heap w) Hin Hat items [] w)
    as (l & w1 & Hloop & Hsent & Hsub & Hall).
  cbn [app] in Hloop.
  pose proof (fresh_loc_unused (w_heap w1)) as Hfresh.
  pose (b := fresh (dom (w_heap w1))).
  pose (h1 := <[b := [("items", VList l)]]> (w_heap w1)).
  pose (rp := transport E (w_sent w1) (put_request E b) h1).
  assert (Hrun : put_many E self items ein eat w =
            (match rp_result rp with
             | Ok cr => Ok (snd cr)
             | Raise e => Raise e
             end,
             mk_world (h1 ∪ rp_objects rp) (w_sent w1 ++ [put_request E b])%list (w_ticks w1))).
  { unfold put_many.
    destruct (25 <? Z.of_nat (length items)) eqn:Hlt; [apply Z.ltb_lt in Hlt; lia|].
    rewrite (bind_ok _ _ w w1 l Hloop).
    cbn [bind new_dict w_heap w_sent w_ticks].
    unfold _request at 1, bind at 1. cbn [w_heap w_sent w_ticks].
    subst rp h1 b. unfold put_request.
    by destruct (rp_result _) as [[code res]|e]. }
  rewrite Hrun. cbn [fst snd w_heap w_sent].
  assert (Hsub1 : w_heap w1 ⊆ h1 ∪ rp_objects rp).
  { etransitivity; [|apply map_union_subseteq_l]. by apply insert_subseteq. }
  exists b, l. split_and!.
  - by rewrite Hsent.
  - by eapply lookup_weaken_None.
  - apply lookup_union_Some_l. apply lookup_insert_eq.
  - eapply Forall2_impl; [exact Hall|]. intros x y.
    by apply sent_as_weaken.
  - by etransitivity.
  - intros code res Hreply. subst rp. by rewrite Hreply.
Qed.

(** A dictionary of the caller and a number, put together. *)
Lemma put_many_request_witness :
  exists b l,
    w_sent (snd (put_many (sample_env sample_ok) sample_base [VDict 1%positive; VInt 3]
                          VNone VNone (world_with [("name", VStr "a")])))
      = (w_sent (world_with [("name", VStr "a")]) ++
         [put_request (sample_env sample_ok) b])%list /\
    w_heap (world_with [("name", VStr "a")]) !! b = None /\
    w_heap (snd (put_many (sample_env sample_ok) sample_base [VDict 1%positive; VInt 3]
                          VNone VNone (world_with [("name", VStr "a")]))) !! b
      = Some [("items", VList l)] /\
    Forall2 (sent_as (w_heap (world_with [("name", VStr "a")]))
                     (w_heap (snd (put_many (sample_env sample_ok) sample_base
                                            [VDict 1%positive; VInt 3] VNone VNone
                                            (world_with [("name", VStr "a")])))))
            [VDict 1%positive; VInt 3] l /\
    w_heap (world_with [("name", VStr "a")]) ⊆
      w_heap (snd (put_many (sample_env sample_ok) sample_base [VDict 1%positive; VInt 3]
                            VNone VNone (world_with [("name", VStr "a")]))) /\
    (forall code res,
       (forall sent rq h,
          rp_result (transport (sample_env sample_ok) sent rq h) = Ok (code, res)) ->
       fst (put_many (sample_env sample_ok) sample_base [VDict 1%positive; VInt 3]
                     VNone VNone (world_with [("name", VStr "a")])) = Ok res).
Proof.
  apply (put_many_request (sample_env sample_ok) sample_base [VDict 1%positive; VInt 3]
           VNone VNone (world_with [("name", VStr "a")])).
  - simpl. lia.
  - reflexivity.
  - reflexivity.
  - reflexivity.
  - reflexivity.
Defined.

(** X14. An empty batch is sent like any other: [put_many] of no item
    issues its request with an empty list and never looks at the
    expirations, so that an error can only be one of the collaborator. *)
Theorem put_many_empty_batch (E : env) (self : _Base) (ein eat : value) (w : world) :
  w_sent (snd (put_many E self [] ein eat w))
    = (w_sent w ++ [put_request E (fresh (dom (w_heap w)))])%list /\
  w_heap (snd (put_many E self [] ein eat w)) !! fresh (dom (w_heap w))
    = Some [("items", VList [])] /\
  (forall e, fst (put_many E self [] ein eat w) = Raise e ->
     rp_result (transport E (w_sent w) (put_request E (fresh (dom (w_heap w))))
                  (<[fresh (dom (w_heap w)) := [("items", VList [])]]> (w_heap w)))
       = Raise e).
Proof.
  pose (b := fresh (dom (w_heap w))).
  pose (h1 := <[b := [("items", VList [])]]> (w_heap w)).
  pose (rp := transport E (w_sent w) (put_request E b) h1).
  assert (Hrun : put_many E self [] ein eat w =
            (match rp_result rp with
             | Ok cr => Ok (snd cr)
             | Raise e => Raise e
             end,
             mk_world (h1 ∪ rp_objects rp) (w_sent w ++ [put_request E b])%list (w_ticks w))).
  { unfold put_many. change (25 <? Z.of_nat (length (@nil value))) with false.
    cbn [put_many_loop].
    rewrite bind_ret. cbn [bind new_dict w_heap w_sent w_ticks].
    unfold _request at 1, bind at 1. cbn [w_heap w_sent w_ticks].
    subst rp h1 b. unfold put_request.
    by destruct (rp_result _) as [[code res]|e]. }
  rewrite Hrun. cbn [fst snd w_heap w_sent]. fold b. fold h1. fold rp.
  split_and!; [done | apply lookup_union_Some_l, lookup_insert_eq |].
  intros e.
  change (match rp_result rp with
          | Ok cr => @Ok value (snd cr)
          | Raise e0 => Raise e0
          end = Raise e -> rp_result rp = Raise e).
  destruct (rp_result rp) as [cr|e']; [discriminate | by intros [= ->]].
Qed.

(** ** fetch: the answer; get and delete *)

Lemma read_response_world (res : value) (w : world) : snd (read_response res w) = w.
Proof. apply method_get_chain_world. Qed.

(** [fetch] builds its payload in a new object, sends it and reads the
    body of the answer in the world the answer left. *)
Lemma fetch_run (E : env) (self : _Base) (query limit cursor : value) (w : world) :
  exists d,
    let p := fresh (dom (w_heap w)) in
    let h1 := <[p := d]> (w_heap w) in
    let rp := transport E (w_sent w) (fetch_request E p) h1 in
    let w3 := mk_world (h1 ∪ rp_objects rp) (w_sent w ++ [fetch_request E p])%list
                       (w_ticks w) in
    fetch E self query limit cursor w =
      match rp_result rp with
      | Ok cr => (fst (read_response (snd cr) w3), w3)
      | Raise e => (Raise e, w3)
      end.
Proof.
  unfold fetch. cbn [bind new_dict w_heap w_sent w_ticks truth].
  match goal with
  | |- context [truthy ?h query] => destruct (truthy h query)
  end.
  - cbn [bind setitem w_heap w_sent w_ticks]. rewrite heap_dict_insert_eq.
    rewrite insert_insert_eq.
    exists (dict_set "query" (if is_sequence query then query else VList [query])
              [("limit", limit); ("last", if negb (is_bool cursor) then cursor else VNone)]).
    cbv zeta.
    unfold _request at 1, bind at 1, fetch_request. cbn [w_heap w_sent w_ticks].
    destruct (rp_result _) as [[c res]|e]; [|reflexivity].
    cbn [snd].
    match goal with
    | |- ?m ?x = _ => pose proof (read_response_world res x) as Hro;
                      change (read_response res x = (fst (read_response res x), x));
                      destruct (read_response res x) as [f wx]
    end.
    cbn [fst snd] in *. by subst wx.
  - cbn [bind ret].
    exists [("limit", limit); ("last", if negb (is_bool cursor) then cursor else VNone)].
    cbv zeta.
    unfold _request at 1, bind at 1, fetch_request. cbn [w_heap w_sent w_ticks].
    destruct (rp_result _) as [[c res]|e]; [|reflexivity].
    cbn [snd].
    match goal with
    | |- ?m ?x = _ => pose proof (read_response_world res x) as Hro;
                      change (read_response res x = (fst (read_response res x), x));
                      destruct (read_response res x) as [f wx]
    end.
    cbn [fst snd] in *. by subst wx.
Qed.

(** With a collaborator that answers [(code, res)], the outcome of
    [fetch] is that of reading [res] in the world [fetch] ends in. *)
Lemma fetch_reply (E : env) (self : _Base) (query limit cursor : value) (w : world)
    (code : Z) (res : value) :
  (forall sent rq h, rp_result (transport E sent rq h) = Ok (code, res)) ->
  fst (fetch E self query limit cursor w)
    = fst (read_response res (snd (fetch E self query limit cursor w))) /\
  w_sent (snd (fetch E self query limit cursor w))
    = (w_sent w ++ [fetch_request E (fresh (dom (w_heap w)))])%list.
Proof.
  intros Hreply. destruct (fetch_run E self query limit cursor w) as [d Hrun].
  cbv zeta in Hrun. rewrite Hreply in Hrun. rewrite Hrun. done.
Qed.

Lemma fetch_frame (E : env) (self : _Base) (query limit cursor : value) (w : world) :
  w_heap w ⊆ w_heap (snd (fetch E self query limit cursor w)).
Proof.
  destruct (fetch_run E self query limit cursor w) as [d Hrun].
  cbv zeta in Hrun. rewrite Hrun.
  destruct (rp_result _) as [cr|e]; cbn [snd w_heap];
    (etransitivity; [|apply map_union_subseteq_l]);
    apply insert_subseteq, fresh_loc_unused.
Qed.

(** X15. When the body of the answer is a mapping with a mapping under
    [paging], [fetch] returns a FetchResponse whose count and last are
    what [paging] holds under [size] and [last] (None where it holds
    nothing) and whose items are what the body holds under [items], or the
    empty list when that is missing or None; the status of the answer
    plays no part. *)
Theorem fetch_reads_response (E : env) (self : _Base) (query limit cursor : value)
    (w : world) (code : Z) (rr rp : loc) :
  (forall sent rq h, rp_result (transport E sent rq h) = Ok (code, VDict rr)) ->
  dict_get "paging" (heap_dict (w_heap (snd (fetch E self query limit cursor w))) rr)
    = Some (VDict rp) ->
  exists f,
    fst (fetch E self query limit cursor w) = Ok f /\
    count f = default VNone
                (dict_get "size"
                   (heap_dict (w_heap (snd (fetch E self query limit cursor w))) rp)) /\
    last f = default VNone
               (dict_get "last"
                  (heap_dict (w_heap (snd (fetch E self query limit cursor w))) rp)) /\
    items f = match dict_get "items"
                      (heap_dict (w_heap (snd (fetch E self query limit cursor w))) rr) with
              | None | Some VNone => VList []
              | Some v => v
              end.
Proof.
  intros Hreply Hpaging.
  destruct (fetch_reply E self query limit cursor w code (VDict rr) Hreply) as [Hfst _].
  rewrite Hfst.
  unfold read_response, bind, method_get. rewrite Hpaging.
  cbn [default from_option id ret fst].
  eexists. split; [reflexivity|]. cbn [count last items FetchResponse_init].
  split_and!; try reflexivity.
  destruct (dict_get "items" _) as [v|]; [|reflexivity]. by destruct v.
Qed.

(** An answer with two items and a cursor. *)
Lemma fetch_reads_response_witness :
  exists f,
    fst (fetch (sample_env page_reply) sample_base VNone (VInt 1000) VNone empty_world)
      = Ok f /\
    count f = default VNone
                (dict_get "size"
                   (heap_dict
                      (w_heap (snd (fetch (sample_env page_reply) sample_base VNone
                                          (VInt 1000) VNone empty_world)))
                      101%positive)) /\
    last f = default VNone
               (dict_get "last"
                  (heap_dict
                     (w_heap (snd (fetch (sample_env page_reply) sample_base VNone
                                         (VInt 1000) VNone empty_world)))
                     101%positive)) /\
    items f = match dict_get "items"
                      (heap_dict
                         (w_heap (snd (fetch (sample_env page_reply) sample_base VNone
                                             (VInt 1000) VNone empty_world)))
                         100%positive) with
              | None | Some VNone => VList []
              | Some v => v
              end.
Proof.
  apply (fetch_reads_response (sample_env page_reply) sample_base VNone (VInt 1000) VNone
           empty_world 200 100%positive 101%positive).
  - intros sent rq h. reflexivity.
  - vm_compute. reflexivity.
Defined.

(** X16. When the body of the answer is no mapping (None, say), or a
    mapping that holds no mapping under [paging], [fetch] has issued its
    request and raises AttributeError where it reads the answer. *)
Theorem fetch_without_paging (E : env) (self : _Base) (query limit cursor : value)
    (w : world) (code : Z) (res : value) :
  (forall sent rq h, rp_result (transport E sent rq h) = Ok (code, res)) ->
  (is_dict res = false \/
   exists rr, res = VDict rr /\
     is_dict (default VNone
                (dict_get "paging"
                   (heap_dict (w_heap (snd (fetch E self query limit cursor w))) rr)))
       = false) ->
  fst (fetch E self query limit cursor w) = Raise (AttributeError "get") /\
  w_sent (snd (fetch E self query limit cursor w))
    = (w_sent w ++ [fetch_request E (fresh (dom (w_heap w)))])%list.
Proof.
  intros Hreply Hres.
  destruct (fetch_reply E self query limit cursor w code res Hreply) as [Hfst Hsent].
  split; [|exact Hsent]. rewrite Hfst.
  destruct Hres as [Hd|(rr & -> & Hp)].
  - unfold read_response, bind, method_get. by destruct res.
  - unfold read_response, bind, method_get.
    destruct (default VNone (dict_get "paging" _)); try reflexivity. discriminate Hp.
Qed.

(** An answer without a body. *)
Lemma fetch_without_paging_witness :
  fst (fetch (sample_env sample_ok) sample_base VNone (VInt 1000) VNone empty_world)
    = Raise (AttributeError "get") /\
  w_sent (snd (fetch (sample_env sample_ok) sample_base VNone (VInt 1000) VNone empty_world))
    = (w_sent empty_world ++
       [fetch_request (sample_env sample_ok) (fresh (dom (w_heap empty_world)))])%list.
Proof.
  apply (fetch_without_paging (sample_env sample_ok) sample_base VNone (VInt 1000) VNone
           empty_world 200 VNone).
  - intros sent rq h. reflexivity.
  - left. reflexivity.
Defined.

(** ** get and delete *)

Lemma get_run (E : env) (self : _Base) (key : option string) (w : world) :
  key_truthy key = true ->
  has_surrogate (key_str key) = false ->
  get E self key w =
    (match rp_result (transport E (w_sent w) (item_request "GET" key) (w_heap w)) with
     | Ok cr => Ok (snd cr)
     | Raise e => Raise e
     end,
     mk_world (w_heap w ∪ rp_objects (transport E (w_sent w) (item_request "GET" key) (w_heap w)))
              (w_sent w ++ [item_request "GET" key])%list (w_ticks w)).
Proof.
  intros Hkey Henc. unfold get. rewrite Hkey. cbn [negb].
  unfold bind at 1, lift at 1, quote_str at 1. rewrite Henc.
  unfold _request, bind, item_request. by destruct (rp_result _).
Qed.

Lemma delete_run (E : env) (self : _Base) (key : option string) (w : world) :
  key_truthy key = true ->
  has_surrogate (key_str key) = false ->
  delete E self key w =
    (match rp_result (transport E (w_sent w) (item_request "DELETE" key) (w_heap w)) with
     | Ok cr => Ok VNone
     | Raise e => Raise e
     end,
     mk_world (w_heap w ∪ rp_objects (transport E (w_sent w) (item_request "DELETE" key) (w_heap w)))
              (w_sent w ++ [item_request "DELETE" key])%list (w_ticks w)).
Proof.
  intros Hkey Henc. unfold delete. rewrite Hkey. cbn [negb].
  unfold bind at 1, lift at 1, quote_str at 1. rewrite Henc.
  unfold _request, bind, item_request. by destruct (rp_result _).
Qed.

(** A key with a lone surrogate cannot be encoded: [quote] raises and no
    request is issued. *)
Lemma get_delete_unencodable (E : env) (self : _Base) (key : option string) (w : world) :
  key_truthy key = true ->
  has_surrogate (key_str key) = true ->
  get E self key w = (Raise UnicodeEncodeError, w) /\
  delete E self key w = (Raise UnicodeEncodeError, w).
Proof.
  intros Hkey Henc. unfold get, delete. rewrite Hkey. cbn [negb].
  unfold bind at 1, lift at 1, quote_str at 1. rewrite Henc.
  unfold bind at 1, lift at 1, quote_str at 1. by rewrite Henc.
Qed.

(** X17. With a key that is not empty and can be encoded (a str without
    a lone surrogate), [get] and [delete] each issue one request without
    a body, at the path of the quoted key, in which no slash of the key
    survives; [get] returns the body of the answer and [delete] returns
    None, whatever the status; an error of the collaborator is passed
    on.  With a key that cannot be encoded, both raise
    UnicodeEncodeError and issue no request. *)
Theorem get_delete_request (E : env) (self : _Base) (key : option string) (w : world) :
  key_truthy key = true ->
  (has_surrogate (key_str key) = false ->
   w_sent (snd (get E self key w)) = (w_sent w ++ [item_request "GET" key])%list /\
   w_sent (snd (delete E self key w)) = (w_sent w ++ [item_request "DELETE" key])%list /\
   (forall method,
      rq_path (item_request method key) = "/items/" ++ quote (key_str key) /\
      rq_body (item_request method key) = None /\
      existsb (Ascii.eqb "/") (list_ascii_of_string (quote (key_str key))) = false) /\
   (forall code res,
      rp_result (transport E (w_sent w) (item_request "GET" key) (w_heap w)) = Ok (code, res) ->
      fst (get E self key w) = Ok res) /\
   (forall code res,
      rp_result (transport E (w_sent w) (item_request "DELETE" key) (w_heap w))
        = Ok (code, res) ->
      fst (delete E self key w) = Ok VNone) /\
   (forall e,
      (rp_result (transport E (w_sent w) (item_request "GET" key) (w_heap w)) = Raise e ->
       fst (get E self key w) = Raise e) /\
      (rp_result (transport E (w_sent w) (item_request "DELETE" key) (w_heap w)) = Raise e ->
       fst (delete E self key w) = Raise e))) /\
  (has_surrogate (key_str key) = true ->
   get E self key w = (Raise UnicodeEncodeError, w) /\
   delete E self key w = (Raise UnicodeEncodeError, w)).
Proof.
  intros Hkey. split; [|exact (get_delete_unencodable E self key w Hkey)].
  intros Henc.
  rewrite (get_run E self key w Hkey Henc), (delete_run E self key w Hkey Henc).
  cbn [fst snd w_sent]. split_and!; try done.
  - intros method. split_and!; try done.
    by apply quote_avoids.
  - intros code res Hr. by rewrite Hr.
  - intros code res Hr. by rewrite Hr.
  - intros e. split; intros Hr; by rewrite Hr.
Qed.

(** The key "a/b". *)
Lemma get_delete_request_witness :
  (has_surrogate (key_str (Some "a/b")) = false ->
   w_sent (snd (get (sample_env sample_ok) sample_base (Some "a/b") empty_world))
     = (w_sent empty_world ++ [item_request "GET" (Some "a/b")])%list /\
   w_sent (snd (delete (sample_env sample_ok) sample_base (Some "a/b") empty_world))
     = (w_sent empty_world ++ [item_request "DELETE" (Some "a/b")])%list /\
   (forall method,
      rq_path (item_request method (Some "a/b")) = "/items/" ++ quote (key_str (Some "a/b")) /\
      rq_body (item_request method (Some "a/b")) = None /\
      existsb (Ascii.eqb "/") (list_ascii_of_string (quote (key_str (Some "a/b")))) = false) /\
   (forall code res,
      rp_result (transport (sample_env sample_ok) (w_sent empty_world)
                   (item_request "GET" (Some "a/b")) (w_heap empty_world)) = Ok (code, res) ->
      fst (get (sample_env sample_ok) sample_base (Some "a/b") empty_world) = Ok res) /\
   (forall code res,
      rp_result (transport (sample_env sample_ok) (w_sent empty_world)
                   (item_request "DELETE" (Some "a/b")) (w_heap empty_world))
        = Ok (code, res) ->
      fst (delete (sample_env sample_ok) sample_base (Some "a/b") empty_world) = Ok VNone) /\
   (forall e,
      (rp_result (transport (sample_env sample_ok) (w_sent empty_world)
                    (item_request "GET" (Some "a/b")) (w_heap empty_world)) = Raise e ->
       fst (get (sample_env sample_ok) sample_base (Some "a/b") empty_world) = Raise e) /\
      (rp_result (transport (sample_env sample_ok) (w_sent empty_world)
                    (item_request "DELETE" (Some "a/b")) (w_heap empty_world)) = Raise e ->
       fst (delete (sample_env sample_ok) sample_base (Some "a/b") empty_world) = Raise e))) /\
  (has_surrogate (key_str (Some "a/b")) = true ->
   get (sample_env sample_ok) sample_base (Some "a/b") empty_world
     = (Raise UnicodeEncodeError, empty_world) /\
   delete (sample_env sample_ok) sample_base (Some "a/b") empty_world
     = (Raise UnicodeEncodeError, empty_world)).
Proof.
  apply (get_delete_request (sample_env sample_ok) sample_base (Some "a/b") empty_world).
  reflexivity.
Defined.

(** X18. [get], [delete], [fetch] and [update] write to no object that
    was there before the call: the store they leave holds every such
    object as it was, the query and the updates they were given among
    them. *)
Theorem calls_keep_the_store (E : env) (self : _Base) (key : option string)
    (query limit cursor updates ein eat : value) (w : world) :
  w_heap w ⊆ w_heap (snd (get E self key w)) /\
  w_heap w ⊆ w_heap (snd (delete E self key w)) /\
  w_heap w ⊆ w_heap (snd (fetch E self query limit cursor w)) /\
  w_heap w ⊆ w_heap (snd (update E self updates key ein eat w)).
Proof.
  split_and!.
  - destruct (key_truthy key) eqn:Hkey; [|unfold get; by rewrite Hkey].
    destruct (has_surrogate (key_str key)) eqn:Henc.
    + by rewrite (proj1 (get_delete_unencodable E self key w Hkey Henc)).
    + rewrite (get_run E self key w Hkey Henc). apply map_union_subseteq_l.
  - destruct (key_truthy key) eqn:Hkey; [|unfold delete; by rewrite Hkey].
    destruct (has_surrogate (key_str key)) eqn:Henc.
    + by rewrite (proj2 (get_delete_unencodable E self key w Hkey Henc)).
    + rewrite (delete_run E self key w Hkey Henc). apply map_union_subseteq_l.
  - apply fetch_frame.
  - apply update_frame.
Qed.

(** ** insert and put: the item sent, and the answers left over *)

(** The world [insert] and [put] send their request from, when the
    expiration is the integer [n] given as [expire_at]. *)
Lemma item_prefix_int (E : env) (self : _Base) (data : value) (key : option string)
    (ein : value) (n : Z) (w : world) :
  truthy (w_heap w) ein = false -> is_dict ein = false ->
  insert_ttl E (VDict (fresh (dom (w_heap w)))) (_ttl_attribute self) ein (VInt n)
             (world_alloc w (item_contents (w_heap w) data key))
    = (Ok tt,
       world_alloc w (item_with_ttl (_ttl_attribute self) n
                                    (item_contents (w_heap w) data key))).
Proof.
  intros Hin Hnd. rewrite insert_ttl_int.
  - unfold item_with_ttl. destruct (Z.eqb n 0); [reflexivity|].
    unfold world_set, world_alloc. cbn [w_heap w_sent w_ticks].
    by rewrite heap_dict_insert_eq, insert_insert_eq.
  - by rewrite (truthy_not_dict _ (w_heap w) ein Hnd).
Qed.

Lemma sent_world_lookup (E : env) (method : string) (body item : dict) (w : world) :
  let c := fresh (dom (w_heap w)) in
  let w2 := world_alloc w item in
  let b := fresh (dom (w_heap w2)) in
  w_sent (sent_world E method body w2)
    = (w_sent w ++ [mk_request "/items" method (Some (VDict b)) (Some (JSON_MIME E))])%list /\
  w_heap (sent_world E method body w2) !! b = Some body /\
  w_heap (sent_world E method body w2) !! c = Some item.
Proof.
  cbv zeta. unfold sent_world, world_alloc. cbn [w_heap w_sent w_ticks].
  split_and!; [done | |]; apply lookup_union_Some_l.
  - apply lookup_insert_eq.
  - rewrite lookup_insert_ne; [apply lookup_insert_eq|].
    intros Heq.
    pose proof (fresh_loc_unused (<[fresh (dom (w_heap w)) := item]> (w_heap w))) as Hb.
    rewrite Heq in Hb. by rewrite lookup_insert_eq in Hb.
Qed.

(** X19. Once [insert] has issued its request, an answer whose status is
    neither 201 nor 409 makes it return None: no error is raised, whatever
    the status says. *)
Theorem insert_other_status (E : env) (self : _Base) (data : value) (key : option string)
    (ein eat : value) (w : world) (code : Z) (res : value) :
  (forall sent rq h, rp_result (transport E sent rq h) = Ok (code, res)) ->
  w_sent (snd (insert E self data key ein eat w)) <> w_sent w ->
  code <> 201 -> code <> 409 ->
  fst (insert E self data key ein eat w) = Ok VNone.
Proof.
  intros Hreply. rewrite insert_shape. unfold answer, sent_world. cbv zeta.
  destruct (insert_ttl E _ (_ttl_attribute self) ein eat _) as [[[]|e] w2] eqn:Httl.
  - rewrite Hreply. intros _ H201 H409.
    destruct (Z.eqb code 201) eqn:H1; [apply Z.eqb_eq in H1; contradiction|].
    destruct (Z.eqb code 409) eqn:H2; [apply Z.eqb_eq in H2; contradiction|].
    reflexivity.
  - intros Hsent. exfalso. apply Hsent. cbn [snd].
    by destruct (item_prefix_effect E _ ein eat _ w _ w2 Httl).
Qed.

(** An insert answered 404. *)
Lemma insert_other_status_witness :
  fst (insert (sample_env missing_reply) sample_base (VInt 1) (Some "abc")
              VNone VNone empty_world) = Ok VNone.
Proof.
  apply (insert_other_status (sample_env missing_reply) sample_base (VInt 1) (Some "abc")
           VNone VNone empty_world 404 VNone).
  - intros sent rq h. reflexivity.
  - vm_compute. discriminate.
  - lia.
  - lia.
Defined.

(** X20. The item [insert] and [put] send is a new object: the contents
    of the data given when that is a dictionary, and a dictionary holding
    it under [value] otherwise; a key argument that is not empty is
    written over the [key] of the data, and an integer [expire_at] over
    its TTL attribute.  [insert] sends the item under [item], [put] as the
    only element of [items]. *)
Theorem insert_put_item_sent (E : env) (self : _Base) (data : value)
    (key : option string) (ein : value) (n : Z) (w : world) :
  truthy (w_heap w) ein = false -> is_dict ein = false ->
  let c := fresh (dom (w_heap w)) in
  let item := item_with_ttl (_ttl_attribute self) n (item_contents (w_heap w) data key) in
  w_heap w !! c = None /\
  (exists b,
     w_sent (snd (insert E self data key ein (VInt n) w))
       = (w_sent w ++ [insert_request E b])%list /\
     w_heap (snd (insert E self data key ein (VInt n) w)) !! b = Some [("item", VDict c)] /\
     w_heap (snd (insert E self data key ein (VInt n) w)) !! c = Some item) /\
  (exists b,
     w_sent (snd (put E self data key ein (VInt n) w))
       = (w_sent w ++ [put_request E b])%list /\
     w_heap (snd (put E self data key ein (VInt n) w)) !! b
       = Some [("items", VList [VDict c])] /\
     w_heap (snd (put E self data key ein (VInt n) w)) !! c = Some item) /\
  (key_truthy key = true ->
   dict_get "key" (item_contents (w_heap w) data key) = Some (VStr (key_str key))) /\
  (key_truthy key = false ->
   item_contents (w_heap w) data key
     = match data with VDict r => heap_dict (w_heap w) r | _ => [("value", data)] end) /\
  (n <> 0 -> dict_get (_ttl_attribute self) item = Some (VInt n)).
Proof.
  intros Hin Hnd c item. subst c item. split_and!.
  - apply fresh_loc_unused.
  - rewrite insert_shape.
    rewrite (item_prefix_int E self data key ein n w Hin Hnd).
    destruct (sent_world_lookup E "POST" [("item", VDict (fresh (dom (w_heap w))))]
                (item_with_ttl (_ttl_attribute self) n (item_contents (w_heap w) data key)) w)
      as (Hs & Hb & Hc).
    eexists.
    assert (Hsnd : forall (x : result (Z * value)) (w3 : world),
              snd (match x with
                   | Ok (code, res) =>
                       if Z.eqb code 201 then (Ok res, w3)
                       else if Z.eqb code 409
                            then (Raise (ALREADY_EXISTS (key_str key)), w3)
                            else (Ok VNone, w3)
                   | Raise e => (Raise e, w3)
                   end) = w3).
    { intros [[c0 r0]|e0] w3; [|done].
      destruct (Z.eqb c0 201); [done|]. by destruct (Z.eqb c0 409). }
    cbv zeta. rewrite Hsnd. split_and!; [exact Hs | exact Hb | exact Hc].
  - rewrite put_shape.
    rewrite (item_prefix_int E self data key ein n w Hin Hnd).
    destruct (sent_world_lookup E "PUT" [("items", VList [VDict (fresh (dom (w_heap w)))])]
                (item_with_ttl (_ttl_attribute self) n (item_contents (w_heap w) data key)) w)
      as (Hs & Hb & Hc).
    eexists. cbv zeta.
    match goal with
    | |- context [match ?x with Ok _ => _ | Raise _ => _ end] =>
        destruct x as [[c0 r0]|e0]; [destruct (_ && _)|]
    end; cbn [snd]; (split_and!; [exact Hs | exact Hb | exact Hc]).
  - intros Hkey. unfold item_contents. rewrite Hkey. apply dict_get_set_eq.
  - intros Hkey. unfold item_contents. by rewrite Hkey.
  - intros Hn. unfold item_with_ttl.
    destruct (Z.eqb n 0) eqn:Hz; [apply Z.eqb_eq in Hz; contradiction|].
    apply dict_get_set_eq.
Qed.

(** A dictionary with a key of its own, stored under another key, to
    expire at the second 1700000000. *)
Lemma insert_put_item_sent_witness :
  let E := sample_env sample_ok in
  let w := world_with [("key", VStr "old"); ("name", VStr "a")] in
  let c := fresh (dom (w_heap w)) in
  let item := item_with_ttl (_ttl_attribute sample_base) 1700000000
                (item_contents (w_heap w) (VDict 1%positive) (Some "new")) in
  w_heap w !! c = None /\
  (exists b,
     w_sent (snd (insert E sample_base (VDict 1%positive) (Some "new") VNone
                         (VInt 1700000000) w))
       = (w_sent w ++ [insert_request E b])%list /\
     w_heap (snd (insert E sample_base (VDict 1%positive) (Some "new") VNone
                         (VInt 1700000000) w)) !! b = Some [("item", VDict c)] /\
     w_heap (snd (insert E sample_base (VDict 1%positive) (Some "new") VNone
                         (VInt 1700000000) w)) !! c = Some item) /\
  (exists b,
     w_sent (snd (put E sample_base (VDict 1%positive) (Some "new") VNone
                      (VInt 1700000000) w))
       = (w_sent w ++ [put_request E b])%list /\
     w_heap (snd (put E sample_base (VDict 1%positive) (Some "new") VNone
                      (VInt 1700000000) w)) !! b
       = Some [("items", VList [VDict c])] /\
     w_heap (snd (put E sample_base (VDict 1%positive) (Some "new") VNone
                      (VInt 1700000000) w)) !! c = Some item) /\
  (key_truthy (Some "new") = true ->
   dict_get "key" (item_contents (w_heap w) (VDict 1%positive) (Some "new"))
     = Some (VStr (key_str (Some "new")))) /\
  (key_truthy (Some "new") = false ->
   item_contents (w_heap w) (VDict 1%positive) (Some "new")
     = heap_dict (w_heap w) 1%positive) /\
  (1700000000 <> 0 -> dict_get (_ttl_attribute sample_base) item = Some (VInt 1700000000)).
Proof.
  apply (insert_put_item_sent (sample_env sample_ok) sample_base (VDict 1%positive)
           (Some "new") VNone 1700000000
           (world_with [("key", VStr "old"); ("name", VStr "a")])); reflexivity.
Defined.

(** X21. [put] reads [processed] and [items] from a 207 answer without
    looking first: a body that tests true and holds nothing under
    [processed] raises KeyError, and so does a [processed] that holds
    nothing under [items]. *)
Theorem put_malformed_answer (E : env) (self : _Base) (data : value)
    (key : option string) (ein eat : value) (w : world) (rr : loc) :
  (forall sent rq h, rp_result (transport E sent rq h) = Ok (207, VDict rr)) ->
  w_sent (snd (put E self data key ein eat w)) <> w_sent w ->
  truthy (w_heap (snd (put E self data key ein eat w))) (VDict rr) = true ->
  (dict_get "processed" (heap_dict (w_heap (snd (put E self data key ein eat w))) rr) = None ->
   fst (put E self data key ein eat w) = Raise (KeyError "processed")) /\
  (forall rp,
     dict_get "processed" (heap_dict (w_heap (snd (put E self data key ein eat w))) rr)
       = Some (VDict rp) ->
     dict_get "items" (heap_dict (w_heap (snd (put E self data key ein eat w))) rp) = None ->
     fst (put E self data key ein eat w) = Raise (KeyError "items")).
Proof.
  intros Hreply. rewrite put_shape. unfold answer, sent_world. cbv zeta.
  destruct (insert_ttl E _ (_ttl_attribute self) ein eat _) as [[[]|e] w2] eqn:Httl.
  - rewrite Hreply. intros _.
    set (w3 := mk_world _ _ _).
    match goal with
    | |- context [if ?c then (?a, w3) else (?b, w3)] =>
        assert (Hsnd : snd (if c then (a, w3) else (b, w3)) = w3) by (by destruct c)
    end.
    rewrite !Hsnd. clear Hsnd. intros Ht. rewrite Ht.
    cbn [andb Z.eqb Pos.eqb fst]. split.
    + intros Hproc. unfold bind, getitem_str. by rewrite Hproc.
    + intros rp Hproc Hitems. unfold bind, getitem_str. by rewrite Hproc, Hitems.
  - intros Hsent. exfalso. apply Hsent. cbn [snd].
    by destruct (item_prefix_effect E _ ein eat _ w _ w2 Httl).
Qed.

(** A 207 answer that lists the item as failed and has no [processed]. *)
Lemma put_malformed_answer_witness :
  (dict_get "processed"
     (heap_dict (w_heap (snd (put (sample_env failed_reply) sample_base (VInt 1) None
                                  VNone VNone empty_world))) 100%positive) = None ->
   fst (put (sample_env failed_reply) sample_base (VInt 1) None VNone VNone empty_world)
     = Raise (KeyError "processed")) /\
  (forall rp,
     dict_get "processed"
       (heap_dict (w_heap (snd (put (sample_env failed_reply) sample_base (VInt 1) None
                                    VNone VNone empty_world))) 100%positive)
       = Some (VDict rp) ->
     dict_get "items"
       (heap_dict (w_heap (snd (put (sample_env failed_reply) sample_base (VInt 1) None
                                    VNone VNone empty_world))) rp) = None ->
     fst (put (sample_env failed_reply) sample_base (VInt 1) None VNone VNone empty_world)
       = Raise (KeyError "items")).
Proof.
  apply (put_malformed_answer (sample_env failed_reply) sample_base (VInt 1) None
           VNone VNone empty_world 100%positive).
  - intros sent rq h. reflexivity.
  - vm_compute. discriminate.
  - vm_compute. reflexivity.
Defined.

(** ** The buckets of an update, in order *)

Lemma dict_set_fresh k v (d : dict) :
  ~ In k (dict_keys d) -> dict_set k v d = (d ++ [(k, v)])%list.
Proof.
  induction d as [|[k' v'] d IH]; simpl; [done|].
  intros Hnot. destruct (String.eqb k k') eqn:Hk.
  - apply String.eqb_eq in Hk. subst. tauto.
  - rewrite IH; [done | tauto].
Qed.

Lemma dict_keys_set k v (d : dict) a :
  In a (dict_keys (dict_set k v d)) -> a = k \/ In a (dict_keys d).
Proof.
  induction d as [|[k' v'] d IH]; simpl.
  - intros [<-|[]]. by left.
  - destruct (String.eqb k k') eqn:Hk; simpl.
    + tauto.
    + intros [<-|Hin]; [tauto|]. destruct (IH Hin); tauto.
Qed.

Lemma bucket_dict_classify_pair k B a v :
  bucket_dict k (classify_pair B (a, v)) =
    if bucket_eqb k (bucket_of v)
    then match k with
         | BDelete => (bucket_dict k B ++ [(a, placed_value a v)])%list
         | _ => dict_set a (placed_value a v) (bucket_dict k B)
         end
    else bucket_dict k B.
Proof.
  destruct v, k; try reflexivity; simpl; by rewrite map_app.
Qed.

Lemma of_kind_cons k a v (l : dict) :
  of_kind k ((a, v) :: l) =
    if bucket_eqb k (bucket_of v) then (a, placed_value a v) :: of_kind k l
    else of_kind k l.
Proof.
  unfold of_kind. cbn [List.filter fst snd].
  by destruct (bucket_eqb k (bucket_of v)).
Qed.

Lemma classify_from_in_order k (updates : dict) : forall B,
  List.NoDup (dict_keys updates) ->
  (forall a, In a (dict_keys updates) -> ~ In a (dict_keys (bucket_dict k B))) ->
  bucket_dict k (classify_from B updates) = (bucket_dict k B ++ of_kind k updates)%list.
Proof.
  induction updates as [|[a v] l IH]; intros B Hnd Hfresh.
  - unfold classify_from, of_kind. simpl. by rewrite app_nil_r.
  - simpl in Hnd. apply List.NoDup_cons_iff in Hnd as [Ha Hnd].
    unfold classify_from. simpl.
    fold (classify_from (classify_pair B (a, v)) l).
    assert (Hstep : bucket_dict k (classify_pair B (a, v)) =
              if bucket_eqb k (bucket_of v)
              then (bucket_dict k B ++ [(a, placed_value a v)])%list
              else bucket_dict k B).
    { rewrite bucket_dict_classify_pair.
      destruct (bucket_eqb k (bucket_of v)); [|done].
      destruct k; try done; apply dict_set_fresh, Hfresh; by left. }
    rewrite IH.
    + rewrite Hstep, of_kind_cons.
      destruct (bucket_eqb k (bucket_of v)); [|done].
      by rewrite <- app_assoc.
    + exact Hnd.
    + intros x Hx. rewrite Hstep.
      destruct (bucket_eqb k (bucket_of v)).
      * unfold dict_keys. rewrite map_app, in_app_iff. simpl.
        intros [Hin|[<-|[]]]; [|done].
        apply (Hfresh x); [by right | exact Hin].
      * apply Hfresh. by right.
Qed.

Lemma of_kind_lengths (updates : dict) :
  (length (of_kind BSet updates) + length (of_kind BIncrement updates) +
   length (of_kind BAppend updates) + length (of_kind BPrepend updates) +
   length (of_kind BDelete updates) = length updates)%nat.
Proof.
  induction updates as [|[a v] l IH]; [done|].
  rewrite !of_kind_cons. destruct (bucket_of v); simpl; lia.
Qed.

(** X22. For an update mapping (its keys are distinct), each bucket of
    the payload [update] builds holds exactly the pairs of its kind, in
    the order of the mapping, and nothing else; the five buckets together
    hold as many entries as the mapping has pairs. *)
Theorem update_buckets_in_order (w : world) (u : loc) (updates : dict) :
  w_heap w !! u = Some updates ->
  List.NoDup (dict_keys updates) ->
  exists r s i a p w' B,
    update_payload (VDict u) w = (Ok (VDict r), w') /\
    payload_at (w_heap w') r s i a p B /\
    (forall k, bucket_dict k B = of_kind k updates) /\
    b_delete B = dict_keys (of_kind BDelete updates) /\
    (length (b_set B) + length (b_increment B) + length (b_append B) +
     length (b_prepend B) + length (b_delete B) = length updates)%nat.
Proof.
  intros Hu Hnd.
  destruct (update_payload_spec (VDict u) w) as (r & s & i & a & p & w' & H).
  { intros x [= <-]. eauto. }
  { discriminate. }
  destruct H as (Hrun & Hpay & _).
  simpl in Hpay. unfold heap_dict in Hpay. rewrite Hu in Hpay. simpl in Hpay.
  exists r, s, i, a, p, w', (classify updates).
  assert (Hk : forall k, bucket_dict k (classify updates) = of_kind k updates).
  { intros k. unfold classify. rewrite classify_from_in_order; [|exact Hnd|].
    - by destruct k.
    - intros x _. destruct k; intros []. }
  assert (Hdel : b_delete (classify updates) = dict_keys (of_kind BDelete updates)).
  { rewrite <- (Hk BDelete). unfold bucket_dict, dict_keys.
    rewrite map_map. simpl. by rewrite map_id. }
  split_and!; [exact Hrun | exact Hpay | exact Hk | exact Hdel |].
  rewrite <- (of_kind_lengths updates).
  rewrite <- (Hk BSet), <- (Hk BIncrement), <- (Hk BAppend), <- (Hk BPrepend).
  rewrite Hdel. unfold dict_keys. rewrite length_map. reflexivity.
Qed.

(** The update mapping with one attribute per marker kind and a plain
    value. *)
Lemma update_buckets_in_order_witness :
  exists r s i a p w' B,
    update_payload (VDict 1%positive) (world_with (("name", VStr "x") :: sample_updates))
      = (Ok (VDict r), w') /\
    payload_at (w_heap w') r s i a p B /\
    (forall k, bucket_dict k B = of_kind k (("name", VStr "x") :: sample_updates)) /\
    b_delete B = dict_keys (of_kind BDelete (("name", VStr "x") :: sample_updates)) /\
    (length (b_set B) + length (b_increment B) + length (b_append B) +
     length (b_prepend B) + length (b_delete B)
     = length (("name", VStr "x") :: sample_updates))%nat.
Proof.
  apply (update_buckets_in_order (world_with (("name", VStr "x") :: sample_updates))
           1%positive (("name", VStr "x") :: sample_updates)).
  - reflexivity.
  - repeat constructor; simpl; intuition discriminate.
Defined.

(** ** Every call: one request at most, and validation first *)

Lemma sent_world_sent (E : env) (method : string) (body : dict) (w2 : world) :
  exists rq, w_sent (sent_world E method body w2) = (w_sent w2 ++ [rq])%list.
Proof. eexists. reflexivity. Qed.

Lemma insert_sends_once (E : env) (self : _Base) data key ein eat w :
  at_most_one_request w (snd (insert E self data key ein eat w)).
Proof.
  rewrite insert_shape.
  destruct (insert_ttl E _ (_ttl_attribute self) ein eat _) as [[[]|e] w2] eqn:Httl;
    destruct (item_prefix_effect E _ ein eat _ w _ w2 Httl) as [Hsent _];
    [|by left].
  right. destruct (sent_world_sent E "POST" [("item", VDict (fresh (dom (w_heap w))))] w2)
    as [rq Hrq].
  exists rq. rewrite <- Hsent, <- Hrq. cbv zeta.
  destruct (answer _ _ _ _) as [[code res]|e]; [|done].
  destruct (Z.eqb code 201); [done|]. by destruct (Z.eqb code 409).
Qed.

Lemma put_sends_once (E : env) (self : _Base) data key ein eat w :
  at_most_one_request w (snd (put E self data key ein eat w)).
Proof.
  rewrite put_shape.
  destruct (insert_ttl E _ (_ttl_attribute self) ein eat _) as [[[]|e] w2] eqn:Httl;
    destruct (item_prefix_effect E _ ein eat _ w _ w2 Httl) as [Hsent _];
    [|by left].
  right.
  destruct (sent_world_sent E "PUT" [("items", VList [VDict (fresh (dom (w_heap w)))])] w2)
    as [rq Hrq].
  exists rq. rewrite <- Hsent, <- Hrq. cbv zeta.
  destruct (answer _ _ _ _) as [[code res]|e]; [|done].
  by destruct (_ && _).
Qed.

Lemma put_many_sends_once (E : env) (self : _Base) batch ein eat w :
  at_most_one_request w (snd (put_many E self batch ein eat w)).
Proof.
  unfold put_many.
  destruct (25 <? Z.of_nat (length batch)); [by left|].
  destruct (put_many_loop E self batch [] ein eat w) as [[l|e] w1] eqn:Hloop;
    destruct (put_many_loop_effect E self ein eat batch [] w _ w1 Hloop) as (Hsent & _).
  - rewrite (bind_ok _ _ w w1 l Hloop).
    cbn [bind new_dict w_heap w_sent w_ticks].
    unfold _request at 1, bind at 1. cbn [w_heap w_sent w_ticks].
    right. eexists. rewrite <- Hsent.
    by destruct (rp_result _) as [[code res]|e].
  - rewrite (bind_raise _ _ w w1 e Hloop). by left.
Qed.

Lemma update_sends_once (E : env) (self : _Base) updates key ein eat w :
  at_most_one_request w (snd (update E self updates key ein eat w)).
Proof.
  destruct (key_truthy key) eqn:Hkey; [|left; unfold update; by rewrite Hkey].
  destruct (update_payload_outcome updates w)
    as (r & s & i & a & p & Hnone &
        [(w5 & Hrun & _ & Hsent5 & _)|(B & w1 & Hrun & Hpay & _ & Hsent1 & _)]).
  - left. unfold update. rewrite Hkey. cbn [negb].
    by rewrite (bind_raise _ _ w w5 _ Hrun).
  - rewrite (update_shape E self updates key ein eat w r s i a p B w1 Hkey Hrun Hpay).
    destruct (insert_ttl E (VDict s) (_ttl_attribute self) ein eat w1)
      as [[[]|e] w2] eqn:Httl;
      apply insert_ttl_effect in Httl as [Hsent2 _].
    + destruct (has_surrogate (key_str key)); [left; cbn [snd]; congruence|].
      right. exists (update_request E key r). cbv zeta.
      rewrite <- Hsent1, <- Hsent2.
      destruct (rp_result _) as [[code res]|e]; [|done].
      by destruct (Z.eqb code 404).
    + left. cbn [snd]. congruence.
Qed.

(** X23. No call issues more than one request: [get], [delete],
    [insert], [put], [put_many], [fetch] and [update] each leave the list
    of requests as it was or with one request more, never with two, and
    what had been sent before is still there. *)
Theorem one_request_per_call (E : env) (self : _Base) (key : option string)
    (data query limit cursor updates ein eat : value) (batch : list value) (w : world) :
  at_most_one_request w (snd (get E self key w)) /\
  at_most_one_request w (snd (delete E self key w)) /\
  at_most_one_request w (snd (insert E self data key ein eat w)) /\
  at_most_one_request w (snd (put E self data key ein eat w)) /\
  at_most_one_request w (snd (put_many E self batch ein eat w)) /\
  at_most_one_request w (snd (fetch E self query limit cursor w)) /\
  at_most_one_request w (snd (update E self updates key ein eat w)).
Proof.
  split_and!.
  - destruct (key_truthy key) eqn:Hkey; [|left; unfold get; by rewrite Hkey].
    destruct (has_surrogate (key_str key)) eqn:Henc.
    + left. by rewrite (proj1 (get_delete_unencodable E self key w Hkey Henc)).
    + rewrite (get_run E self key w Hkey Henc). right. by eexists.
  - destruct (key_truthy key) eqn:Hkey; [|left; unfold delete; by rewrite Hkey].
    destruct (has_surrogate (key_str key)) eqn:Henc.
    + left. by rewrite (proj2 (get_delete_unencodable E self key w Hkey Henc)).
    + rewrite (delete_run E self key w Hkey Henc). right. by eexists.
  - apply insert_sends_once.
  - apply put_sends_once.
  - apply put_many_sends_once.
  - destruct (fetch_run E self query limit cursor w) as [d Hrun].
    cbv zeta in Hrun. rewrite Hrun. right. eexists.
    by destruct (rp_result _) as [cr|e].
  - apply update_sends_once.
Qed.

Lemma insert_ttl_other_type (E : env) item attr ein eat (h : gmap loc dict) w :
  h ⊆ w_heap w ->
  truthy h ein = false -> is_dict ein = false ->
  truthy h eat = true ->
  is_number eat = false -> is_datetime eat = false ->
  insert_ttl E item attr ein eat w = (Raise BAD_EXPIRE_AT, w).
Proof.
  intros Hsub Hin Hnd Hat Hnum Hdt. unfold insert_ttl, bind, truth.
  rewrite (truthy_not_dict (w_heap w) h ein Hnd), Hin.
  rewrite (truthy_true_weaken h (w_heap w) eat Hsub Hat).
  by destruct eat.
Qed.

(** X24. An [expire_at] that tests true and is neither a number nor a
    datetime is found out before anything is sent: [insert], [put],
    [put_many] (on its first item) and [update] raise the TypeError of
    [insert_ttl], issue no request and leave every object of the store as
    it was. *)
Theorem bad_expire_at_rejected (E : env) (self : _Base) (ein eat : value) (w : world) :
  truthy (w_heap w) ein = false -> is_dict ein = false ->
  truthy (w_heap w) eat = true ->
  is_number eat = false -> is_datetime eat = false ->
  (forall data key, turned_down BAD_EXPIRE_AT w (insert E self data key ein eat w)) /\
  (forall data key, turned_down BAD_EXPIRE_AT w (put E self data key ein eat w)) /\
  (forall item batch, (length (item :: batch) <= 25)%nat ->
     turned_down BAD_EXPIRE_AT w (put_many E self (item :: batch) ein eat w)) /\
  (forall updates key,
     key_truthy key = true -> live (w_heap w) updates ->
     (is_dict updates = false -> truthy (w_heap w) updates = false) ->
     turned_down BAD_EXPIRE_AT w (update E self updates key ein eat w)).
Proof.
  intros Hin Hnd Hat Hnum Hdt. pose proof (fresh_loc_unused (w_heap w)) as Hfresh.
  assert (Halloc : forall d, w_heap w ⊆ w_heap (world_alloc w d)).
  { intros d. unfold world_alloc. cbn [w_heap]. by apply insert_subseteq. }
  split_and!.
  - intros data key. unfold insert. rewrite item_prefix.
    rewrite (insert_ttl_other_type E _ _ ein eat (w_heap w)); try done.
    unfold turned_down. cbn [fst snd]. split_and!; first [done | apply Halloc].
  - intros data key. unfold put. rewrite item_prefix.
    rewrite (insert_ttl_other_type E _ _ ein eat (w_heap w)); try done.
    unfold turned_down. cbn [fst snd]. split_and!; first [done | apply Halloc].
  - intros item batch Hlen. unfold put_many.
    destruct (25 <? Z.of_nat (length (item :: batch))) eqn:Hlt;
      [apply Z.ltb_lt in Hlt; lia|].
    cbn [put_many_loop].
    destruct (put_many_data item w) as (x & w1 & Hdata & Hcase).
    rewrite !bind_assoc. rewrite (bind_ok _ _ w w1 (VDict x) Hdata).
    rewrite bind_assoc.
    assert (Hsub : w_heap w ⊆ w_heap w1 /\ w_sent w1 = w_sent w).
    { destruct Hcase as [[_ ->]|(_ & _ & ->)]; [done|]. split; [apply Halloc | done]. }
    destruct Hsub as [Hsub Hsent].
    rewrite (bind_raise _ _ w1 w1 BAD_EXPIRE_AT)
      by (by apply (insert_ttl_other_type E _ _ ein eat (w_heap w))).
    unfold turned_down. cbn [fst snd]. done.
  - intros updates key Hkey Hlive Hdict. unfold update. rewrite Hkey. cbn [negb].
    destruct (update_payload_spec updates w Hlive Hdict)
      as (r & s & i & a & p & w' & Hrun & Hpay & Hsent & _ & Hsub & _).
    unfold bind at 1. rewrite Hrun.
    destruct Hpay as (Hr & _).
    unfold bind at 1. unfold getitem_str, heap_dict. rewrite Hr.
    cbn [default from_option id payload_dict dict_get String.eqb Ascii.eqb Bool.eqb].
    unfold bind at 1.
    rewrite (insert_ttl_other_type E _ _ ein eat (w_heap w)); try done.
Qed.

(** A date written as a string, given to every call. *)
Lemma bad_expire_at_rejected_witness :
  (forall data key,
     turned_down BAD_EXPIRE_AT (world_with [])
       (insert (sample_env sample_ok) sample_base data key VNone (VStr "2030-01-01")
               (world_with []))) /\
  (forall data key,
     turned_down BAD_EXPIRE_AT (world_with [])
       (put (sample_env sample_ok) sample_base data key VNone (VStr "2030-01-01")
            (world_with []))) /\
  (forall item batch, (length (item :: batch) <= 25)%nat ->
     turned_down BAD_EXPIRE_AT (world_with [])
       (put_many (sample_env sample_ok) sample_base (item :: batch) VNone
                 (VStr "2030-01-01") (world_with []))) /\
  (forall updates key,
     key_truthy key = true -> live (w_heap (world_with [])) updates ->
     (is_dict updates = false -> truthy (w_heap (world_with [])) updates = false) ->
     turned_down BAD_EXPIRE_AT (world_with [])
       (update (sample_env sample_ok) sample_base updates key VNone (VStr "2030-01-01")
               (world_with []))).
Proof.
  apply (bad_expire_at_rejected (sample_env sample_ok) sample_base VNone
           (VStr "2030-01-01") (world_with [])); reflexivity.
Defined.

(** ** put_many with an expiration: every item listed carries it *)

(** X25. With an integer [expire_at] that is not zero, [put_many] of at
    most 25 items issues its request with a list as long as the batch.
    A dictionary of the batch stands in it as the object it is, and that
    object now holds what it held before with the integer under the TTL
    attribute; every other item stands as a new dictionary that holds
    the item under ["value"] and the integer under the TTL attribute, and
    nothing else. *)
Theorem put_many_stamps_every_item (E : env) (self : _Base) (batch : list value)
    (ein : value) (n : Z) (w : world) :
  (length batch <= 25)%nat ->
  truthy (w_heap w) ein = false -> is_dict ein = false ->
  n <> 0 ->
  exists b l,
    w_sent (snd (put_many E self batch ein (VInt n) w))
      = (w_sent w ++ [put_request E b])%list /\
    w_heap (snd (put_many E self batch ein (VInt n) w)) !! b = Some [("items", VList l)] /\
    length l = length batch /\
    Forall2 (stamped_as (_ttl_attribute self) n (w_heap w)
               (w_heap (snd (put_many E self batch ein (VInt n) w)))) batch l /\
    Forall (ttl_is (_ttl_attribute self) n
                   (w_heap (snd (put_many E self batch ein (VInt n) w)))) l.
Proof.
  intros Hlen Hin Hein Hn.
  destruct (put_many_stamp_run E self batch ein n w Hlen Hin Hein Hn)
    as (b & l & Hsent & Hbody & Hlisted & Hall).
  exists b, l. split_and!; try done.
  symmetry. by eapply Forall2_length.
Qed.

(** A dictionary of the caller and a number, to expire at the second
    1700000000. *)
Lemma put_many_stamps_every_item_witness :
  exists b l,
    w_sent (snd (put_many (sample_env sample_ok) sample_base [VDict 1%positive; VInt 3]
                          VNone (VInt 1700000000) (world_with [("name", VStr "a")])))
      = (w_sent (world_with [("name", VStr "a")]) ++
         [put_request (sample_env sample_ok) b])%list /\
    w_heap (snd (put_many (sample_env sample_ok) sample_base [VDict 1%positive; VInt 3]
                          VNone (VInt 1700000000) (world_with [("name", VStr "a")]))) !! b
      = Some [("items", VList l)] /\
    length l = length [VDict 1%positive; VInt 3] /\
    Forall2 (stamped_as (_ttl_attribute sample_base) 1700000000
               (w_heap (world_with [("name", VStr "a")]))
               (w_heap (snd (put_many (sample_env sample_ok) sample_base
                                      [VDict 1%positive; VInt 3] VNone (VInt 1700000000)
                                      (world_with [("name", VStr "a")])))))
            [VDict 1%positive; VInt 3] l /\
    Forall (ttl_is (_ttl_attribute sample_base) 1700000000
              (w_heap (snd (put_many (sample_env sample_ok) sample_base
                                     [VDict 1%positive; VInt 3] VNone (VInt 1700000000)
                                     (world_with [("name", VStr "a")]))))) l.
Proof.
  apply (put_many_stamps_every_item (sample_env sample_ok) sample_base
           [VDict 1%positive; VInt 3] VNone 1700000000 (world_with [("name", VStr "a")])).
  - simpl. lia.
  - reflexivity.
  - reflexivity.
  - lia.
Defined.

(** ** put_many with expire_in: the clock is read for every item *)

Lemma in_dict_locs (r : loc) (l : list value) : In (VDict r) l <-> In r (dict_locs l).
Proof.
  unfold dict_locs. rewrite in_flat_map. split.
  - intros Hin. exists (VDict r). split; [done | by left].
  - intros (v & Hin & Hv). destruct v; try done.
    destruct Hv as [->|[]]. done.
Qed.

Section PutManyClock.

Variables (E : env) (self : _Base) (n : Z) (eat : value) (u : nat -> Z).
Hypothesis Hn : n <> 0.
Hypothesis Heat : is_dict eat = false.
Variable h0 : gmap loc dict.
Hypothesis Hat : truthy h0 eat = false.

Lemma insert_ttl_tick x w :
  clock_resolves E n (w_ticks w) (u (w_ticks w)) ->
  insert_ttl E (VDict x) (_ttl_attribute self) (VInt n) eat w
    = (Ok tt, world_set (world_tick w) x (_ttl_attribute self) (VInt (u (w_ticks w)))).
Proof.
  intros Hclock. apply insert_ttl_in_seconds_at; [done | | done].
  by rewrite (truthy_not_dict (w_heap w) h0 eat Heat).
Qed.

Lemma put_many_loop_clock items : forall acc w,
  (forall i, (i < length items)%nat ->
     clock_resolves E n (w_ticks w + i)%nat (u (w_ticks w + i)%nat)) ->
  (forall r, In r (dict_locs items) -> is_Some (w_heap w !! r)) ->
  List.NoDup (dict_locs items) ->
  exists l w',
    put_many_loop E self items acc (VInt n) eat w = (Ok (acc ++ l)%list, w') /\
    w_sent w' = w_sent w /\
    w_ticks w' = (w_ticks w + length items)%nat /\
    length l = length items /\
    (forall i x, nth_error l i = Some x ->
       ttl_is (_ttl_attribute self) (u (w_ticks w + i)%nat) (w_heap w') x).
Proof.
  induction items as [|item rest IH]; intros acc w Hclock Hlive Hnd.
  - exists [], w. cbn. rewrite app_nil_r.
    split_and!; try done; try lia; intros [|i] x; discriminate.
  - cbn [put_many_loop].
    destruct (put_many_data item w) as (x & w1 & Hdata & Hcase).
    rewrite (bind_ok _ _ w w1 (VDict x) Hdata).
    assert (H1 : w_sent w1 = w_sent w /\ w_ticks w1 = w_ticks w /\
                 w_heap w ⊆ w_heap w1 /\ ~ In (VDict x) rest /\
                 incl (dict_locs rest) (dict_locs (item :: rest))).
    { assert (Hincl : incl (dict_locs rest) (dict_locs (item :: rest))).
      { intros r Hr. unfold dict_locs in *. cbn [flat_map]. apply in_or_app. by right. }
      destruct Hcase as [[-> ->]|(Hd & -> & ->)].
      - split_and!; try done. intros Hin. apply in_dict_locs in Hin.
        unfold dict_locs in Hnd. cbn [flat_map app] in Hnd.
        apply List.NoDup_cons_iff in Hnd as [Hnot _]. by apply Hnot.
      - split_and!; [done | done | apply insert_subseteq, fresh_loc_unused | | done].
        intros Hin. apply in_dict_locs in Hin.
        destruct (Hlive _ (Hincl _ Hin)) as [d Hd'].
        by rewrite fresh_loc_unused in Hd'. }
    destruct H1 as (Hsent1 & Hticks1 & Hsub1 & Hnotin & Hincl).
    assert (Hclock1 : clock_resolves E n (w_ticks w1) (u (w_ticks w1))).
    { rewrite Hticks1. rewrite <- (Nat.add_0_r (w_ticks w)).
      apply Hclock. cbn [length]. lia. }
    rewrite (bind_ok _ _ w1 _ tt (insert_ttl_tick x w1 Hclock1)).
    set (w2 := world_set (world_tick w1) x (_ttl_attribute self)
                 (VInt (u (w_ticks w1)))).
    assert (Hticks2 : w_ticks w2 = S (w_ticks w)).
    { unfold w2. cbn [world_set world_tick w_ticks]. by rewrite Hticks1. }
    assert (Hclock2 : forall i, (i < length rest)%nat ->
              clock_resolves E n (w_ticks w2 + i)%nat (u (w_ticks w2 + i)%nat)).
    { intros i Hi. rewrite Hticks2.
      replace (S (w_ticks w) + i)%nat with (w_ticks w + S i)%nat by lia.
      apply Hclock. cbn [length]. lia. }
    assert (Hlive2 : forall r, In r (dict_locs rest) -> is_Some (w_heap w2 !! r)).
    { intros r Hr. destruct (Hlive r (Hincl r Hr)) as [d Hd].
      unfold w2. cbn [world_set world_tick w_heap].
      apply lookup_insert_is_Some'. right.
      exists d. by apply (lookup_weaken _ _ _ _ Hd Hsub1). }
    assert (Hnd2 : List.NoDup (dict_locs rest)).
    { unfold dict_locs in *. cbn [flat_map] in Hnd.
      by apply List.NoDup_app_remove_l in Hnd. }
    destruct (IH (acc ++ [VDict x])%list w2 Hclock2 Hlive2 Hnd2)
      as (l & w' & Hrun & Hsent & Hticks & Hlen & Hall).
    exists (VDict x :: l), w'. rewrite Hrun, <- app_assoc. cbn [app].
    split_and!.
    + done.
    + by rewrite Hsent.
    + rewrite Hticks, Hticks2. cbn [length]. lia.
    + cbn [length]. by rewrite Hlen.
    + intros [|i] v Hv.
      * cbn in Hv. injection Hv as <-. rewrite Nat.add_0_r, <- Hticks1.
        exists x. split; [done|].
        destruct (put_many_loop_effect E self (VInt n) eat rest _ w2 _ w' Hrun)
          as (_ & _ & Hrest).
        unfold heap_dict.
        rewrite (Hrest x (dict_set (_ttl_attribute self)
                            (VInt (u (w_ticks w1)))
                            (heap_dict (w_heap (world_tick w1)) x))).
        -- apply dict_get_set_eq.
        -- unfold w2. cbn [world_set w_heap]. apply lookup_insert_eq.
        -- exact Hnotin.
      * cbn in Hv. specialize (Hall i v Hv).
        replace (w_ticks w + S i)%nat with (w_ticks w2 + i)%nat; [exact Hall|].
        rewrite Hticks2. lia.
Qed.

End PutManyClock.

(** X26. [put_many] with a whole number of seconds as [expire_in] reads
    the clock once for every item, in order.  For a batch of at most 25
    items whose dictionaries are distinct objects of the store, where at
    each of these readings the clock shows a datetime from which the
    seconds can be counted and the local zone places the sum at a POSIX
    second (its timestamp() returns), the request is issued, the clock
    has advanced by the length of the batch, and the element listed for
    the item at position [i] holds the POSIX second of its own reading;
    item by item, the expirations may differ. *)
Theorem put_many_expire_in_per_item (E : env) (self : _Base) (batch : list value)
    (n : Z) (eat : value) (u : nat -> Z) (w : world) :
  (length batch <= 25)%nat ->
  n <> 0 ->
  truthy (w_heap w) eat = false -> is_dict eat = false ->
  (forall i, (i < length batch)%nat ->
     clock_resolves E n (w_ticks w + i)%nat (u (w_ticks w + i)%nat)) ->
  (forall r, In (VDict r) batch -> is_Some (w_heap w !! r)) ->
  List.NoDup (dict_locs batch) ->
  exists b l,
    w_sent (snd (put_many E self batch (VInt n) eat w))
      = (w_sent w ++ [put_request E b])%list /\
    w_heap (snd (put_many E self batch (VInt n) eat w)) !! b = Some [("items", VList l)] /\
    w_ticks (snd (put_many E self batch (VInt n) eat w)) = (w_ticks w + length batch)%nat /\
    length l = length batch /\
    (forall i x, nth_error l i = Some x ->
       ttl_is (_ttl_attribute self) (u (w_ticks w + i)%nat)
              (w_heap (snd (put_many E self batch (VInt n) eat w))) x).
Proof.
  intros Hlen Hn Hat Heat Hclock Hlive Hnd.
  destruct (put_many_loop_clock E self n eat u Hn Heat (w_heap w) Hat batch [] w)
    as (l & w1 & Hloop & Hsent & Hticks & Hlenl & Hall).
  { exact Hclock. }
  { intros r Hr. apply Hlive. by apply in_dict_locs. }
  { exact Hnd. }
  cbn [app] in Hloop.
  pose proof (fresh_loc_unused (w_heap w1)) as Hfresh.
  pose (b := fresh (dom (w_heap w1))).
  pose (h1 := <[b := [("items", VList l)]]> (w_heap w1)).
  pose (rp := transport E (w_sent w1) (put_request E b) h1).
  assert (Hrun : put_many E self batch (VInt n) eat w =
            (match rp_result rp with
             | Ok cr => Ok (snd cr)
             | Raise e => Raise e
             end,
             mk_world (h1 ∪ rp_objects rp) (w_sent w1 ++ [put_request E b])%list (w_ticks w1))).
  { unfold put_many.
    destruct (25 <? Z.of_nat (length batch)) eqn:Hlt; [apply Z.ltb_lt in Hlt; lia|].
    rewrite (bind_ok _ _ w w1 l Hloop).
    cbn [bind new_dict w_heap w_sent w_ticks].
    unfold _request at 1, bind at 1. cbn [w_heap w_sent w_ticks].
    subst rp h1 b. unfold put_request.
    by destruct (rp_result _) as [[code res]|e]. }
  rewrite Hrun. cbn [fst snd w_heap w_sent w_ticks].
  assert (Hsub1 : w_heap w1 ⊆ h1 ∪ rp_objects rp).
  { etransitivity; [|apply map_union_subseteq_l]. by apply insert_subseteq. }
  exists b, l. split_and!.
  - by rewrite Hsent.
  - apply lookup_union_Some_l. apply lookup_insert_eq.
  - exact Hticks.
  - exact Hlenl.
  - intros i x Hx. eapply ttl_is_weaken; [exact Hsub1 | by apply Hall].
Qed.

(** A clock that advances a second with every reading, in a zone
    without offset: the dictionary gets the second 1700000010 and the
    number the second 1700000011. *)
Lemma put_many_expire_in_per_item_witness :
  exists b l,
    w_sent (snd (put_many ticking_env sample_base [VDict 1%positive; VInt 3]
                          (VInt 10) VNone (world_with [("name", VStr "a")])))
      = (w_sent (world_with [("name", VStr "a")]) ++ [put_request ticking_env b])%list /\
    w_heap (snd (put_many ticking_env sample_base [VDict 1%positive; VInt 3]
                          (VInt 10) VNone (world_with [("name", VStr "a")]))) !! b
      = Some [("items", VList l)] /\
    w_ticks (snd (put_many ticking_env sample_base [VDict 1%positive; VInt 3]
                           (VInt 10) VNone (world_with [("name", VStr "a")])))
      = (w_ticks (world_with [("name", VStr "a")]) + length [VDict 1%positive; VInt 3])%nat /\
    length l = length [VDict 1%positive; VInt 3] /\
    (forall i x, nth_error l i = Some x ->
       ttl_is (_ttl_attribute sample_base)
              ((fun k => 1700000010 + Z.of_nat k)
                 (w_ticks (world_with [("name", VStr "a")]) + i)%nat)
              (w_heap (snd (put_many ticking_env sample_base [VDict 1%positive; VInt 3]
                                     (VInt 10) VNone (world_with [("name", VStr "a")]))))
              x).
Proof.
  apply (put_many_expire_in_per_item ticking_env sample_base [VDict 1%positive; VInt 3]
           10 VNone (fun k => 1700000010 + Z.of_nat k) (world_with [("name", VStr "a")])).
  - simpl. lia.
  - lia.
  - reflexivity.
  - reflexivity.
  - intros i Hi. simpl in Hi.
    destruct i as [|[|i]]; [| |lia];
      (unfold clock_resolves; split_and!; try (vm_compute; congruence); reflexivity).
  - intros r [[= <-]|[[=]|[]]]. by eexists.
  - repeat constructor. intros [].
Defined.
